(** * Attendance management system: a shallow embedding and its properties

    The development follows the repository:
    - [database/schema.sql]: the tables, their keys and the stored procedure
      [MarkAttendance] (module [Schema]);
    - [node-backend/server.js]: the request handlers and the WebSocket
      broadcaster (the modules after [Schema]).

    SQL statements are embedded as functions on an explicit database state;
    a statement that raises an SQL error returns [SqlError] and, where the
    source rolls back, leaves the state as it was. *)

From Stdlib Require Import ZArith List String Ascii Bool Lia.
From Stdlib Require Import Sorted Permutation DecimalString.
From Stdlib Require Import QArith Qround Qabs Qpower Lqa.
From Stdlib Require DecimalPos DecimalZ.
Import ListNotations.

Local Open Scope string_scope.
Local Open Scope Z_scope.

(** ** Results of SQL statements *)

Inductive sql_error : Type :=
| ER_DUP_ENTRY            (* a UNIQUE key would be violated *)
| ER_NO_REFERENCED_ROW_2  (* a FOREIGN KEY has no parent row *)
| ER_DATA_TOO_LONG.       (* a value does not fit its VARCHAR column *)

Inductive sql_result (A : Type) : Type :=
| SqlOk (a : A)
| SqlError (e : sql_error).

Arguments SqlOk {A} a.
Arguments SqlError {A} e.

(** ** Dates and times as the schema stores them *)

(** A [DATE] value. *)
Record date : Type := mkDate { year : Z; month : Z; day : Z }.

(** A [TIME] value, in seconds since 00:00:00. *)
Definition time := Z.

(** A [TIMESTAMP] value, in seconds. *)
Definition timestamp := Z.

Definition date_compare (d1 d2 : date) : comparison :=
  match year d1 ?= year d2 with
  | Eq => match month d1 ?= month d2 with
          | Eq => day d1 ?= day d2
          | c => c
          end
  | c => c
  end.

Definition date_leb (d1 d2 : date) : bool :=
  match date_compare d1 d2 with Gt => false | _ => true end.


Definition string_of_Z (z : Z) : string :=
  NilZero.string_of_int (Z.to_int z).

(** * database/schema.sql *)

Module Schema.

(** [status ENUM('present', 'absent')] *)
Inductive status : Type := present | absent.

Definition status_eqb (a b : status) : bool :=
  match a, b with
  | present, present | absent, absent => true
  | _, _ => false
  end.

Definition status_text (s : status) : string :=
  match s with present => "present" | absent => "absent" end.

(** [CREATE TABLE students] *)
Record student : Type := mkStudent {
  s_id : Z;
  s_student_id : string;
  s_name : string;
  s_email : string;
  s_face_encoding : string;
  s_photo_path : option string
}.

(** [CREATE TABLE classes] *)
Record class : Type := mkClass {
  c_id : Z;
  c_class_name : string;
  c_start_time : time;
  c_end_time : time;
  c_date : date
}.

(** [CREATE TABLE attendance] *)
Record attendance_row : Type := mkAttendance {
  a_id : Z;
  a_student_id : string;
  a_class_id : Z;
  a_status : status;
  a_marked_at : timestamp
}.

(** [CREATE TABLE activity_logs] *)
Record activity_log : Type := mkLog {
  l_activity : string;
  l_timestamp : timestamp
}.

(** The database: the four tables the backend works on, rows in insertion
    order, and the AUTO_INCREMENT counters of the tables. *)
Record db : Type := mkDb {
  students : list student;
  classes : list class;
  attendance : list attendance_row;
  activity_logs : list activity_log;
  next_student_id : Z;
  next_class_id : Z;
  next_attendance_id : Z
}.

Definition empty_db : db := mkDb [] [] [] [] 1 1 1.

(** The columns of [UNIQUE KEY unique_student_class (student_id, class_id)].
    Student identifiers are compared as exact strings (a binary collation);
    the width of the [VARCHAR(50)] column is not modelled here. *)
Definition same_key (sid : string) (cid : Z) (r : attendance_row) : bool :=
  (a_student_id r =? sid)%string && (a_class_id r =? cid)%Z.

Definition key_of (r : attendance_row) : string * Z :=
  (a_student_id r, a_class_id r).

(** The table satisfies [unique_student_class]. *)
Definition unique_student_class (rows : list attendance_row) : Prop :=
  NoDup (map key_of rows).

(** [FOREIGN KEY (class_id) REFERENCES classes(id)]: the parent row exists.
    The table declares no foreign key on [student_id]. *)
Definition class_exists (cid : Z) (d : db) : bool :=
  existsb (fun c => c_id c =? cid) (classes d).

Definition student_exists (sid : string) (d : db) : bool :=
  existsb (fun s => (s_student_id s =? sid)%string) (students d).

Definition log (msg : string) (now : timestamp) (d : db) : db :=
  mkDb (students d) (classes d) (attendance d)
       (activity_logs d ++ [mkLog msg now])
       (next_student_id d) (next_class_id d) (next_attendance_id d).

Definition set_attendance (rows : list attendance_row) (next : Z) (d : db) : db :=
  mkDb (students d) (classes d) rows (activity_logs d)
       (next_student_id d) (next_class_id d) next.

(** [TRIGGER attendance_insert_log AFTER INSERT ON attendance] *)
Definition attendance_insert_log (new : attendance_row) (now : timestamp) (d : db) : db :=
  log ("New attendance record created: Student " ++ a_student_id new ++ " - "
       ++ status_text (a_status new) ++ " for class ID "
       ++ string_of_Z (a_class_id new)) now d.

(** [TRIGGER attendance_update_log AFTER UPDATE ON attendance] *)
Definition attendance_update_log (old new : attendance_row) (now : timestamp) (d : db) : db :=
  if negb (status_eqb (a_status old) (a_status new)) then
    log ("Attendance updated: Student " ++ a_student_id new ++ " changed from "
         ++ status_text (a_status old) ++ " to " ++ status_text (a_status new)
         ++ " for class ID " ++ string_of_Z (a_class_id new)) now d
  else d.

(** The [ON DUPLICATE KEY UPDATE status = p_status, marked_at =
    CURRENT_TIMESTAMP] clause, applied to the row that holds the key. *)
Fixpoint update_duplicate (sid : string) (cid : Z) (st : status) (now : timestamp)
    (rows : list attendance_row) : list attendance_row :=
  match rows with
  | [] => []
  | r :: rest =>
      if same_key sid cid r
      then mkAttendance (a_id r) (a_student_id r) (a_class_id r) st now :: rest
      else r :: update_duplicate sid cid st now rest
  end.

(** [INSERT INTO attendance (student_id, class_id, status) VALUES (...)
     ON DUPLICATE KEY UPDATE status = p_status, marked_at = CURRENT_TIMESTAMP]
    with the table's constraints and triggers. [marked_at] of a new row is its
    default, [CURRENT_TIMESTAMP]. *)
Definition insert_attendance_on_duplicate_update
    (sid : string) (cid : Z) (st : status) (now : timestamp) (d : db) : sql_result db :=
  match find (same_key sid cid) (attendance d) with
  | Some old =>
      let new := mkAttendance (a_id old) (a_student_id old) (a_class_id old) st now in
      SqlOk (attendance_update_log old new now
               (set_attendance (update_duplicate sid cid st now (attendance d))
                               (next_attendance_id d) d))
  | None =>
      if class_exists cid d then
        let new := mkAttendance (next_attendance_id d) sid cid st now in
        SqlOk (attendance_insert_log new now
                 (set_attendance (attendance d ++ [new]) (next_attendance_id d + 1) d))
      else SqlError ER_NO_REFERENCED_ROW_2
  end.

(** [CREATE PROCEDURE MarkAttendance]. The exit handler rolls the
    transaction back and resignals, so a failed call returns the error and
    the caller keeps the database it had. *)
Definition MarkAttendance (p_student_id : string) (p_class_id : Z) (p_status : status)
    (now : timestamp) (d : db) : sql_result db :=
  match insert_attendance_on_duplicate_update p_student_id p_class_id p_status now d with
  | SqlError e => SqlError e
  | SqlOk d1 =>
      SqlOk (log ("Student " ++ p_student_id ++ " marked " ++ status_text p_status
                  ++ " for class ID " ++ string_of_Z p_class_id) now d1)
  end.

(** One call of the procedure, as a client issues it. *)
Record mark_call : Type := mkCall {
  call_student : string;
  call_class : Z;
  call_status : status;
  call_time : timestamp
}.

(** The database after a call: the committed state, or the state before the
    call when the procedure rolled back. *)
Definition after_call (d : db) (c : mark_call) : db :=
  match MarkAttendance (call_student c) (call_class c) (call_status c) (call_time c) d with
  | SqlOk d' => d'
  | SqlError _ => d
  end.


(** The rows of the table that hold a given (student, class) pair. *)
Definition rows_of_pair (sid : string) (cid : Z) (d : db) : list attendance_row :=
  filter (same_key sid cid) (attendance d).

End Schema.

(** * node-backend/server.js *)

(** ** JavaScript values that travel in request and response bodies *)

#[local] Set Warnings "-register-all".

Inductive json : Type :=
| JUndefined
| JNull
| JBool (b : bool)
| JNum (z : Z)
| JStr (s : string)
| JArr (items : list json)
| JObj (fields : list (string * json)).

(** JavaScript truthiness, as [!x] and [x && y] test it. *)
Definition truthy (v : json) : bool :=
  match v with
  | JUndefined | JNull => false
  | JBool b => b
  | JNum z => negb (z =? 0)
  | JStr s => negb (s =? "")%string
  | JArr _ | JObj _ => true
  end.

(** Property access [o.k] on an object literal; a missing key is [undefined]. *)
Fixpoint get_field (k : string) (fields : list (string * json)) : json :=
  match fields with
  | [] => JUndefined
  | (k', v) :: rest => if (k' =? k)%string then v else get_field k rest
  end.

(** An HTTP response: [res.status(n).json(body)]; [res.json(body)] has status 200. *)
Record response : Type := mkResponse {
  res_status : Z;
  res_body : json
}.

Definition res_json (body : json) : response := mkResponse 200 body.
Definition res_error (code : Z) (msg : string) : response :=
  mkResponse code (JObj [("error", JStr msg)]).

(** [process.env]: the options the handlers below read. An unset variable is
    [None]. *)
Record environment : Type := mkEnv {
  ADMIN_USERNAME : option string;
  ADMIN_PASSWORD : option string;
  JWT_SECRET : option string
}.

(** The files on disk the handlers create and remove, by path. *)
Definition file_system := list string.

Definition existsSync (p : string) (fs : file_system) : bool :=
  existsb (fun q => (q =? p)%string) fs.

Definition unlinkSync (p : string) (fs : file_system) : file_system :=
  filter (fun q => negb (q =? p)%string) fs.

Definition writeFileSync (p : string) (fs : file_system) : file_system :=
  if existsSync p fs then fs else (fs ++ [p])%list.

(** ** Students: [POST /api/students], [POST /api/students/with-photo] *)

Module Students.
Import Schema.

(** A value fits a [VARCHAR(n)] column. *)
Definition fits (n : nat) (s : string) : bool := Nat.leb (String.length s) n.

(** [INSERT INTO students (student_id, name, email, face_encoding[, photo_path])]
    with the widths of the columns (strict SQL mode), [student_id VARCHAR(50)
    UNIQUE] and [TRIGGER student_insert_log]. *)
Definition insert_student (student_id name email face_encoding : string)
    (photo_path : option string) (now : timestamp) (d : db) : sql_result (Z * db) :=
  if negb (fits 50 student_id && fits 100 name && fits 100 email
           && match photo_path with Some p => fits 500 p | None => true end)
  then SqlError ER_DATA_TOO_LONG
  else if student_exists student_id d then SqlError ER_DUP_ENTRY
  else
    let row := mkStudent (next_student_id d) student_id name email face_encoding photo_path in
    let d1 := mkDb (students d ++ [row]) (classes d) (attendance d) (activity_logs d)
                   (next_student_id d + 1) (next_class_id d) (next_attendance_id d) in
    SqlOk (next_student_id d,
           log ("New student registered: " ++ name ++ " (" ++ student_id ++ ")") now d1).

(** The body of a student form: a field the client left out is [None]. *)
Record student_form : Type := mkForm {
  f_student_id : option string;
  f_name : option string;
  f_email : option string
}.

Definition notEmpty (f : option string) : bool :=
  match f with
  | Some s => negb (s =? "")%string
  | None => false
  end.

Definition field_text (f : option string) : string :=
  match f with Some s => s | None => "" end.

Section Handlers.

(** [isEmail] of express-validator, an external library. *)
Variable isEmail : string -> bool.

(** [app.post('/api/students', ...)], after [authenticateToken]. The list
    of validation messages in the 400 response is left out. *)
Definition post_students (form : student_form) (now : timestamp) (d : db) : response * db :=
  if negb (notEmpty (f_student_id form) && notEmpty (f_name form)
           && isEmail (field_text (f_email form)))
  then (mkResponse 400 (JObj [("errors", JArr [])]), d)
  else
    match insert_student (field_text (f_student_id form)) (field_text (f_name form))
                         (field_text (f_email form)) "" None now d with
    | SqlOk (id, d') => (res_json (JObj [("success", JBool true); ("id", JNum id)]), d')
    | SqlError ER_DUP_ENTRY => (res_error 400 "Student ID already exists", d)
    | SqlError _ => (res_error 500 "Failed to add student", d)
    end.

End Handlers.

(** [app.post('/api/students/with-photo', ...)], after [authenticateToken]
    and the upload middleware; [file] is the path of the stored photo
    ([req.file.path]), which the middleware has written to disk. The
    recognizer that is spawned after the insert runs outside this process. *)
Definition post_students_with_photo (form : student_form) (file : option string)
    (now : timestamp) (d : db) (fs : file_system) : response * db * file_system :=
  if negb (notEmpty (f_student_id form) && notEmpty (f_name form) && notEmpty (f_email form))
  then (res_error 400 "Student ID, name, and email are required", d, fs)
  else
    match file with
    | None => (res_error 400 "Photo is required", d, fs)
    | Some photoPath =>
        match insert_student (field_text (f_student_id form)) (field_text (f_name form))
                             (field_text (f_email form)) "" (Some photoPath) now d with
        | SqlOk (id, d') =>
            (res_json (JObj [("success", JBool true); ("id", JNum id);
                             ("message", JStr "Student added successfully with photo. Face encoding is being processed.")]),
             d', fs)
        | SqlError e =>
            let fs' := if existsSync photoPath fs then unlinkSync photoPath fs else fs in
            match e with
            | ER_DUP_ENTRY => (res_error 400 "Student ID already exists", d, fs')
            | _ => (res_error 500 "Failed to add student with photo", d, fs')
            end
        end
    end.

(** [app.delete('/api/students/:studentId', ...)]: the third handler that
    writes the students table. *)
Definition delete_student (studentId : string) (d : db) (fs : file_system)
    : response * db * file_system :=
  match find (fun s => (s_student_id s =? studentId)%string) (students d) with
  | None => (res_error 404 "Student not found", d, fs)
  | Some info =>
      let d' := mkDb (filter (fun s => negb (s_student_id s =? studentId)%string) (students d))
                     (classes d)
                     (filter (fun a => negb (a_student_id a =? studentId)%string) (attendance d))
                     (activity_logs d)
                     (next_student_id d) (next_class_id d) (next_attendance_id d) in
      let fs' := match s_photo_path info with
                 | Some p => if existsSync p fs then unlinkSync p fs else fs
                 | None => fs
                 end in
      (res_json (JObj [("success", JBool true);
                       ("message", JStr "Student deleted successfully")]), d', fs')
  end.

(** The requests of the backend API that write the students table. *)
Inductive student_request : Type :=
| PostStudent (form : student_form)
| PostStudentWithPhoto (form : student_form) (file : option string)
| DeleteStudent (studentId : string).

Definition serve (isEmail : string -> bool) (now : timestamp) (st : db * file_system)
    (rq : student_request) : db * file_system :=
  match rq with
  | PostStudent form => (snd (post_students isEmail form now (fst st)), snd st)
  | PostStudentWithPhoto form file =>
      let '(_, d, fs) := post_students_with_photo form file now (fst st) (snd st) in (d, fs)
  | DeleteStudent sid =>
      let '(_, d, fs) := delete_student sid (fst st) (snd st) in (d, fs)
  end.

End Students.

(** ** Authentication: [POST /api/auth/login] and [authenticateToken] *)

Module Auth.

(** The claims of a token: the payload [{ username, role }] that the login
    handler signs, with the [iat] and [exp] fields the library adds
    (seconds). *)
Record claims : Type := mkClaims {
  username : string;
  role : string;
  iat : Z;
  exp : option Z
}.

(** A token: its claims and the signature over them. *)
Record jwt : Type := mkJwt {
  jwt_claims : claims;
  jwt_signature : string
}.

(** [authHeader.split(' ')]: the pieces of a string between single spaces. *)
Fixpoint split_space (s : string) : list string :=
  match s with
  | EmptyString => [EmptyString]
  | String c rest =>
      if Ascii.eqb c " "%char then EmptyString :: split_space rest
      else match split_space rest with
           | piece :: pieces => String c piece :: pieces
           | [] => [String c EmptyString]
           end
  end.

Inductive jwt_error : Type :=
| JsonWebTokenError   (* malformed token, wrong signature or no secret *)
| TokenExpiredError.

Section JsonWebToken.

(** The jsonwebtoken library is an external dependency. Its signature
    function (HMAC-SHA256 under the secret) and the wire format of a token
    are parameters. *)
Variable hmac : string -> claims -> string.
Variable encode : jwt -> string.
Variable decode : string -> option jwt.

(** [jwt.sign(payload, secret, { expiresIn: '24h' })]: fails when the secret
    is missing or empty, and otherwise returns a token whose [exp] is the
    issue time plus [expiresIn] seconds. *)
Definition jwt_sign (user rl : string) (secret : option string) (expiresIn : Z) (now : Z)
    : option string :=
  match secret with
  | None => None
  | Some key =>
      if (key =? "")%string then None
      else
        let c := mkClaims user rl now (Some (now + expiresIn)) in
        Some (encode (mkJwt c (hmac key c)))
  end.

(** [jwt.verify(token, secret, callback)]: the callback receives an error
    when there is no secret, when the token does not decode, when its
    signature is not the one the secret gives, or when the clock has
    reached [exp]; otherwise it receives the claims. *)
Definition jwt_verify (token : string) (secret : option string) (now : Z)
    : claims + jwt_error :=
  match secret with
  | None => inr JsonWebTokenError
  | Some key =>
      if (key =? "")%string then inr JsonWebTokenError
      else
        match decode token with
        | None => inr JsonWebTokenError
        | Some t =>
            if negb (jwt_signature t =? hmac key (jwt_claims t))%string
            then inr JsonWebTokenError
            else
              match exp (jwt_claims t) with
              | Some e => if e <=? now then inr TokenExpiredError else inl (jwt_claims t)
              | None => inl (jwt_claims t)
              end
        end
  end.

(** ['24h'], in seconds. *)
Definition expiresIn_24h : Z := 24 * 60 * 60.

(** The outcome of the login handler: the response, and the token when one
    was issued. *)
Record login_result : Type := mkLogin {
  login_response : response;
  login_token : option string
}.

(** [app.post('/api/auth/login', ...)]. The activity log entries the handler
    writes do not influence its response ([logActivity] swallows its own
    errors). *)
Definition login (env : environment) (user pass : option string) (now : Z) : login_result :=
  if negb (Students.notEmpty user && Students.notEmpty pass)
  then mkLogin (mkResponse 400 (JObj [("errors", JArr [])])) None
  else
    let eq_env (a b : option string) :=
      match a, b with
      | Some x, Some y => (x =? y)%string
      | _, _ => false
      end in
    if eq_env user (ADMIN_USERNAME env) && eq_env pass (ADMIN_PASSWORD env) then
      match jwt_sign (Students.field_text user) "admin" (JWT_SECRET env) expiresIn_24h now with
      | Some token =>
          mkLogin (res_json (JObj [("success", JBool true); ("token", JStr token);
                                   ("user", JObj [("username", JStr (Students.field_text user));
                                                  ("role", JStr "admin")])]))
                  (Some token)
      | None => mkLogin (res_error 500 "Internal server error") None
      end
    else mkLogin (res_error 401 "Invalid credentials") None.

(** What the middleware does with a request: answer it, or hand it to the
    next handler with [req.user] set. *)
Inductive middleware_result : Type :=
| Respond (r : response)
| Next (user : claims).

(** [const token = authHeader && authHeader.split(' ')[1]] *)
Definition bearer_token (authHeader : option string) : option string :=
  match authHeader with
  | None => None
  | Some h => if (h =? "")%string then None else nth_error (split_space h) 1
  end.

(** [authenticateToken] *)
Definition authenticateToken (env : environment) (authHeader : option string) (now : Z)
    : middleware_result :=
  match bearer_token authHeader with
  | None => Respond (res_error 401 "Access token required")
  | Some token =>
      if (token =? "")%string then Respond (res_error 401 "Access token required")
      else
        match jwt_verify token (JWT_SECRET env) now with
        | inr _ => Respond (res_error 403 "Invalid token")
        | inl user => Next user
        end
  end.

(** A token the configured secret signed and whose expiry lies ahead. *)
Definition valid_token (env : environment) (token : string) (now : Z) : Prop :=
  exists key t,
    JWT_SECRET env = Some key /\ key <> ""%string /\
    decode token = Some t /\
    jwt_signature t = hmac key (jwt_claims t) /\
    (forall e, exp (jwt_claims t) = Some e -> now < e).

End JsonWebToken.

(** A signing secret is configured. *)
Definition secret_configured (env : environment) : Prop :=
  exists key, JWT_SECRET env = Some key /\ key <> ""%string.

End Auth.

(** ** JavaScript numbers

    A JavaScript number is an IEEE 754 binary64 value. A finite value is
    kept as the rational it denotes; every arithmetic operation returns the
    exact result rounded to the nearest representable value, ties to even.
    Signed zeros are not distinguished. *)

Module Number.

Local Open Scope Q_scope.

Inductive number : Type :=
| Fin (q : Q)
| PosInf
| NegInf
| NaN.

(** Rounding a rational to the nearest integer, ties to the even one. *)
Definition round_half_even (q : Q) : Z :=
  let f := Qfloor q in
  match Qcompare (q - inject_Z f) (1 # 2) with
  | Lt => f
  | Gt => (f + 1)%Z
  | Eq => if Z.even f then f else (f + 1)%Z
  end.

(** The binary exponent of a positive rational [a / b]: the [e] with
    [2 ^ e <= a / b < 2 ^ (e + 1)]. *)
Definition ilog2 (q : Q) : Z :=
  let k := (Z.log2 (Qnum q) - Z.log2 (Zpos (Qden q)))%Z in
  if Qle_bool (Qpower 2 k) q then k else (k - 1)%Z.

(** The spacing of binary64 values around a positive rational: 53
    significant bits, and no exponent below that of the subnormal values. *)
Definition ulp (q : Q) : Q := 2 ^ (Z.max (ilog2 q - 52) (-1074)).

Definition max_value_bound : Q := 2 ^ 1024.

(** Round-to-nearest-even of a non-negative rational into binary64. *)
Definition round_pos (q : Q) : number :=
  if Qle_bool q 0 then Fin 0
  else
    let r := inject_Z (round_half_even (q / ulp q)) * ulp q in
    if Qle_bool max_value_bound r then PosInf else Fin (Qred r).

Definition neg (x : number) : number :=
  match x with
  | Fin q => Fin (Qred (- q))
  | PosInf => NegInf
  | NegInf => PosInf
  | NaN => NaN
  end.

Definition round (q : Q) : number :=
  if Qle_bool 0 q then round_pos q else neg (round_pos (- q)).

(** The number an integer converts to: itself up to [2 ^ 53] in magnitude
    (every such integer is a binary64 value), the nearest value beyond. *)
Definition of_Z (z : Z) : number :=
  if (Z.abs z <=? 2 ^ 53)%Z then Fin (inject_Z z) else round (inject_Z z).

Definition is_zero (q : Q) : bool := Qeq_bool q 0.
Definition is_neg (q : Q) : bool := negb (Qle_bool 0 q).

(** [x / y] *)
Definition div (x y : number) : number :=
  match x, y with
  | NaN, _ | _, NaN => NaN
  | Fin a, Fin b =>
      if is_zero b then
        if is_zero a then NaN else if is_neg a then NegInf else PosInf
      else round (a / b)
  | Fin _, _ => Fin 0
  | PosInf, Fin b => if is_neg b then NegInf else PosInf
  | NegInf, Fin b => if is_neg b then PosInf else NegInf
  | _, _ => NaN
  end.

(** [x * y] *)
Definition mul (x y : number) : number :=
  match x, y with
  | NaN, _ | _, NaN => NaN
  | Fin a, Fin b => round (a * b)
  | Fin a, PosInf | PosInf, Fin a =>
      if is_zero a then NaN else if is_neg a then NegInf else PosInf
  | Fin a, NegInf | NegInf, Fin a =>
      if is_zero a then NaN else if is_neg a then PosInf else NegInf
  | PosInf, PosInf | NegInf, NegInf => PosInf
  | _, _ => NegInf
  end.

(** [x > 0] *)
Definition gt_zero (x : number) : bool :=
  match x with
  | Fin q => negb (Qle_bool q 0)
  | PosInf => true
  | _ => false
  end.

(** The integer [n] of [Number.prototype.toFixed(2)] for a non-negative
    value: [n / 100 - x] is as close to zero as possible, the larger [n]
    when there are two. *)
Definition hundredths (q : Q) : Z := Qfloor (q * 100 + (1 # 2))%Q.

(** The digits of [n] with a point before the last two, zero-padded. *)
Definition fixed2_digits (n : Z) : string :=
  let frac := (n mod 100)%Z in
  (string_of_Z (n / 100) ++ "." ++
   (if (frac <? 10)%Z then "0" else "") ++ string_of_Z frac)%string.

(** [x.toFixed(2)], for values below [10 ^ 21] in magnitude (larger ones
    print in exponent form and do not arise from a ratio of counts). *)
Definition toFixed2 (x : number) : string :=
  match x with
  | NaN => "NaN"
  | PosInf => "Infinity"
  | NegInf => "-Infinity"
  | Fin q =>
      if is_neg q then ("-" ++ fixed2_digits (hundredths (- q)))%string
      else fixed2_digits (hundredths q)
  end.

End Number.

(** ** Attendance rates: [GET /api/students], [GET /api/dashboard/stats] *)

Module Rates.
Import Schema Number.

(** [((present / total) * 100).toFixed(2)] guarded by [total > 0]: the
    expression both handlers use. The counts are the query's columns. *)
Definition rate_expression (present total : number) : json :=
  if gt_zero total
  then JStr (toFixed2 (mul (div present total) (of_Z 100)))
  else JNum 0.

(** [COUNT(a.id)] of the students query: the attendance rows of a student. *)
Definition total_classes (sid : string) (d : db) : Z :=
  Z.of_nat (List.length (filter (fun a => (a_student_id a =? sid)%string) (attendance d))).

(** [SUM(CASE WHEN a.status = 'present' THEN 1 ELSE 0 END)] of that query. *)
Definition present_classes (sid : string) (d : db) : Z :=
  Z.of_nat (List.length (filter (fun a => (a_student_id a =? sid)%string
                                     && status_eqb (a_status a) present) (attendance d))).

(** [attendanceRate] of a student in the [GET /api/students] response. *)
Definition attendanceRate (sid : string) (d : db) : json :=
  rate_expression (of_Z (present_classes sid d)) (of_Z (total_classes sid d)).

(** [overallAttendanceRate] of the [GET /api/dashboard/stats] response. The
    [SUM] of an empty table is [NULL]; the guard keeps it from being used. *)
Definition overallAttendanceRate (d : db) : json :=
  let total := Z.of_nat (List.length (attendance d)) in
  let present := Z.of_nat (List.length (filter (fun a => status_eqb (a_status a) present)
                                          (attendance d))) in
  rate_expression (of_Z present) (of_Z total).

(** The value of a rate as a count of hundredths of a percent, or [None]
    when the rate is not a number. *)
Definition rate_hundredths (present total : Z) : option Z :=
  if (0 <? total)%Z then
    match mul (div (of_Z present) (of_Z total)) (of_Z 100) with
    | Fin q => Some (if is_neg q then (- hundredths (- q))%Z else hundredths q)
    | _ => None
    end
  else Some 0%Z.

(** The claim's reading of the rate: [present / total] itself, rounded to
    two decimals, as a count of hundredths. *)
Definition ratio_rounded_2 (present total : Z) : Z :=
  hundredths (inject_Z present / inject_Z total)%Q.

End Rates.

(** ** [ORDER BY]

    The rows of a result in the order of a comparison; rows the comparison
    does not separate keep the order they had (a stable insertion sort). *)

Section OrderBy.

Context {A : Type}.
Variable leb : A -> A -> bool.

Fixpoint insert_row (x : A) (l : list A) : list A :=
  match l with
  | [] => [x]
  | y :: rest => if leb x y then x :: l else y :: insert_row x rest
  end.

Definition order_by (l : list A) : list A := fold_right insert_row [] l.

End OrderBy.

(** [LIMIT 1] *)
Definition limit_1 {A : Type} (l : list A) : option A := hd_error l.

(** ** Reports: [GET /api/reports/attendance] *)

Module Reports.
Import Schema.

(** A row of the report: the columns of the [SELECT]. *)
Record report_row : Type := mkRow {
  r_student_id : string;
  r_name : string;
  r_class_name : string;
  r_date : date;
  r_start_time : time;
  r_end_time : time;
  r_status : status;
  r_marked_at : timestamp
}.

(** [FROM attendance a JOIN students s ON a.student_id = s.student_id
     JOIN classes c ON a.class_id = c.id] *)
Definition joined (d : db) : list report_row :=
  flat_map (fun a =>
    flat_map (fun s =>
      if (a_student_id a =? s_student_id s)%string then
        flat_map (fun c =>
          if (a_class_id a =? c_id c)%Z
          then [mkRow (s_student_id s) (s_name s) (c_class_name c) (c_date c)
                      (c_start_time c) (c_end_time c) (a_status a) (a_marked_at a)]
          else []) (classes d)
      else []) (students d)) (attendance d).

(** A query parameter: [req.query.x]. The dates arrive as text that the
    database reads as a [DATE]; an absent parameter is [None]. *)
Definition given (p : option string) : bool :=
  match p with
  | Some s => negb (s =? "")%string
  | None => false
  end.

(** The [WHERE 1=1 AND ...] clause the handler builds: a condition is added
    for each parameter that is given. *)
Definition where_clause (startDate endDate : option date) (studentId : option string)
    (r : report_row) : bool :=
  (match startDate with Some sd => date_leb sd (r_date r) | None => true end)
  && (match endDate with Some ed => date_leb (r_date r) ed | None => true end)
  && (if given studentId
      then (r_student_id r =? Students.field_text studentId)%string
      else true).

(** [ORDER BY c.date DESC, c.start_time ASC, s.name ASC]; names in the order
    of their bytes. *)
Definition report_order (r1 r2 : report_row) : bool :=
  match date_compare (r_date r2) (r_date r1) with
  | Lt => true
  | Gt => false
  | Eq => match (r_start_time r1 ?= r_start_time r2)%Z with
          | Lt => true
          | Gt => false
          | Eq => String.leb (r_name r1) (r_name r2)
          end
  end.


(** The rows [res.json(report)] sends. *)
Definition report (startDate endDate : option date) (studentId : option string) (d : db)
    : list report_row :=
  order_by report_order (filter (where_clause startDate endDate studentId) (joined d)).

End Reports.

(** ** The scheduling resolver: [GET /api/terminal/current-class] *)

Module Terminal.
Import Schema.

(** [new Date()] as the handler reads it: the calendar date and the time of
    day (seconds since midnight) in the server's time zone. *)
Record js_date : Type := mkNow {
  local_date : date;
  local_seconds : Z
}.

(** [String(n).padStart(2, '0')] *)
Definition pad2 (n : Z) : string :=
  if (0 <=? n)%Z && (n <? 10)%Z then ("0" ++ string_of_Z n)%string else string_of_Z n.

Definition pad4 (n : Z) : string :=
  if (0 <=? n)%Z && (n <? 10)%Z then ("000" ++ string_of_Z n)%string
  else if (0 <=? n)%Z && (n <? 100)%Z then ("00" ++ string_of_Z n)%string
  else if (0 <=? n)%Z && (n <? 1000)%Z then ("0" ++ string_of_Z n)%string
  else string_of_Z n.

(** [now.toTimeString().slice(0, 8)] *)
Definition toTimeString8 (seconds : Z) : string :=
  (pad2 (seconds / 3600) ++ ":" ++ pad2 ((seconds / 60) mod 60) ++ ":"
   ++ pad2 (seconds mod 60))%string.

(** [now.getFullYear() + '-' + String(now.getMonth() + 1).padStart(2, '0')
     + '-' + String(now.getDate()).padStart(2, '0')] *)
Definition currentDate (now : js_date) : string :=
  (string_of_Z (year (local_date now)) ++ "-" ++ pad2 (month (local_date now))
   ++ "-" ++ pad2 (day (local_date now)))%string.

Definition currentTime (now : js_date) : string := toTimeString8 (local_seconds now).

(** [new Date(now.getTime() + 60*60*1000).toTimeString().slice(0, 8)]: the
    time of day one hour later (the zone offset does not change within the
    hour). *)
Definition nextHour (now : js_date) : string :=
  toTimeString8 ((local_seconds now + 60 * 60) mod 86400).

(** [DATE_FORMAT(c.date, '%Y-%m-%d')] *)
Definition DATE_FORMAT (d : date) : string :=
  (pad4 (year d) ++ "-" ++ pad2 (month d) ++ "-" ++ pad2 (day d))%string.

(** [TIME_FORMAT(t, '%H:%i:%s')] *)
Definition TIME_FORMAT (t : time) : string :=
  let a := Z.abs t in
  ((if (t <? 0)%Z then "-" else "") ++ pad2 (a / 3600) ++ ":" ++ pad2 ((a / 60) mod 60)
   ++ ":" ++ pad2 (a mod 60))%string.

(** The columns the two queries select. *)
Record class_view : Type := mkView {
  v_class_id : Z;
  v_class_name : string;
  v_date : string;
  v_start_time : string;
  v_end_time : string
}.

Definition view (c : class) : class_view :=
  mkView (c_id c) (c_class_name c) (DATE_FORMAT (c_date c))
         (TIME_FORMAT (c_start_time c)) (TIME_FORMAT (c_end_time c)).

(** [ORDER BY c.start_time ASC] *)
Definition start_time_order (c1 c2 : class) : bool := (c_start_time c1 <=? c_start_time c2)%Z.

(** The first query: the class in session. *)
Definition current_query (cd ct : string) (cs : list class) : option class :=
  limit_1 (order_by start_time_order
    (filter (fun c => (DATE_FORMAT (c_date c) =? cd)%string
                      && String.leb (TIME_FORMAT (c_start_time c)) ct
                      && String.leb ct (TIME_FORMAT (c_end_time c))) cs)).

(** The second query: a class that starts within the next hour. *)
Definition upcoming_query (cd ct nh : string) (cs : list class) : option class :=
  limit_1 (order_by start_time_order
    (filter (fun c => (DATE_FORMAT (c_date c) =? cd)%string
                      && String.ltb ct (TIME_FORMAT (c_start_time c))
                      && String.leb (TIME_FORMAT (c_start_time c)) nh) cs)).

(** The body of the handler's response. *)
Record current_class_response : Type := mkCurrent {
  hasCurrentClass : bool;
  class_ : option class_view;
  hasUpcomingClass : bool;
  upcomingClass : option class_view;
  resp_currentTime : string;
  resp_currentDate : string
}.

(** [app.get('/api/terminal/current-class', ...)] *)
Definition current_class (now : js_date) (d : db) : current_class_response :=
  let ct := currentTime now in
  let cd := currentDate now in
  match current_query cd ct (classes d) with
  | Some c => mkCurrent true (Some (view c)) false None ct cd
  | None =>
      let upcoming := upcoming_query cd ct (nextHour now) (classes d) in
      mkCurrent false None
                (match upcoming with Some _ => true | None => false end)
                (option_map view upcoming) ct cd
  end.



End Terminal.

(** ** The broadcast hub: [connectedClients] and [broadcast] *)

Module Hub.

(** [ws.readyState] *)
Inductive ready_state : Type := CONNECTING | OPEN | CLOSING | CLOSED.

Definition is_open (s : ready_state) : bool :=
  match s with OPEN => true | _ => false end.

(** A socket of the server: its state and the messages written to it, the
    oldest first. *)
Record socket : Type := mkSocket {
  socket_id : Z;
  readyState : ready_state;
  terminalId : json;
  sent : list json
}.

(** [ws.send(JSON.stringify(message))] of the ws library: an error unless
    the socket is open. *)
Definition ws_send (message : json) (ws : socket) : option socket :=
  if is_open (readyState ws)
  then Some (mkSocket (socket_id ws) (readyState ws) (terminalId ws)
                      (sent ws ++ [message]))
  else None.

(** [connectedClients.forEach(callback)]: the callback runs on the sockets
    in insertion order; an exception in a callback ends the loop and leaves
    the remaining sockets as they were. The result is the sockets after the
    loop and whether the loop ran to its end. *)
Fixpoint forEach (callback : socket -> option socket) (clients : list socket)
    : list socket * bool :=
  match clients with
  | [] => ([], true)
  | ws :: rest =>
      match callback ws with
      | None => (ws :: rest, false)
      | Some ws' => let (rest', ok) := forEach callback rest in (ws' :: rest', ok)
      end
  end.

(** [function broadcast(message)] *)
Definition broadcast (message : json) (connectedClients : list socket) : list socket * bool :=
  forEach (fun ws => if is_open (readyState ws) then ws_send message ws else Some ws)
          connectedClients.

(** [wss.on('connection', ...)]: the socket joins the set and receives the
    welcome message. *)
Definition on_connection (ws : socket) (timestamp : string) (connectedClients : list socket)
    : list socket :=
  let welcome := JObj [("type", JStr "connection_established"); ("timestamp", JStr timestamp)] in
  let ws' := match ws_send welcome ws with Some w => w | None => ws end in
  if existsb (fun w => (socket_id w =? socket_id ws)%Z) connectedClients
  then connectedClients
  else (connectedClients ++ [ws'])%list.

(** [ws.on('close', ...)] and [ws.on('error', ...)]: [connectedClients.delete(ws)] *)
Definition on_close (id : Z) (connectedClients : list socket) : list socket :=
  filter (fun w => negb (socket_id w =? id)%Z) connectedClients.

(** What [broadcast] does to one socket. *)
Definition delivered (message : json) (ws ws' : socket) : Prop :=
  (readyState ws = OPEN ->
   ws' = mkSocket (socket_id ws) (readyState ws) (terminalId ws) (sent ws ++ [message])) /\
  (readyState ws <> OPEN -> ws' = ws).

End Hub.

(** ** Frame intake: [POST /api/process-frame] *)

Module Frames.
Import Hub.

(** The code that produced a response: the parameter check, the handler's
    [catch] block, the listener of the recognizer's [close] event, or the
    timer callback. *)
Inductive origin : Type := ByValidation | ByCatch | ByClose | ByTimeout.

(** A response with the moment (milliseconds) and the code that sent it. *)
Record sent_response : Type := mkSent {
  sent_at : Z;
  sent_by : origin;
  sent_response_ : response
}.

(** The state one request works on: the files on disk, the sockets of the
    hub, the responses written to [res], the flag [responseCompleted], the
    deadline of the timer while it is armed, and what happened to the
    recognizer process. *)
Record state : Type := mkState {
  files : file_system;
  clients : list socket;
  responses : list sent_response;
  responseCompleted : bool;
  timer : option Z;
  killed : bool;
  closed : bool
}.

(** [res.headersSent] *)
Definition headersSent (st : state) : bool :=
  match responses st with [] => false | _ => true end.

Definition respond (at_ : Z) (by_ : origin) (r : response) (st : state) : state :=
  mkState (files st) (clients st) (responses st ++ [mkSent at_ by_ r])
          (responseCompleted st) (timer st) (killed st) (closed st).

Definition with_files (fs : file_system) (st : state) : state :=
  mkState fs (clients st) (responses st) (responseCompleted st) (timer st)
          (killed st) (closed st).

Definition with_clients (cs : list socket) (st : state) : state :=
  mkState (files st) cs (responses st) (responseCompleted st) (timer st)
          (killed st) (closed st).

(** [if (fs.existsSync(tempImagePath)) fs.unlinkSync(tempImagePath)] *)
Definition cleanup (path : string) (st : state) : state :=
  if existsSync path (files st) then with_files (unlinkSync path (files st)) st else st.

(** The request body. *)
Record frame_request : Type := mkFrame {
  image : json;
  class_id : json;
  terminal_id : json
}.

(** What [spawn] does: it starts the process; or it throws (the operating
    system refuses at once and the runtime raises the error as an
    exception); or it returns and the child then emits an ['error'] event
    (the program cannot be found or run). The handler registers no listener
    for that event: it becomes an uncaught exception and ends the server
    process. *)
Inductive spawn_outcome : Type := SpawnStarts | SpawnThrows | SpawnEmitsError.

(** What the operating system does with the synchronous calls of the
    handler: [fs.mkdirSync]/[fs.writeFileSync] return or throw, and [spawn]
    has one of its three outcomes. *)
Record system_calls : Type := mkSys {
  write_throws : bool;
  spawn_result : spawn_outcome
}.

(** Where the synchronous part of the handler leaves the request: answered;
    waiting for the events of the recognizer; or lost with the server. *)
Inductive progress : Type := Answered | Listening | Crashed.

(** Template-literal conversion [`${v}`] of a value. *)
Fixpoint template (v : json) : string :=
  match v with
  | JStr s => s
  | JNum z => string_of_Z z
  | JBool true => "true"
  | JBool false => "false"
  | JNull => "null"
  | JUndefined => "undefined"
  | JArr items =>
      String.concat ","
        (map (fun x => match x with
                       | JNull | JUndefined => EmptyString
                       | _ => template x
                       end) items)
  | JObj _ => "[object Object]"
  end.

(** [path.join(__dirname, 'temp', `frame_${terminal_id}_${Date.now()}.jpg`)] *)
Definition tempImagePath (rq : frame_request) (now : Z) : string :=
  ("temp/frame_" ++ template (terminal_id rq) ++ "_" ++ string_of_Z now ++ ".jpg")%string.

(** The timeout of the handler, in milliseconds. *)
Definition timeout_ms : Z := 10000.

(** The synchronous part of the handler, which runs when the request
    arrives at time [now]. After it the listeners and the timer are in place
    unless the request was answered. *)
Definition handler_start (sys : system_calls) (rq : frame_request) (now : Z) (st : state)
    : state * progress :=
  if negb (truthy (image rq)) || negb (truthy (class_id rq)) || negb (truthy (terminal_id rq))
  then (respond now ByValidation (res_error 400 "Missing required parameters") st, Answered)
  else
    match image rq with
    | JStr _ =>
        if write_throws sys
        then (respond now ByCatch (res_error 500 "Failed to process frame") st, Answered)
        else
          let st1 := with_files (writeFileSync (tempImagePath rq now) (files st)) st in
          let listening := mkState (files st1) (clients st1) (responses st1) false
                                   (Some (now + timeout_ms)) false false in
          match spawn_result sys with
          | SpawnThrows =>
              (respond now ByCatch (res_error 500 "Failed to process frame") st1, Answered)
          | SpawnStarts => (listening, Listening)
          | SpawnEmitsError => (listening, Crashed)
          end
    | _ =>
        (* [image.replace] is not a function *)
        (respond now ByCatch (res_error 500 "Failed to process frame") st, Answered)
    end.

(** The message of one entry of [result.attendance_marked]; reading a
    property of [null] or [undefined] throws. *)
Definition attendance_message (rq : frame_request) (timestamp : string) (entry : json)
    : option json :=
  let message name sid :=
    JObj [("type", JStr "attendance_marked"); ("student_name", name); ("student_id", sid);
          ("class_id", class_id rq); ("terminal_id", terminal_id rq);
          ("timestamp", JStr timestamp)] in
  match entry with
  | JNull | JUndefined => None
  | JObj fields => Some (message (get_field "student_name" fields) (get_field "student_id" fields))
  | _ => Some (message JUndefined JUndefined)
  end.

(** [result.attendance_marked.forEach(attendance => broadcast({...}))]: the
    sockets afterwards and whether the loop ran to its end; reading the
    fields of an entry that is [null] throws and ends it. *)
Fixpoint broadcast_each (rq : frame_request) (timestamp : string) (entries : list json)
    (cs : list socket) : list socket * bool :=
  match entries with
  | [] => (cs, true)
  | entry :: rest =>
      match attendance_message rq timestamp entry with
      | None => (cs, false)
      | Some message =>
          let (cs', ok) := broadcast message cs in
          if ok then broadcast_each rq timestamp rest cs' else (cs', false)
      end
  end.

(** The synchronous part of the handler throws when the image is not text
    or when a system call throws. *)
Definition throws (sys : system_calls) (rq : frame_request) : bool :=
  match image rq with
  | JStr _ =>
      write_throws sys || match spawn_result sys with SpawnThrows => true | _ => false end
  | _ => true
  end.

(** The recognizer of the request cannot be started and reports it by an
    ['error'] event. *)
Definition spawn_fails_late (sys : system_calls) (rq : frame_request) : bool :=
  match image rq with
  | JStr _ =>
      negb (write_throws sys)
      && match spawn_result sys with SpawnEmitsError => true | _ => false end
  | _ => false
  end.

Definition passes_validation (rq : frame_request) : Prop :=
  truthy (image rq) = true /\ truthy (class_id rq) = true /\ truthy (terminal_id rq) = true.

Section Listeners.

(** [JSON.parse]: [None] when it throws. *)
Variable JSON_parse : string -> option json.

(** The comparison [v > 0] of JavaScript, with its conversion of [v] to a
    number. *)
Variable js_gt_zero : json -> bool.

(** The [try] block of the [close] listener after [JSON.parse] returned
    [result]: the broadcasts that come before [res.json(result)]; [false]
    when the block throws before it responds. *)
Definition announce (rq : frame_request) (timestamp : string) (result : json)
    (cs : list socket) : list socket * bool :=
  match result with
  | JNull | JUndefined => (cs, false)
  | JObj fields =>
      match get_field "attendance_marked" fields with
      | JArr entries => broadcast_each rq timestamp entries cs
      | JStr s => if (s =? "")%string then (cs, true) else (cs, false)
      | JObj o => if js_gt_zero (get_field "length" o) then (cs, false) else (cs, true)
      | _ => (cs, true)
      end
  | _ => (cs, true)
  end.

(** [pythonProcess.on('close', (code) => ...)], run at time [now] with the
    exit code ([None] when a signal ended the process) and the collected
    standard output. *)
Definition on_close (rq : frame_request) (path : string) (timestamp : string)
    (code : option Z) (output : string) (now : Z) (st : state) : state :=
  let st1 := cleanup path st in
  let st1 := mkState (files st1) (clients st1) (responses st1) (responseCompleted st1)
                     (timer st1) (killed st1) true in
  if headersSent st1 || responseCompleted st1 then st1
  else
    (* responseCompleted = true; clearTimeout(timeoutId) *)
    let st2 := mkState (files st1) (clients st1) (responses st1) true None
                       (killed st1) (closed st1) in
    match code with
    | Some 0%Z =>
        match JSON_parse output with
        | Some result =>
            let (cs, ok) := announce rq timestamp result (clients st2) in
            if ok then respond now ByClose (res_json result) (with_clients cs st2)
            else respond now ByClose (res_error 500 "Failed to process frame")
                         (with_clients cs st2)
        | None => respond now ByClose (res_error 500 "Failed to process frame") st2
        end
    | _ => respond now ByClose (res_error 500 "Face recognition processing failed") st2
    end.

(** The callback of [setTimeout(..., 10000)], run at time [now]. *)
Definition on_timeout (path : string) (now : Z) (st : state) : state :=
  if headersSent st || responseCompleted st then st
  else
    (* responseCompleted = true; pythonProcess.kill() *)
    let st1 := mkState (files st) (clients st) (responses st) true (timer st) true (closed st) in
    respond now ByTimeout (res_error 500 "Frame processing timeout") (cleanup path st1).

(** What the recognizer does when left alone: it exits at some moment with a
    code and its output, or it does not exit. *)
Inductive recognizer : Type :=
| Exits (at_ : Z) (code : option Z) (output : string)
| Hangs.

(** The recognizer of one request. [dies_after] is the delay between [kill]
    and the [close] event of the killed process, [None] when the process
    survives the signal. *)
Record child : Type := mkChild {
  behaviour : recognizer;
  dies_after : option Z
}.

(** The events of one request after the recognizer was started at time
    [t0], in the order the event loop delivers them: the [close] event when
    the process exits before the deadline (the timer is then cleared and
    never fires); otherwise the timer at the deadline and then the [close]
    event of the process, if it dies of the signal or exits later. *)
Definition run (rq : frame_request) (timestamp : string) (c : child) (t0 : Z) (st : state)
    : state :=
  let path := tempImagePath rq t0 in
  let deadline := (t0 + timeout_ms)%Z in
  match behaviour c with
  | Exits at_ code output =>
      if (Z.max t0 at_ <? deadline)%Z
      then on_close rq path timestamp code output (Z.max t0 at_) st
      else
        let st1 := on_timeout path deadline st in
        match dies_after c with
        | Some delay =>
            on_close rq path timestamp None EmptyString (deadline + Z.max 0 delay) st1
        | None => on_close rq path timestamp code output (Z.max t0 at_) st1
        end
  | Hangs =>
      let st1 := on_timeout path deadline st in
      match dies_after c with
      | Some delay =>
          on_close rq path timestamp None EmptyString (deadline + Z.max 0 delay) st1
      | None => st1
      end
  end.

(** One request from its arrival to its last event: the state then, and
    whether the server process is still running. *)
Definition process_frame (sys : system_calls) (rq : frame_request) (timestamp : string)
    (c : child) (t0 : Z) (st : state) : state * bool :=
  let (st1, p) := handler_start sys rq t0 st in
  match p with
  | Answered => (st1, true)
  | Listening => (run rq timestamp c t0 st1, true)
  | Crashed => (st1, false)
  end.

(** The two listeners as events, for arbitrary interleavings. *)
Inductive event : Type :=
| Close (code : option Z) (output : string) (now : Z)
| Timeout (now : Z).

Definition deliver (rq : frame_request) (path timestamp : string) (st : state) (e : event)
    : state :=
  match e with
  | Close code output now => on_close rq path timestamp code output now st
  | Timeout now => on_timeout path now st
  end.

End Listeners.

(** The state a request finds: the files and sockets that exist, and a
    fresh [res]. *)
Definition initial (fs : file_system) (cs : list socket) : state :=
  mkState fs cs [] false None false false.

End Frames.

(** ** Sample data *)

Module Samples.
Import Schema Hub Frames Auth.

(** A database with one class and no student. *)
Definition one_class_db : db :=
  mkDb [] [mkClass 7 "Algebra" 32400 37800 (mkDate 2024 3 1)] [] [] 1 8 1.

(** A database with two students; one attended one class of two, the other
    has no attendance record. *)
Definition two_students_db : db :=
  mkDb [mkStudent 1 "S1" "Ada" "ada@example.org" "" None;
        mkStudent 2 "S2" "Bob" "bob@example.org" "" None]
       [mkClass 1 "Algebra" 32400 37800 (mkDate 2024 3 1);
        mkClass 2 "Physics" 39600 45000 (mkDate 2024 3 1)]
       [mkAttendance 1 "S1" 1 present 100; mkAttendance 2 "S1" 2 absent 200]
       [] 3 3 3.

(** A request whose image is a number: it passes the parameter check. *)
Definition numeric_image : frame_request := mkFrame (JNum 123) (JStr "1") (JStr "T1").

(** A request as a terminal sends it. *)
Definition terminal_frame : frame_request :=
  mkFrame (JStr "data:image/jpeg;base64,/9j/4AAQ") (JNum 1) (JStr "T1").

(** A parser for the samples: it reads the empty object and nothing else. *)
Definition sample_parse (s : string) : option json :=
  if (s =? "{}")%string then Some (JObj []) else None.

(** A configuration, and stand-ins for the token library: the signature is
    the key followed by the user, and the wire format is the user, a dot and
    the signature. *)
Definition sample_env : environment :=
  mkEnv (Some "admin") (Some "s3cret") (Some "signing-key").

Definition sample_hmac (key : string) (c : claims) : string :=
  (key ++ "/" ++ username c)%string.

Definition sample_encode (t : jwt) : string :=
  (username (jwt_claims t) ++ "." ++ jwt_signature t)%string.

Definition sample_decode (token : string) : option jwt :=
  if (token =? "admin.signing-key/admin")%string
  then Some (mkJwt (mkClaims "admin" "admin" 1000 (Some 87400)) "signing-key/admin")
  else None.

End Samples.

(** ** Classes: [POST /api/classes], [DELETE /api/classes/:id] *)

Module Classes.
Import Schema.

(** [logActivity(activity, details)]: the message is the activity alone
    when [details] is not given, and is followed by the JSON text of the
    details otherwise; [stringify] is [JSON.stringify]. *)
Definition logActivity (stringify : json -> string) (activity : string) (details : json)
    (now : timestamp) (d : db) : db :=
  log (if truthy details then (activity ++ " - " ++ stringify details)%string else activity)
      now d.

(** [INSERT INTO classes (class_name, start_time, end_time, date)] with the
    width of [class_name VARCHAR(100)] and [TRIGGER class_insert_log]. *)
Definition insert_class (class_name : string) (start_time end_time : time) (dt : date)
    (now : timestamp) (d : db) : sql_result (Z * db) :=
  if negb (Students.fits 100 class_name) then SqlError ER_DATA_TOO_LONG
  else
    let row := mkClass (next_class_id d) class_name start_time end_time dt in
    let d1 := mkDb (students d) (classes d ++ [row]) (attendance d) (activity_logs d)
                   (next_student_id d) (next_class_id d + 1) (next_attendance_id d) in
    SqlOk (next_class_id d,
           log ("New class created: " ++ class_name ++ " on " ++ Terminal.DATE_FORMAT dt
                ++ " from " ++ Terminal.TIME_FORMAT start_time
                ++ " to " ++ Terminal.TIME_FORMAT end_time) now d1).

(** The body of [POST /api/classes]. *)
Record class_form : Type := mkClassForm {
  f_class_name : option string;
  f_start_time : option string;
  f_end_time : option string;
  f_date : option string
}.

Section Handlers.

(** [isISO8601] of express-validator, and the reading of a text as a [TIME]
    and as a [DATE] by the database ([None] when it rejects the text). *)
Variable isISO8601 : string -> bool.
Variable read_time : string -> option time.
Variable read_date : string -> option date.
Variable stringify : json -> string.

(** [app.post('/api/classes', ...)], after [authenticateToken]. The list of
    validation messages in the 400 response is left out. *)
Definition post_classes (form : class_form) (now : timestamp) (d : db) : response * db :=
  if negb (Students.notEmpty (f_class_name form) && Students.notEmpty (f_start_time form)
           && Students.notEmpty (f_end_time form)
           && isISO8601 (Students.field_text (f_date form)))
  then (mkResponse 400 (JObj [("errors", JArr [])]), d)
  else
    match read_time (Students.field_text (f_start_time form)),
          read_time (Students.field_text (f_end_time form)),
          read_date (Students.field_text (f_date form)) with
    | Some st, Some en, Some dt =>
        match insert_class (Students.field_text (f_class_name form)) st en dt now d with
        | SqlOk (id, d') => (res_json (JObj [("success", JBool true); ("id", JNum id)]), d')
        | SqlError _ => (res_error 500 "Failed to add class", d)
        end
    | _, _, _ => (res_error 500 "Failed to add class", d)
    end.

(** The number the database reads a text as when it compares it with an
    [INT] column; [None] for a text whose number is no integer, which
    equals no key. *)
Variable read_int : string -> option Z.

Definition id_is (id : string) (k : Z) : bool :=
  match read_int id with
  | Some n => k =? n
  | None => false
  end.

(** [app.delete('/api/classes/:id', ...)], after [authenticateToken];
    [classId] is [req.params.id] and [deletedBy] is [req.user.username]. *)
Definition delete_class (classId : string) (deletedBy : string) (now : timestamp) (d : db)
    : response * db :=
  match find (fun c => id_is classId (c_id c)) (classes d) with
  | None => (res_error 404 "Class not found", d)
  | Some c =>
      let d1 := mkDb (students d)
                     (filter (fun c => negb (id_is classId (c_id c))) (classes d))
                     (filter (fun a => negb (id_is classId (a_class_id a))) (attendance d))
                     (activity_logs d)
                     (next_student_id d) (next_class_id d) (next_attendance_id d) in
      (res_json (JObj [("success", JBool true);
                       ("message", JStr "Class deleted successfully")]),
       logActivity stringify ("Class deleted: " ++ c_class_name c)
                   (JObj [("classId", JStr classId); ("deletedBy", JStr deletedBy)]) now d1)
  end.

End Handlers.

End Classes.

(** ** Rosters: [GET /api/attendance/class/:classId], [GetClassAttendanceReport] *)

Module Roster.
Import Schema.

(** A row of the handler's query. *)
Record roster_row : Type := mkRoster {
  ro_id : Z;
  ro_status : status;
  ro_marked_at : timestamp;
  ro_student_id : string;
  ro_name : string;
  ro_email : string
}.

(** [ORDER BY s.name], names in the order of their bytes. *)
Definition by_name (r1 r2 : roster_row) : bool := String.leb (ro_name r1) (ro_name r2).

(** [SELECT a.id, a.status, a.marked_at, s.student_id, s.name, s.email
     FROM attendance a JOIN students s ON a.student_id = s.student_id
     WHERE a.class_id = ? ORDER BY s.name]; [classId] is the text of the
    URL parameter and [read_int] the database's reading of it. *)
Definition class_attendance (read_int : string -> option Z) (classId : string) (d : db)
    : list roster_row :=
  order_by by_name
    (flat_map (fun a =>
       flat_map (fun s =>
         if (a_student_id a =? s_student_id s)%string
            && Classes.id_is read_int classId (a_class_id a)
         then [mkRoster (a_id a) (a_status a) (a_marked_at a)
                        (s_student_id s) (s_name s) (s_email s)]
         else []) (students d)) (attendance d)).

(** A row of the stored procedure [GetClassAttendanceReport]: the marked
    time is [NULL] for a student without a record. *)
Record class_report_row : Type := mkClassReport {
  cr_class_name : string;
  cr_date : date;
  cr_start_time : time;
  cr_end_time : time;
  cr_student_id : string;
  cr_name : string;
  cr_email : string;
  cr_status : status;
  cr_marked_at : option timestamp
}.

Definition report_by_name (r1 r2 : class_report_row) : bool :=
  String.leb (cr_name r1) (cr_name r2).

(** [classes c CROSS JOIN students s LEFT JOIN attendance a
     ON c.id = a.class_id AND s.student_id = a.student_id]: the records of
    the pair, or one row of [NULL]s when there is none;
    [COALESCE(a.status, 'absent')]. *)
Definition left_join_attendance (c : class) (s : student) (d : db) : list class_report_row :=
  match filter (fun a => (a_class_id a =? c_id c)
                         && (a_student_id a =? s_student_id s)%string) (attendance d) with
  | [] => [mkClassReport (c_class_name c) (c_date c) (c_start_time c) (c_end_time c)
                         (s_student_id s) (s_name s) (s_email s) absent None]
  | records =>
      map (fun a => mkClassReport (c_class_name c) (c_date c) (c_start_time c) (c_end_time c)
                                  (s_student_id s) (s_name s) (s_email s)
                                  (a_status a) (Some (a_marked_at a))) records
  end.

(** [CREATE PROCEDURE GetClassAttendanceReport] *)
Definition GetClassAttendanceReport (p_class_id : Z) (d : db) : list class_report_row :=
  order_by report_by_name
    (flat_map (fun c =>
       if c_id c =? p_class_id
       then flat_map (fun s => left_join_attendance c s d) (students d)
       else []) (classes d)).

End Roster.

(** ** Activity logs: [POST /api/logs] *)

Module Logs.
Import Schema.

(** [ORDER BY timestamp DESC] *)
Definition newest_first (l1 l2 : activity_log) : bool := l_timestamp l2 <=? l_timestamp l1.

(** [LIMIT n] *)
Definition limit {A : Type} (n : nat) (l : list A) : list A := firstn n l.

(** [app.post('/api/logs', ...)], after [authenticateToken]: the status of
    the response and the rows of its body (none with an error).
    [LOG_PASSWORD] is the option of that name in [process.env]. *)
Definition post_logs (LOG_PASSWORD : option string) (password : option string) (d : db)
    : Z * list activity_log :=
  if negb (Students.notEmpty password) then (400, [])
  else
    match password, LOG_PASSWORD with
    | Some p, Some q =>
        if (p =? q)%string
        then (200, limit 1000 (order_by newest_first (activity_logs d)))
        else (401, [])
    | _, _ => (401, [])
    end.

End Logs.

(** ** Timetables: [POST /api/upload/timetable] *)

Module Timetable.
Import Schema.

(** A row of the sheet, as [XLSX.utils.sheet_to_json] returns it: a column
    the row leaves empty is [undefined]. *)
Record sheet_row : Type := mkSheetRow {
  row_class_name : json;
  row_start_time : json;
  row_end_time : json;
  row_date : json
}.

Section Upload.

(** The database's reading of the four parameters of the [INSERT] as a name,
    two [TIME]s and a [DATE]; [None] when it rejects one of them. *)
Variable read_row : sheet_row -> option (string * time * time * date).

(** The loop over the rows: a row with an empty column is skipped, a row the
    database rejects is logged and skipped, and [insertedCount] counts the
    others. The statements of one request carry the time of the request. *)
Fixpoint insert_rows (data : list sheet_row) (now : timestamp) (d : db) (insertedCount : Z)
    : db * Z :=
  match data with
  | [] => (d, insertedCount)
  | row :: rest =>
      if truthy (row_class_name row) && truthy (row_start_time row)
         && truthy (row_end_time row) && truthy (row_date row)
      then
        match read_row row with
        | Some (class_name, start_time, end_time, dt) =>
            match Classes.insert_class class_name start_time end_time dt now d with
            | SqlOk (_, d') => insert_rows rest now d' (insertedCount + 1)
            | SqlError _ => insert_rows rest now d insertedCount
            end
        | None => insert_rows rest now d insertedCount
        end
      else insert_rows rest now d insertedCount
  end.

(** [app.post('/api/upload/timetable', ...)], after [authenticateToken] and
    the upload middleware. [file] is [req.file.path]; [sheet] is the rows of
    the first sheet, [None] when the file cannot be read as a workbook.
    [fs.unlinkSync] throws when the file is gone, after the rows were
    inserted. *)
Definition upload_timetable (file : option string) (sheet : option (list sheet_row))
    (now : timestamp) (d : db) (fs : file_system) : response * db * file_system :=
  match file with
  | None => (res_error 400 "No file uploaded", d, fs)
  | Some path =>
      match sheet with
      | None => (res_error 500 "Failed to upload timetable", d, fs)
      | Some data =>
          let (d', insertedCount) := insert_rows data now d 0 in
          if existsSync path fs
          then (res_json (JObj [("success", JBool true);
                                ("message", JStr (string_of_Z insertedCount
                                                  ++ " classes uploaded successfully"))]),
                d', unlinkSync path fs)
          else (res_error 500 "Failed to upload timetable", d', fs)
      end
  end.

End Upload.

End Timetable.

(** ** The backend as a whole: the requests that change the database *)

Module Backend.
Import Schema.

Inductive operation : Type :=
| Mark (call : mark_call)
| StudentRequest (now : timestamp) (rq : Students.student_request)
| PostClass (form : Classes.class_form) (now : timestamp)
| DeleteClass (id : string) (deletedBy : string) (now : timestamp)
| UploadTimetable (file : option string) (sheet : option (list Timetable.sheet_row))
                  (now : timestamp).

Section Step.

Variable isEmail : string -> bool.
Variable isISO8601 : string -> bool.
Variable read_time : string -> option time.
Variable read_date : string -> option date.
Variable stringify : json -> string.
Variable read_int : string -> option Z.
Variable read_row : Timetable.sheet_row -> option (string * time * time * date).

Definition step (st : db * file_system) (op : operation) : db * file_system :=
  match op with
  | Mark call => (after_call (fst st) call, snd st)
  | StudentRequest now rq => Students.serve isEmail now st rq
  | PostClass form now =>
      (snd (Classes.post_classes isISO8601 read_time read_date form now (fst st)), snd st)
  | DeleteClass id deletedBy now =>
      (snd (Classes.delete_class stringify read_int id deletedBy now (fst st)), snd st)
  | UploadTimetable file sheet now =>
      let '(_, d, fs) := Timetable.upload_timetable read_row file sheet now (fst st) (snd st) in
      (d, fs)
  end.

Definition run (ops : list operation) (st : db * file_system) : db * file_system :=
  fold_left step ops st.

End Step.

(** The constraints the schema declares, and the one the handlers keep by
    hand: primary keys are unique and below the counter of their table;
    [student_id] is unique; [(student_id, class_id)] is unique in the
    attendance table; every attendance row belongs to a class that exists. *)
Record consistent (d : db) : Prop := mkConsistent {
  student_keys : NoDup (map s_id (students d));
  student_keys_used : forall s, In s (students d) -> s_id s < next_student_id d;
  student_ids : NoDup (map s_student_id (students d));
  class_keys : NoDup (map c_id (classes d));
  class_keys_used : forall c, In c (classes d) -> c_id c < next_class_id d;
  attendance_keys : NoDup (map a_id (attendance d));
  attendance_keys_used : forall a, In a (attendance d) -> a_id a < next_attendance_id d;
  attendance_pairs : unique_student_class (attendance d);
  attendance_classes : forall a, In a (attendance d) -> class_exists (a_class_id a) d = true
}.

End Backend.

(** * web-attendance-terminal/server.js *)

Module TerminalServer.
Import Hub.

(** [url.split('=')]: the pieces of a string between equals signs. *)
Fixpoint split_equals (s : string) : list string :=
  match s with
  | EmptyString => [EmptyString]
  | String c rest =>
      if Ascii.eqb c "="%char then EmptyString :: split_equals rest
      else match split_equals rest with
           | piece :: pieces => String c piece :: pieces
           | [] => [String c EmptyString]
           end
  end.

(** [const terminalId = req.url.split('=')[1] || 'unknown'] *)
Definition terminal_of_url (url : string) : string :=
  match nth_error (split_equals url) 1 with
  | Some piece => if (piece =? "")%string then "unknown" else piece
  | None => "unknown"
  end.

(** [const terminals = new Map()]: the entries in insertion order. The
    socket of an entry is the object the server holds; what is written to
    the socket shows in the entry. *)
Definition registry : Type := list (string * socket).

(** [terminals.set(terminalId, ws)]: the value of a key that is present is
    replaced where it stands. *)
Fixpoint set (terminalId : string) (ws : socket) (terminals : registry) : registry :=
  match terminals with
  | [] => [(terminalId, ws)]
  | (k, v) :: rest =>
      if (k =? terminalId)%string then (k, ws) :: rest
      else (k, v) :: set terminalId ws rest
  end.

(** [terminals.get(terminalId)] *)
Fixpoint get (terminalId : string) (terminals : registry) : option socket :=
  match terminals with
  | [] => None
  | (k, v) :: rest => if (k =? terminalId)%string then Some v else get terminalId rest
  end.

(** [terminals.delete(terminalId)] *)
Definition delete (terminalId : string) (terminals : registry) : registry :=
  filter (fun e => negb (fst e =? terminalId)%string) terminals.

(** [terminals.forEach((ws, terminalId) => ...)]: an exception in the
    callback ends the loop. *)
Fixpoint forEach (callback : socket -> string -> option socket) (terminals : registry)
    : registry * bool :=
  match terminals with
  | [] => ([], true)
  | (k, ws) :: rest =>
      match callback ws k with
      | None => ((k, ws) :: rest, false)
      | Some ws' => let (rest', ok) := forEach callback rest in ((k, ws') :: rest', ok)
      end
  end.

(** [terminalId !== excludeTerminal], where [excludeTerminal] is [null]
    unless the caller gives it. *)
Definition not_excluded (terminalId : string) (excludeTerminal : option string) : bool :=
  match excludeTerminal with
  | Some x => negb (terminalId =? x)%string
  | None => true
  end.

(** [function broadcast(message, excludeTerminal = null)] *)
Definition broadcast (message : json) (excludeTerminal : option string) (terminals : registry)
    : registry * bool :=
  forEach (fun ws terminalId =>
             if not_excluded terminalId excludeTerminal && is_open (readyState ws)
             then ws_send message ws else Some ws)
          terminals.

(** [function sendToTerminal(terminalId, message)]: the registry afterwards
    and the value returned. *)
Definition sendToTerminal (terminalId : string) (message : json) (terminals : registry)
    : registry * bool :=
  match get terminalId terminals with
  | Some ws =>
      if is_open (readyState ws)
      then match ws_send message ws with
           | Some ws' => (set terminalId ws' terminals, true)
           | None => (terminals, false)
           end
      else (terminals, false)
  | None => (terminals, false)
  end.

(** [getConnectedTerminals: () => Array.from(terminals.keys())] *)
Definition getConnectedTerminals (terminals : registry) : list string := map fst terminals.

(** [wss.on('connection', (ws, req) => ...)]: the socket is registered under
    the identifier of the URL and receives the welcome message. *)
Definition on_connection (url : string) (ws : socket) (timestamp : string)
    (terminals : registry) : registry :=
  let terminalId := terminal_of_url url in
  let welcome := JObj [("type", JStr "connection_established");
                       ("terminal_id", JStr terminalId); ("timestamp", JStr timestamp)] in
  set terminalId (match ws_send welcome ws with Some w => w | None => ws end) terminals.

(** [ws.on('close', () => { terminals.delete(terminalId) })], where
    [terminalId] is the identifier the connection was registered under. *)
Definition on_close (terminalId : string) (terminals : registry) : registry :=
  delete terminalId terminals.

Section Messages.

(** [JSON.parse]: [None] when it throws. *)
Variable JSON_parse : string -> option json.

(** [ws.on('message', (message) => ...)] of the connection registered under
    [terminalId]. *)
Definition on_message (terminalId : string) (message : string) (timestamp : string)
    (terminals : registry) : registry :=
  match JSON_parse message with
  | Some (JObj data) =>
      match get_field "type" data with
      | JStr type =>
          if (type =? "class_selected")%string then
            fst (broadcast (JObj [("type", JStr "terminal_class_selected");
                                  ("terminal_id", JStr terminalId);
                                  ("class_id", get_field "class_id" data)])
                           (Some terminalId) terminals)
          else if (type =? "attendance_marked")%string then
            fst (broadcast (JObj [("type", JStr "attendance_update");
                                  ("student_id", get_field "student_id" data);
                                  ("class_id", get_field "class_id" data);
                                  ("timestamp", JStr timestamp)])
                           None terminals)
          else terminals
      | _ => terminals
      end
  | _ => terminals
  end.

End Messages.

End TerminalServer.

(** * web-attendance-terminal/attendance-terminal.js *)

Module TerminalClient.
Import Terminal.

(** [isClassCurrentlyActive(classItem)], with [now] for [new Date()];
    [classItem] is an element of the list [GET /api/terminal/classes]
    returns. *)
Definition isClassCurrentlyActive (now : js_date) (classItem : class_view) : bool :=
  (v_date classItem =? currentDate now)%string
  && String.leb (v_start_time classItem) (currentTime now)
  && String.leb (currentTime now) (v_end_time classItem).

(** An entry of the log on the page. *)
Record log_entry : Type := mkEntry {
  className : string;
  textContent : string
}.

(** [while (logContainer.children.length > 20)
       logContainer.removeChild(logContainer.lastChild)];
    [rounds] bounds the number of rounds of the loop. *)
Fixpoint keep_last_20 (rounds : nat) (children : list log_entry) : list log_entry :=
  match rounds with
  | O => children
  | S rounds' =>
      if Nat.ltb 20 (List.length children)
      then keep_last_20 rounds' (removelast children)
      else children
  end.

(** [log(message, type = 'info')]: the children of [logContainer]
    afterwards, the first child first; [time] is
    [new Date().toLocaleTimeString()]. Removing one child a round, the loop
    needs no more rounds than there are children. *)
Definition log (time message type : string) (logContainer : list log_entry)
    : list log_entry :=
  let logEntry := mkEntry ("log-entry " ++ type) (time ++ ": " ++ message) in
  let children := logEntry :: logContainer in
  keep_last_20 (List.length children) children.

(** The log after a series of calls, the first call first. *)
Definition log_all (calls : list (string * string * string)) (logContainer : list log_entry)
    : list log_entry :=
  fold_left (fun c '(time, message, type) => log time message type c) calls logContainer.

End TerminalClient.

(** ** The student report of the schema: [GetStudentAttendanceReport] *)

Module StudentReport.
Import Schema.

(** A row of [students s LEFT JOIN attendance a ... LEFT JOIN classes c]:
    the columns of a table that found no partner are [NULL]. *)
Record left_row : Type := mkLeft {
  lr_student : student;
  lr_attendance : option attendance_row;
  lr_class : option class
}.

(** [FROM students s
     LEFT JOIN attendance a ON s.student_id = a.student_id
     LEFT JOIN classes c ON a.class_id = c.id] *)
Definition left_joined (d : db) : list left_row :=
  flat_map (fun s =>
    match filter (fun a => (s_student_id s =? a_student_id a)%string) (attendance d) with
    | [] => [mkLeft s None None]
    | records =>
        flat_map (fun a =>
          match filter (fun c => a_class_id a =? c_id c) (classes d) with
          | [] => [mkLeft s (Some a) None]
          | found => map (fun c => mkLeft s (Some a) (Some c)) found
          end) records
    end) (students d).

(** [WHERE s.student_id = p_student_id
     AND c.date BETWEEN p_start_date AND p_end_date]: a comparison with
    [NULL] is not true. *)
Definition where_clause (p_student_id : string) (p_start_date p_end_date : date)
    (r : left_row) : bool :=
  (s_student_id (lr_student r) =? p_student_id)%string
  && match lr_class r with
     | Some c => date_leb p_start_date (c_date c) && date_leb (c_date c) p_end_date
     | None => false
     end.

(** The order of a column that can be [NULL]: [NULL] comes before every
    value. *)
Definition null_first {A : Type} (cmp : A -> A -> comparison) (x y : option A) : comparison :=
  match x, y with
  | None, None => Eq
  | None, Some _ => Lt
  | Some _, None => Gt
  | Some a, Some b => cmp a b
  end.

(** [ORDER BY c.date DESC, c.start_time ASC] *)
Definition report_order (r1 r2 : left_row) : bool :=
  match null_first date_compare (option_map c_date (lr_class r2))
                   (option_map c_date (lr_class r1)) with
  | Lt => true
  | Gt => false
  | Eq => match null_first Z.compare (option_map c_start_time (lr_class r1))
                           (option_map c_start_time (lr_class r2)) with
          | Gt => false
          | _ => true
          end
  end.

(** The columns of the [SELECT]. *)
Record student_report_row : Type := mkStudentReport {
  sr_student_id : string;
  sr_name : string;
  sr_class_name : option string;
  sr_date : option date;
  sr_start_time : option time;
  sr_end_time : option time;
  sr_status : option status;
  sr_marked_at : option timestamp
}.

Definition select (r : left_row) : student_report_row :=
  mkStudentReport (s_student_id (lr_student r)) (s_name (lr_student r))
                  (option_map c_class_name (lr_class r)) (option_map c_date (lr_class r))
                  (option_map c_start_time (lr_class r)) (option_map c_end_time (lr_class r))
                  (option_map a_status (lr_attendance r))
                  (option_map a_marked_at (lr_attendance r)).

(** [CREATE PROCEDURE GetStudentAttendanceReport] *)
Definition GetStudentAttendanceReport (p_student_id : string) (p_start_date p_end_date : date)
    (d : db) : list student_report_row :=
  map select (order_by report_order
                (filter (where_clause p_student_id p_start_date p_end_date) (left_joined d))).

(** A row of [GET /api/reports/attendance], which selects the same columns,
    as a row of the procedure. *)
Definition of_report_row (r : Reports.report_row) : student_report_row :=
  mkStudentReport (Reports.r_student_id r) (Reports.r_name r)
                  (Some (Reports.r_class_name r)) (Some (Reports.r_date r))
                  (Some (Reports.r_start_time r)) (Some (Reports.r_end_time r))
                  (Some (Reports.r_status r)) (Some (Reports.r_marked_at r)).

End StudentReport.

(** ** Sample requests *)

Module MoreSamples.
Import Schema.

(** Stand-ins for the validators and for the database's reading of texts. *)
Definition accept_all (s : string) : bool := true.
Definition nine_o_clock (s : string) : option time := Some 32400.
Definition first_of_march (s : string) : option date := Some (mkDate 2024 3 1).
Definition no_details (v : json) : string := "{}".
Definition read_one (s : string) : option Z := if (s =? "1")%string then Some 1 else None.
Definition reject_rows (row : Timetable.sheet_row) : option (string * time * time * date) :=
  None.
Definition algebra_rows (row : Timetable.sheet_row) : option (string * time * time * date) :=
  Some ("Algebra"%string, 32400, 37800, mkDate 2024 3 1).

Definition algebra_form : Classes.class_form :=
  Classes.mkClassForm (Some "Algebra") (Some "09:00") (Some "10:30") (Some "2024-03-01").

Definition ada_form : Students.student_form :=
  Students.mkForm (Some "S1") (Some "Ada") (Some "ada@example.org").

(** A class is created, a student registered and marked, and the class
    deleted. *)
Definition sample_requests : list Backend.operation :=
  [Backend.PostClass algebra_form 10;
   Backend.StudentRequest 20 (Students.PostStudent ada_form);
   Backend.Mark (mkCall "S1" 1 present 30);
   Backend.DeleteClass "1" "admin" 40].

(** A sheet of two rows, the second without a date. *)
Definition sample_sheet : list Timetable.sheet_row :=
  [Timetable.mkSheetRow (JStr "Algebra") (JStr "09:00") (JStr "10:30") (JStr "2024-03-01");
   Timetable.mkSheetRow (JStr "Physics") (JStr "11:00") (JStr "12:30") JUndefined].

(** Two terminals, the second with a closed socket. *)
Definition sample_registry : TerminalServer.registry :=
  [("T1"%string, Hub.mkSocket 1 Hub.OPEN JUndefined []);
   ("T2"%string, Hub.mkSocket 2 Hub.CLOSED JUndefined [])].

(** The output of a recognizer that marked one student, and a parser that
    reads it. *)
Definition marked_result : list (string * json) :=
  [("success", JBool true);
   ("attendance_marked",
    JArr [JObj [("student_name", JStr "Ada"); ("student_id", JStr "S1")]])].

Definition marked_parse (s : string) : option json :=
  if (s =? "marked")%string then Some (JObj marked_result) else None.




(** An open and a closed socket of the hub. *)
Definition sample_sockets : list Hub.socket :=
  [Hub.mkSocket 1 Hub.OPEN JUndefined []; Hub.mkSocket 2 Hub.CLOSED JUndefined []].

(** The frame request of [Samples.terminal_frame] is over after 10 seconds;
    the timer fires, the killed recognizer closes, and a stray timer event
    follows. *)
Definition late_events : list Frames.event :=
  [Frames.Timeout 11000; Frames.Close None "" 11005; Frames.Timeout 11010].

End MoreSamples.

(** * Properties *)

(** ** The attendance table and [MarkAttendance] *)

Module SchemaFacts.
Import Schema Samples.

Lemma same_key_iff sid cid r : same_key sid cid r = true <-> key_of r = (sid, cid).
Proof.
  unfold same_key, key_of. rewrite andb_true_iff, String.eqb_eq, Z.eqb_eq.
  split; [intros [-> ->]; reflexivity | intros [= -> ->]; auto].
Qed.

Lemma find_none_no_key sid cid rows :
  find (same_key sid cid) rows = None -> ~ In (sid, cid) (map key_of rows).
Proof.
  intros Hfind Hin. apply in_map_iff in Hin as (r & Hk & Hr).
  apply (find_none _ _ Hfind) in Hr. apply same_key_iff in Hk. congruence.
Qed.

Lemma no_key_filter_nil sid cid rows :
  ~ In (sid, cid) (map key_of rows) -> filter (same_key sid cid) rows = [].
Proof.
  induction rows as [|r rows IH]; simpl; intros Hn; [reflexivity|].
  destruct (same_key sid cid r) eqn:E.
  - apply same_key_iff in E. tauto.
  - apply IH. tauto.
Qed.

Lemma update_duplicate_keys sid cid st now rows :
  map key_of (update_duplicate sid cid st now rows) = map key_of rows.
Proof.
  induction rows as [|r rows IH]; simpl; [reflexivity|].
  destruct (same_key sid cid r); simpl; [reflexivity | now rewrite IH].
Qed.


(** The three log writers leave the other tables alone. *)
Lemma log_attendance msg now d : attendance (log msg now d) = attendance d.
Proof. reflexivity. Qed.

Lemma update_log_attendance old new now d :
  attendance (attendance_update_log old new now d) = attendance d.
Proof. unfold attendance_update_log. now destruct (negb _). Qed.

Lemma update_log_classes old new now d :
  classes (attendance_update_log old new now d) = classes d.
Proof. unfold attendance_update_log. now destruct (negb _). Qed.

(** What a committed call did to the attendance table. *)
Lemma MarkAttendance_ok sid cid st now d d' :
  MarkAttendance sid cid st now d = SqlOk d' ->
  classes d' = classes d /\
  match find (same_key sid cid) (attendance d) with
  | Some _ => attendance d' = update_duplicate sid cid st now (attendance d)
  | None => attendance d' = (attendance d ++ [mkAttendance (next_attendance_id d) sid cid st now])%list
  end.
Proof.
  unfold MarkAttendance, insert_attendance_on_duplicate_update.
  destruct (find (same_key sid cid) (attendance d)) as [old|] eqn:Hf.
  - intros [= <-]. simpl. now rewrite update_log_attendance, update_log_classes.
  - destruct (class_exists cid d); [|discriminate]. intros [= <-]. now simpl.
Qed.

(** A call commits whenever the class exists. *)
Lemma MarkAttendance_commits sid cid st now d :
  class_exists cid d = true -> exists d', MarkAttendance sid cid st now d = SqlOk d'.
Proof.
  intros Hc. unfold MarkAttendance, insert_attendance_on_duplicate_update.
  destruct (find _ _); [eauto|]. rewrite Hc. eauto.
Qed.

Lemma MarkAttendance_unique sid cid st now d d' :
  unique_student_class (attendance d) ->
  MarkAttendance sid cid st now d = SqlOk d' ->
  unique_student_class (attendance d').
Proof.
  intros Hu Hm. apply MarkAttendance_ok in Hm as [_ Hatt].
  unfold unique_student_class in *.
  destruct (find (same_key sid cid) (attendance d)) eqn:Hf; rewrite Hatt.
  - now rewrite update_duplicate_keys.
  - rewrite map_app. simpl.
    apply NoDup_app; [exact Hu | repeat constructor; simpl; tauto |].
    intros k Hin [<-|[]]. now apply (find_none_no_key _ _ _ Hf).
Qed.







(** C5, at the failing input: the student "S404" is in no row of the
    students table, the class 7 exists; the call commits and the attendance
    table then holds a row for the unknown student. *)
Theorem mark_unknown_student_creates_row :
  student_exists "S404" one_class_db = false /\
  exists d',
    MarkAttendance "S404" 7 present 100 one_class_db = SqlOk d' /\
    rows_of_pair "S404" 7 d' = [mkAttendance 1 "S404" 7 present 100].
Proof.
  split; [reflexivity|]. eexists. split; reflexivity.
Qed.

End SchemaFacts.

(** ** Students: the face encoding of a created student *)

Module StudentsFacts.
Import Schema Students.

Lemma insert_student_ok sid name email enc photo now d id d' :
  insert_student sid name email enc photo now d = SqlOk (id, d') ->
  students d' = (students d ++ [mkStudent id sid name email enc photo])%list.
Proof.
  unfold insert_student. destruct (negb _); [discriminate|].
  destruct (student_exists sid d); [discriminate|].
  intros [= <- <-]. reflexivity.
Qed.

(** The row of a committed insert, in a handler whose check [Ev] of the form
    passed: it is appended, carries the identifier of the form and the
    encoding the handler gave. *)
Ltac inserted_row Hi Ev :=
  apply insert_student_ok in Hi; eexists; split; [exact Hi|]; simpl;
  apply negb_false_iff in Ev; rewrite !andb_true_iff in Ev;
  destruct Ev as [[? _] _];
  match goal with
  | |- context [f_student_id ?form] => destruct (f_student_id form); [auto | discriminate]
  end.

Lemma post_students_rows isEmail form now d :
  let (r, d') := post_students isEmail form now d in
  students d' = students d \/
  exists row, students d' = (students d ++ [row])%list /\
              res_status r = 200 /\
              Some (s_student_id row) = f_student_id form /\
              s_face_encoding row = "".
Proof.
  unfold post_students.
  destruct (negb _) eqn:Ev; [now left|].
  destruct (insert_student _ _ _ _ _ _ _) as [[id d']|e] eqn:Hi.
  - right. inserted_row Hi Ev.
  - destruct e; now left.
Qed.

Lemma post_students_with_photo_rows form file now d fs :
  let '(r, d', _) := post_students_with_photo form file now d fs in
  students d' = students d \/
  exists row, students d' = (students d ++ [row])%list /\
              res_status r = 200 /\
              Some (s_student_id row) = f_student_id form /\
              s_face_encoding row = "".
Proof.
  unfold post_students_with_photo.
  destruct (negb _) eqn:Ev; [now left|].
  destruct file as [photoPath|]; [|now left].
  destruct (insert_student _ _ _ _ _ _ _) as [[id d']|e] eqn:Hi.
  - right. inserted_row Hi Ev.
  - destruct e; now left.
Qed.

(** A student row after a request was in the table before it, or has the
    empty encoding. *)
Lemma serve_rows isEmail now st rq s :
  In s (students (fst (serve isEmail now st rq))) ->
  In s (students (fst st)) \/ s_face_encoding s = "".
Proof.
  destruct st as [d fs]. destruct rq as [form|form file|sid]; simpl.
  - pose proof (post_students_rows isEmail form now d) as H.
    destruct (post_students isEmail form now d) as [r d']. simpl.
    destruct H as [-> | (row & -> & _ & _ & Henc)]; [auto|].
    rewrite in_app_iff. simpl. intros [H|[<-|[]]]; auto.
  - pose proof (post_students_with_photo_rows form file now d fs) as H.
    destruct (post_students_with_photo form file now d fs) as [[r d'] fs']. simpl.
    destruct H as [-> | (row & -> & _ & _ & Henc)]; [auto|].
    rewrite in_app_iff. simpl. intros [H|[<-|[]]]; auto.
  - unfold delete_student. destruct (find _ _); simpl; [|auto].
    rewrite filter_In. tauto.
Qed.

(** C9: a student that either POST handler creates is inserted with the
    empty face encoding, and after any sequence of the backend's requests on
    the students table every row either was there from the start or has the
    empty encoding: the backend writes no other. *)
Theorem created_students_have_empty_encoding :
  forall (isEmail : string -> bool),
    (forall form now d,
        res_status (fst (post_students isEmail form now d)) = 200 ->
        exists row,
          students (snd (post_students isEmail form now d)) = (students d ++ [row])%list /\
          Some (s_student_id row) = f_student_id form /\ s_face_encoding row = "") /\
    (forall form file now d fs,
        res_status (fst (fst (post_students_with_photo form file now d fs))) = 200 ->
        exists row,
          students (snd (fst (post_students_with_photo form file now d fs)))
          = (students d ++ [row])%list /\
          Some (s_student_id row) = f_student_id form /\ s_face_encoding row = "") /\
    (forall (requests : list (timestamp * student_request)) st s,
        In s (students (fst (fold_left (fun st rq => serve isEmail (fst rq) st (snd rq))
                                       requests st))) ->
        In s (students (fst st)) \/ s_face_encoding s = "").
Proof.
  intros isEmail. split; [|split].
  - intros form now d. unfold post_students.
    destruct (negb _) eqn:Ev; [discriminate|].
    destruct (insert_student _ _ _ _ _ _ _) as [[id d']|e] eqn:Hi.
    + intros _. inserted_row Hi Ev.
    + destruct e; discriminate.
  - intros form file now d fs. unfold post_students_with_photo.
    destruct (negb _) eqn:Ev; [discriminate|].
    destruct file as [photoPath|]; [|discriminate].
    destruct (insert_student _ _ _ _ _ _ _) as [[id d']|e] eqn:Hi.
    + intros _. inserted_row Hi Ev.
    + destruct e; discriminate.
  - intros requests. induction requests as [|[now rq] requests IH]; intros st s; simpl.
    + auto.
    + intros H. apply IH in H. destruct H as [H|H]; [|auto].
      now apply serve_rows in H.
Qed.

End StudentsFacts.

(** ** The broadcast hub *)

Module HubFacts.
Import Hub.

Lemma is_open_iff s : is_open s = true <-> s = OPEN.
Proof. destruct s; simpl; split; congruence. Qed.

(** C8: [broadcast] never throws, whatever the states of the registered
    sockets; it runs over all of them, appends the event to the messages of
    every open socket and leaves every socket that is not open as it was. *)
Theorem broadcast_skips_closed_sockets :
  forall message connectedClients,
    snd (broadcast message connectedClients) = true /\
    Forall2 (delivered message) connectedClients (fst (broadcast message connectedClients)).
Proof.
  intros message cs. unfold broadcast.
  induction cs as [|ws cs [IHok IHall]]; simpl; [split; constructor|].
  unfold ws_send at 1 3.
  destruct (is_open (readyState ws)) eqn:E; simpl;
    destruct (forEach _ cs) as [cs' ok]; simpl in *; (split; [assumption|]);
    constructor; try assumption; split; intros H; try reflexivity.
  - apply is_open_iff in E. contradiction.
  - apply is_open_iff in H. congruence.
Qed.

End HubFacts.

(** ** Authentication *)

Module AuthFacts.
Import Auth Students Samples.

Section WithLibrary.

Variable hmac : string -> claims -> string.
Variable encode : jwt -> string.
Variable decode : string -> option jwt.

Lemma jwt_sign_configured user rl env e now :
  secret_configured env ->
  exists c, jwt_sign hmac encode user rl (JWT_SECRET env) e now
            = Some (encode (mkJwt c (hmac (field_text (JWT_SECRET env)) c))) /\
            iat c = now /\ exp c = Some (now + e) /\ username c = user /\ role c = rl.
Proof.
  intros (key & -> & Hk). unfold jwt_sign. apply String.eqb_neq in Hk. rewrite Hk.
  eexists. split; [reflexivity|]. simpl. auto.
Qed.

Lemma jwt_verify_accepts env token now user :
  jwt_verify hmac decode token (JWT_SECRET env) now = inl user <->
  valid_token hmac decode env token now /\
  option_map jwt_claims (decode token) = Some user.
Proof.
  unfold jwt_verify, valid_token. split.
  - destruct (JWT_SECRET env) as [key|]; [|discriminate].
    destruct (key =? "")%string eqn:Ek; [discriminate|].
    destruct (decode token) as [t|]; [|discriminate].
    destruct (negb _) eqn:Es; [discriminate|].
    apply negb_false_iff, String.eqb_eq in Es. apply String.eqb_neq in Ek.
    destruct (exp (jwt_claims t)) as [e|] eqn:Ee.
    + destruct (e <=? now) eqn:El; [discriminate|]. intros [= <-].
      apply Z.leb_gt in El. split; [|reflexivity].
      exists key, t. repeat split; auto.
      intros e' He'. assert (e' = e) by congruence. subst e'. exact El.
    + intros [= <-]. split; [|reflexivity].
      exists key, t. repeat split; auto. intros e' He'. congruence.
  - intros [(key & t & -> & Hk & Hd & Hs & He) Hu]. rewrite Hd in *. simpl in Hu.
    injection Hu as <-. apply String.eqb_neq in Hk. rewrite Hk.
    rewrite Hs, String.eqb_refl. simpl.
    destruct (exp (jwt_claims t)) as [e|]; [|reflexivity].
    specialize (He e eq_refl). apply Z.leb_gt in He. now rewrite He.
Qed.

Lemma option_string_dec (a b : option string) : {a = b} + {a <> b}.
Proof. decide equality. apply string_dec. Qed.

Lemma option_eqb_eq (a b : option string) :
  match a, b with Some x, Some y => (x =? y)%string | _, _ => false end = true <->
  a = b /\ a <> None.
Proof.
  destruct a as [x|], b as [y|]; simpl; try (split; [discriminate | intros [H1 H2]; congruence]).
  rewrite String.eqb_eq. split; [intros ->; split; congruence | intros [[= ->] _]; reflexivity].
Qed.

(** C10, as the handlers have it. With a signing secret configured:
    the login handler issues a token exactly when the username and the
    password are both given, not empty, and equal to the configured
    credentials; it answers 400 when one of them is empty or missing and 401
    when they are given and do not match; an issued token is signed with the
    secret and expires 24 hours after the moment of issue. The middleware
    hands a request on exactly when the second word of its Authorization
    header is a token that the secret signed and that has not expired; it
    answers 401 when there is no such word and 403 when the word is not a
    valid token. *)
Theorem login_and_token_check :
  forall env user pass authHeader now,
    secret_configured env ->
    let matching := notEmpty user = true /\ notEmpty pass = true /\
                    user = ADMIN_USERNAME env /\ pass = ADMIN_PASSWORD env in
    let r := login hmac encode env user pass now in
    ((exists token, login_token r = Some token) <-> matching) /\
    (matching -> exists c,
        login_token r = Some (encode (mkJwt c (hmac (field_text (JWT_SECRET env)) c))) /\
        res_status (login_response r) = 200 /\
        iat c = now /\ exp c = Some (now + 24 * 60 * 60)) /\
    (notEmpty user = false \/ notEmpty pass = false ->
        res_status (login_response r) = 400 /\ login_token r = None) /\
    (notEmpty user = true -> notEmpty pass = true ->
        ~ (user = ADMIN_USERNAME env /\ pass = ADMIN_PASSWORD env) ->
        res_status (login_response r) = 401 /\ login_token r = None) /\
    let m := authenticateToken hmac decode env authHeader now in
    (forall u, m = Next u <->
               exists token, bearer_token authHeader = Some token /\ token <> ""%string /\
                             valid_token hmac decode env token now /\
                             option_map jwt_claims (decode token) = Some u) /\
    ((bearer_token authHeader = None \/ bearer_token authHeader = Some ""%string) ->
        m = Respond (res_error 401 "Access token required")) /\
    (forall token, bearer_token authHeader = Some token -> token <> ""%string ->
                   ~ valid_token hmac decode env token now ->
                   m = Respond (res_error 403 "Invalid token")).
Proof.
  intros env user pass authHeader now Hsec matching r.
  assert (Hlogin : matching ->
            exists c, login_token r = Some (encode (mkJwt c (hmac (field_text (JWT_SECRET env)) c))) /\
                      res_status (login_response r) = 200 /\
                      iat c = now /\ exp c = Some (now + 24 * 60 * 60)).
  { intros (Hu & Hp & Hue & Hpe). subst r. unfold login. rewrite Hu, Hp. simpl negb. cbv iota.
    assert (E1 : match user, ADMIN_USERNAME env with
                 | Some x, Some y => (x =? y)%string | _, _ => false end = true).
    { apply option_eqb_eq. split; [exact Hue|]. destruct user; [discriminate | discriminate Hu]. }
    assert (E2 : match pass, ADMIN_PASSWORD env with
                 | Some x, Some y => (x =? y)%string | _, _ => false end = true).
    { apply option_eqb_eq. split; [exact Hpe|]. destruct pass; [discriminate | discriminate Hp]. }
    rewrite E1, E2. simpl andb. cbv iota.
    destruct (jwt_sign_configured (field_text user) "admin" env expiresIn_24h now Hsec)
      as (c & -> & Hi & He & _).
    exists c. simpl. auto. }
  assert (Hbad : notEmpty user = false \/ notEmpty pass = false ->
                 res_status (login_response r) = 400 /\ login_token r = None).
  { intros H. subst r. unfold login.
    assert (E : negb (notEmpty user && notEmpty pass) = true).
    { apply negb_true_iff, andb_false_iff. exact H. }
    rewrite E. simpl. auto. }
  assert (Hmis : notEmpty user = true -> notEmpty pass = true ->
                 ~ (user = ADMIN_USERNAME env /\ pass = ADMIN_PASSWORD env) ->
                 res_status (login_response r) = 401 /\ login_token r = None).
  { intros Hu Hp Hne. subst r. unfold login. rewrite Hu, Hp. simpl negb. cbv iota.
    destruct (match user, ADMIN_USERNAME env with
              | Some x, Some y => (x =? y)%string | _, _ => false end) eqn:E1;
      [destruct (match pass, ADMIN_PASSWORD env with
                 | Some x, Some y => (x =? y)%string | _, _ => false end) eqn:E2|];
      simpl; auto.
    apply option_eqb_eq in E1, E2. tauto. }
  split; [|split; [exact Hlogin | split; [exact Hbad | split; [exact Hmis|]]]].
  - split.
    + intros [token Ht].
      destruct (notEmpty user) eqn:Hu; [|destruct Hbad as [_ Hn]; [auto | congruence]].
      destruct (notEmpty pass) eqn:Hp; [|destruct Hbad as [_ Hn]; [auto | congruence]].
      assert (Hd : {user = ADMIN_USERNAME env /\ pass = ADMIN_PASSWORD env}
                   + {~ (user = ADMIN_USERNAME env /\ pass = ADMIN_PASSWORD env)}).
      { destruct (option_string_dec user (ADMIN_USERNAME env));
          destruct (option_string_dec pass (ADMIN_PASSWORD env)); tauto. }
      destruct Hd as [Hd|Hd]; [unfold matching; tauto|].
      destruct (Hmis eq_refl eq_refl Hd) as [_ Hn]. congruence.
    + intros Hm. destruct (Hlogin Hm) as (c & Ht & _). eauto.
  - intros m. subst m. unfold authenticateToken. split; [|split].
    + intros u. split.
      * destruct (bearer_token authHeader) as [token|]; [|discriminate].
        destruct (token =? "")%string eqn:Et; [discriminate|].
        destruct (jwt_verify _ _ _ _ _) as [c|e] eqn:Hv; [|discriminate].
        intros [= <-]. apply jwt_verify_accepts in Hv as [Hv Hc].
        apply String.eqb_neq in Et. eauto.
      * intros (token & -> & Ht & Hv & Hc). apply String.eqb_neq in Ht. rewrite Ht.
        assert (H := proj2 (jwt_verify_accepts env token now u) (conj Hv Hc)).
        now rewrite H.
    + intros [-> | ->]; reflexivity.
    + intros token -> Ht Hinv. apply String.eqb_neq in Ht. rewrite Ht.
      destruct (jwt_verify _ _ _ _ _) as [c|e] eqn:Hv; [|reflexivity].
      apply jwt_verify_accepts in Hv as [Hv _]. contradiction.
Qed.

End WithLibrary.

Lemma secret_configured_sample : secret_configured sample_env.
Proof. exists "signing-key". split; [reflexivity | discriminate]. Qed.

Lemma login_and_token_check_witness :
  secret_configured sample_env /\
  (exists token,
      login_token (login sample_hmac sample_encode sample_env
                         (Some "admin") (Some "s3cret") 1000) = Some token) /\
  authenticateToken sample_hmac sample_decode sample_env
                    (Some "Bearer admin.signing-key/admin") 2000
  = Next (mkClaims "admin" "admin" 1000 (Some 87400)) /\
  authenticateToken sample_hmac sample_decode sample_env (Some "Bearer") 2000
  = Respond (res_error 401 "Access token required").
Proof.
  pose proof secret_configured_sample as Hs.
  destruct (login_and_token_check sample_hmac sample_encode sample_decode sample_env
              (Some "admin") (Some "s3cret") (Some "Bearer admin.signing-key/admin")
              2000 Hs) as (_ & _ & _ & _ & Hnext & _).
  destruct (login_and_token_check sample_hmac sample_encode sample_decode sample_env
              (Some "admin") (Some "s3cret") (Some "Bearer") 1000 Hs)
    as (Hiff & _ & _ & _ & _ & H401 & _).
  split; [exact Hs | split; [|split]].
  - apply Hiff. repeat split; reflexivity.
  - apply Hnext. exists "admin.signing-key/admin". split; [reflexivity|].
    split; [discriminate|]. split; [|reflexivity].
    exists "signing-key", (mkJwt (mkClaims "admin" "admin" 1000 (Some 87400)) "signing-key/admin").
    repeat split; try reflexivity; try discriminate.
    intros e [= <-]. reflexivity.
  - destruct (login_and_token_check sample_hmac sample_encode sample_decode sample_env
                (Some "admin") (Some "s3cret") (Some "Bearer") 2000 Hs)
      as (_ & _ & _ & _ & _ & H & _).
    apply H. left. reflexivity.
Defined.

(** C10 as stated fails: a login with an empty username does not match the
    configured credentials and gets no token, and the response is 400, not
    401. *)
Lemma login_with_empty_username_is_400 :
  ~ (Some ""%string = ADMIN_USERNAME sample_env /\
     Some "s3cret"%string = ADMIN_PASSWORD sample_env) /\
  login_token (login sample_hmac sample_encode sample_env (Some "") (Some "s3cret") 1000)
  = None /\
  res_status (login_response
                (login sample_hmac sample_encode sample_env (Some "") (Some "s3cret") 1000))
  = 400 /\
  res_status (login_response
                (login sample_hmac sample_encode sample_env (Some "") (Some "s3cret") 1000))
  <> 401.
Proof.
  split; [intros [H _]; discriminate H|]. repeat split; try reflexivity. discriminate.
Qed.

End AuthFacts.

(** ** [ORDER BY] returns the same rows, in order *)

Section OrderByFacts.

Context {A : Type}.
Variable leb : A -> A -> bool.

Lemma insert_row_perm x l : Permutation (insert_row leb x l) (x :: l).
Proof.
  induction l as [|y l IH]; simpl; [reflexivity|].
  destruct (leb x y); [reflexivity|].
  rewrite IH. apply perm_swap.
Qed.

Lemma order_by_perm l : Permutation (order_by leb l) l.
Proof.
  induction l as [|x l IH]; simpl; [reflexivity|].
  rewrite insert_row_perm. now constructor.
Qed.

Hypothesis leb_total : forall x y, leb x y = true \/ leb y x = true.
Hypothesis leb_trans : forall x y z, leb x y = true -> leb y z = true -> leb x z = true.

Lemma insert_row_sorted x l :
  StronglySorted (fun a b => leb a b = true) l ->
  StronglySorted (fun a b => leb a b = true) (insert_row leb x l).
Proof.
  induction 1 as [|y l Hs IH Hy]; simpl; [repeat constructor|].
  destruct (leb x y) eqn:E.
  - constructor; [now constructor|].
    constructor; [exact E|].
    apply Forall_forall. intros z Hz. rewrite Forall_forall in Hy. eauto.
  - constructor; [exact IH|].
    apply Forall_forall. intros z Hz.
    apply (Permutation_in _ (insert_row_perm x l)) in Hz. destruct Hz as [<-|Hz].
    + destruct (leb_total x y); congruence.
    + rewrite Forall_forall in Hy. auto.
Qed.

Lemma order_by_sorted l : StronglySorted (fun a b => leb a b = true) (order_by leb l).
Proof.
  induction l as [|x l IH]; simpl; [constructor|]. now apply insert_row_sorted.
Qed.

End OrderByFacts.

(** ** Reports *)

Module ReportsFacts.
Import Schema Reports.

Lemma string_compare_trans s1 : forall s2 s3,
  String.compare s1 s2 <> Gt -> String.compare s2 s3 <> Gt -> String.compare s1 s3 <> Gt.
Proof.
  induction s1 as [|a s1 IH]; intros [|b s2] [|c s3]; simpl; try congruence.
  unfold Ascii.compare.
  destruct (N.compare_spec (N_of_ascii a) (N_of_ascii b)) as [Hab|Hab|Hab];
    destruct (N.compare_spec (N_of_ascii b) (N_of_ascii c)) as [Hbc|Hbc|Hbc];
    destruct (N.compare_spec (N_of_ascii a) (N_of_ascii c)) as [Hac|Hac|Hac];
    try congruence; try lia.
  apply IH.
Qed.

Lemma string_leb_trans s1 s2 s3 :
  String.leb s1 s2 = true -> String.leb s2 s3 = true -> String.leb s1 s3 = true.
Proof.
  unfold String.leb. intros H1 H2.
  assert (H := string_compare_trans s1 s2 s3).
  destruct (String.compare s1 s2), (String.compare s2 s3), (String.compare s1 s3);
    try reflexivity; try discriminate; exfalso; apply H; congruence.
Qed.

(** Dates compare as the numbers [(year * 2^k + month) * 2^k + day] would:
    the comparison is that of the triples. *)
Lemma date_compare_spec d1 d2 :
  match date_compare d1 d2 with
  | Eq => year d1 = year d2 /\ month d1 = month d2 /\ day d1 = day d2
  | Lt => year d1 < year d2 \/ (year d1 = year d2 /\
            (month d1 < month d2 \/ (month d1 = month d2 /\ day d1 < day d2)))
  | Gt => year d2 < year d1 \/ (year d1 = year d2 /\
            (month d2 < month d1 \/ (month d1 = month d2 /\ day d2 < day d1)))
  end.
Proof.
  unfold date_compare.
  destruct (Z.compare_spec (year d1) (year d2));
    destruct (Z.compare_spec (month d1) (month d2));
    destruct (Z.compare_spec (day d1) (day d2)); lia.
Qed.



Lemma date_leb_le d1 d2 : date_leb d1 d2 = true <-> date_compare d1 d2 <> Gt.
Proof. unfold date_leb. destruct (date_compare d1 d2); split; congruence. Qed.

Lemma StronglySorted_weaken {A : Type} (R S : A -> A -> Prop) l :
  (forall a b, R a b -> S a b) -> StronglySorted R l -> StronglySorted S l.
Proof.
  intros HRS. induction 1 as [|x l Hs IH Hx]; constructor; [exact IH|].
  eapply Forall_impl; [|exact Hx]. auto.
Qed.



End ReportsFacts.

(** ** The scheduling resolver *)

Module TerminalFacts.
Import Schema Terminal.

Lemma limit_1_order_by {A : Type} (leb : A -> A -> bool) (l : list A) :
  (forall x y, leb x y = true \/ leb y x = true) ->
  (forall x y z, leb x y = true -> leb y z = true -> leb x z = true) ->
  match limit_1 (order_by leb l) with
  | Some x => In x l /\ forall y, In y l -> leb x y = true
  | None => l = []
  end.
Proof.
  intros Htot Htrans.
  pose proof (order_by_perm leb l) as Hp.
  pose proof (order_by_sorted leb Htot Htrans l) as Hs.
  destruct (order_by leb l) as [|x rest]; simpl.
  - now apply Permutation_nil.
  - split; [apply (Permutation_in _ Hp); now left|].
    intros y Hy. apply (Permutation_in _ (Permutation_sym Hp)) in Hy.
    inversion Hs as [|? ? _ Hall]; subst. destruct Hy as [<-|Hy].
    + destruct (Htot x x); assumption.
    + rewrite Forall_forall in Hall. auto.
Qed.

Lemma start_time_order_total c1 c2 :
  start_time_order c1 c2 = true \/ start_time_order c2 c1 = true.
Proof. unfold start_time_order. rewrite !Z.leb_le. lia. Qed.

Lemma start_time_order_trans c1 c2 c3 :
  start_time_order c1 c2 = true -> start_time_order c2 c3 = true ->
  start_time_order c1 c3 = true.
Proof. unfold start_time_order. rewrite !Z.leb_le. lia. Qed.

(** The class in session, as the first query finds it: a class of the
    current date whose formatted window contains the current time, with the
    earliest start among them; and no class exactly when no window
    contains the current time. *)
Lemma current_query_earliest cd ct cs :
  let in_session c :=
    (DATE_FORMAT (c_date c) =? cd)%string
    && String.leb (TIME_FORMAT (c_start_time c)) ct
    && String.leb ct (TIME_FORMAT (c_end_time c)) in
  match current_query cd ct cs with
  | Some c => In c cs /\ in_session c = true /\
              forall c', In c' cs -> in_session c' = true -> c_start_time c <= c_start_time c'
  | None => forall c, In c cs -> in_session c = false
  end.
Proof.
  intros in_session. unfold current_query.
  pose proof (limit_1_order_by start_time_order (filter in_session cs)
                start_time_order_total start_time_order_trans) as H.
  fold in_session. destruct (limit_1 _) as [c|].
  - destruct H as [Hin Hmin]. apply filter_In in Hin as [Hin Hs].
    repeat split; auto. intros c' Hc' Hs'.
    apply Z.leb_le. apply Hmin. now apply filter_In.
  - intros c Hc. destruct (in_session c) eqn:E; [|reflexivity].
    assert (Hf : In c (filter in_session cs)) by now apply filter_In.
    rewrite H in Hf. destruct Hf.
Qed.


(** *** Formatted dates and times compare as the values they print *)
















(** C4, at the failing input: at 23:30:00 on 2024-03-01 the only class of
    that date runs 23:45:00 to 23:59:00. It starts strictly after now and
    within 60 minutes of now, on the same local date, and no class is in
    session; the handler reports no upcoming class, because the time one
    hour later is taken as the time of day 00:30:00. *)
Theorem upcoming_class_missed_before_midnight :
  let now := mkNow (mkDate 2024 3 1) 84600 in
  let c := mkClass 1 "Night lab" 85500 86340 (mkDate 2024 3 1) in
  let d := mkDb [] [c] [] [] 1 2 1 in
  c_date c = local_date now /\
  local_seconds now < c_start_time c <= local_seconds now + 60 * 60 /\
  nextHour now = "00:30:00"%string /\
  current_class now d = mkCurrent false None false None "23:30:00" "2024-03-01".
Proof.
  cbv zeta. repeat split; try reflexivity; simpl; lia.
Qed.

End TerminalFacts.

(** ** Frame intake *)

Module FramesFacts.
Import Hub Frames Samples.

Lemma existsSync_unlinkSync p fs : existsSync p (unlinkSync p fs) = false.
Proof.
  unfold existsSync, unlinkSync. induction fs as [|q fs IH]; simpl; [reflexivity|].
  destruct (q =? p)%string eqn:E; simpl; [exact IH | now rewrite E].
Qed.

Lemma cleanup_removes path st : existsSync path (files (cleanup path st)) = false.
Proof.
  unfold cleanup. destruct (existsSync path (files st)) eqn:E; [|exact E].
  simpl. apply existsSync_unlinkSync.
Qed.

Lemma cleanup_other path st :
  clients (cleanup path st) = clients st /\
  responses (cleanup path st) = responses st /\
  responseCompleted (cleanup path st) = responseCompleted st /\
  timer (cleanup path st) = timer st.
Proof. unfold cleanup. destruct (existsSync _ _); simpl; auto. Qed.

Lemma cleanup_absent path st :
  existsSync path (files st) = false -> files (cleanup path st) = files st.
Proof. unfold cleanup. now intros ->. Qed.

Lemma headersSent_cleanup path st : headersSent (cleanup path st) = headersSent st.
Proof. unfold headersSent. now destruct (cleanup_other path st) as (_ & -> & _). Qed.

Section WithParser.

Variable JSON_parse : string -> option json.
Variable js_gt_zero : json -> bool.

Abbreviation on_close := (on_close JSON_parse js_gt_zero).
Abbreviation run := (run JSON_parse js_gt_zero).
Abbreviation process_frame := (process_frame JSON_parse js_gt_zero).
Abbreviation deliver := (deliver JSON_parse js_gt_zero).

(** The [close] listener removes the file, and responds once unless a
    response is out or under way. *)
Lemma on_close_files rq path ts code output now st :
  existsSync path (files (on_close rq path ts code output now st)) = false.
Proof.
  unfold Frames.on_close.
  pose proof (cleanup_removes path st) as Hc.
  destruct (cleanup_other path st) as (_ & Hr & Hrc & _).
  set (st1 := cleanup path st) in *.
  destruct (headersSent _ || responseCompleted _); [exact Hc|].
  destruct code as [[| |]|]; try exact Hc.
  destruct (JSON_parse output) as [result|]; [|exact Hc].
  destruct (announce _ _ _ _ _) as [cs ok]. destruct ok; exact Hc.
Qed.

Lemma on_close_responses rq path ts code output now st :
  if headersSent st || responseCompleted st
  then responses (on_close rq path ts code output now st) = responses st /\
       responseCompleted (on_close rq path ts code output now st) = responseCompleted st
  else (exists r, responses (on_close rq path ts code output now st)
                  = (responses st ++ [mkSent now ByClose r])%list) /\
       responseCompleted (on_close rq path ts code output now st) = true.
Proof.
  unfold Frames.on_close.
  destruct (cleanup_other path st) as (_ & Hr & Hrc & _).
  unfold headersSent.
  destruct (cleanup path st) as [fs1 cs1 rs1 rc1 tm1 k1 cl1]. simpl in *. subst rs1 rc1.
  destruct ((match responses st with [] => false | _ => true end) || responseCompleted st);
    [simpl; auto|].
  destruct code as [[| |]|]; simpl; eauto.
  destruct (JSON_parse output) as [result|]; simpl; eauto.
  destruct (announce _ _ _ _ _) as [cs ok]. destruct ok; simpl; eauto.
Qed.

(** The timer callback does the same. *)
Lemma on_timeout_responses path now st :
  if headersSent st || responseCompleted st
  then on_timeout path now st = st
  else responses (on_timeout path now st)
       = (responses st ++ [mkSent now ByTimeout (res_error 500 "Frame processing timeout")])%list
       /\ responseCompleted (on_timeout path now st) = true
       /\ existsSync path (files (on_timeout path now st)) = false.
Proof.
  unfold on_timeout. destruct (headersSent st || responseCompleted st); [reflexivity|].
  set (st1 := mkState _ _ _ _ _ _ _).
  destruct (cleanup_other path st1) as (_ & Hr & Hrc & _).
  simpl. rewrite Hr, Hrc. repeat split. apply cleanup_removes.
Qed.

(** X15. Whatever events reach the listeners of a request, in whatever order and
    number, at most one of them responds. *)
Lemma deliver_at_most_one rq path ts events : forall st,
  (headersSent st = true -> responseCompleted st = true) ->
  let st' := fold_left (deliver rq path ts) events st in
  (headersSent st' = true -> responseCompleted st' = true) /\
  if responseCompleted st then responses st' = responses st
  else responses st' = responses st \/ exists s, responses st' = (responses st ++ [s])%list.
Proof.
  induction events as [|e events IH]; intros st Hinv; simpl.
  - split; [exact Hinv|]. destruct (responseCompleted st); auto.
  - set (st1 := deliver rq path ts st e).
    assert (H1 : (headersSent st1 = true -> responseCompleted st1 = true) /\
                 (if responseCompleted st
                  then responses st1 = responses st /\ responseCompleted st1 = true
                  else responseCompleted st1 = true /\
                       exists s, responses st1 = (responses st ++ [s])%list)).
    { subst st1. destruct e as [code output now|now]; simpl.
      - pose proof (on_close_responses rq path ts code output now st) as H.
        destruct (headersSent st) eqn:Hh.
        + rewrite (Hinv eq_refl) in *. simpl in H. destruct H as [H1 H2].
          rewrite H2. auto.
        + destruct (responseCompleted st) eqn:Hc; simpl in H.
          * destruct H as [H1 H2]. rewrite H2. auto.
          * destruct H as [[r Hr] H2]. rewrite H2. split; [auto|]. eauto.
      - pose proof (on_timeout_responses path now st) as H.
        destruct (headersSent st) eqn:Hh.
        + rewrite (Hinv eq_refl) in *. simpl in H. rewrite H. auto.
        + destruct (responseCompleted st) eqn:Hc; simpl in H.
          * rewrite H. auto.
          * destruct H as (Hr & H2 & _). rewrite H2. split; [auto|]. eauto. }
    destruct H1 as [Hinv1 Hstep]. destruct (IH st1 Hinv1) as [Hinv' Hrest].
    split; [exact Hinv'|].
    destruct (responseCompleted st).
    + destruct Hstep as [Hs Hc1]. rewrite Hc1 in Hrest. congruence.
    + destruct Hstep as [Hc1 [s Hs]]. rewrite Hc1 in Hrest. rewrite Hrest, Hs. eauto.
Qed.

Lemma handler_start_cases sys rq t0 fs cs :
  passes_validation rq ->
  exists st1 p,
    handler_start sys rq t0 (initial fs cs) = (st1, p) /\
    if throws sys rq
    then p = Answered /\
         responses st1 = [mkSent t0 ByCatch (res_error 500 "Failed to process frame")]
    else responses st1 = [] /\ responseCompleted st1 = false /\
         p = (if spawn_fails_late sys rq then Crashed else Listening).
Proof.
  intros (Hi & Hc & Ht). unfold handler_start, throws, spawn_fails_late.
  rewrite Hi, Hc, Ht. simpl.
  destruct (image rq); try (eexists; eexists; split; [reflexivity | split; reflexivity]).
  destruct (write_throws sys); simpl;
    [eexists; eexists; split; [reflexivity | split; reflexivity]|].
  destruct (spawn_result sys); simpl; eexists; eexists; (split; [reflexivity|]); auto.
Qed.

(** Once the recognizer runs, its [close] event or the timer answers the
    request, no later than the deadline, and the frame file is gone. *)
Lemma run_one_response rq ts c t0 st :
  responses st = [] -> responseCompleted st = false ->
  exists s,
    responses (run rq ts c t0 st) = [s] /\
    t0 <= sent_at s <= t0 + timeout_ms /\
    (sent_by s = ByClose \/ sent_by s = ByTimeout) /\
    existsSync (tempImagePath rq t0) (files (run rq ts c t0 st)) = false.
Proof.
  intros Hr Hc. unfold Frames.run.
  set (path := tempImagePath rq t0). set (deadline := t0 + timeout_ms).
  assert (Hfresh : headersSent st || responseCompleted st = false).
  { unfold headersSent. now rewrite Hr, Hc. }
  assert (Hto : exists s,
             responses (on_timeout path deadline st) = [s] /\
             sent_at s = deadline /\ sent_by s = ByTimeout /\
             responseCompleted (on_timeout path deadline st) = true /\
             existsSync path (files (on_timeout path deadline st)) = false).
  { pose proof (on_timeout_responses path deadline st) as H. rewrite Hfresh in H.
    destruct H as (H1 & H2 & H3). rewrite Hr in H1. simpl in H1. eauto 10. }
  assert (Hafter : forall code output now,
             exists s,
               responses (on_close rq path ts code output now (on_timeout path deadline st)) = [s] /\
               sent_at s = deadline /\ sent_by s = ByTimeout).
  { intros code output now. destruct Hto as (s & H1 & H2 & H3 & H4 & _).
    pose proof (on_close_responses rq path ts code output now (on_timeout path deadline st)) as H.
    rewrite H4, orb_true_r in H. destruct H as [H _]. rewrite H, H1. eauto. }
  assert (Hd : t0 <= deadline) by (subst deadline; unfold timeout_ms; lia).
  destruct (behaviour c) as [at_ code output|].
  - destruct (Z.max t0 at_ <? deadline) eqn:El.
    + apply Z.ltb_lt in El.
      pose proof (on_close_responses rq path ts code output (Z.max t0 at_) st) as H.
      rewrite Hfresh in H. destruct H as [[r H] _]. rewrite Hr in H. simpl in H.
      eexists. split; [exact H|]. simpl. repeat split; auto; try lia.
      apply on_close_files.
    + destruct (dies_after c) as [delay|].
      * destruct (Hafter None EmptyString (deadline + Z.max 0 delay)) as (s & H1 & H2 & H3).
        exists s. rewrite H1, H2. repeat split; auto; try lia. apply on_close_files.
      * destruct (Hafter code output (Z.max t0 at_)) as (s & H1 & H2 & H3).
        exists s. rewrite H1, H2. repeat split; auto; try lia. apply on_close_files.
  - destruct (dies_after c) as [delay|].
    + destruct (Hafter None EmptyString (deadline + Z.max 0 delay)) as (s & H1 & H2 & H3).
      exists s. rewrite H1, H2. repeat split; auto; try lia. apply on_close_files.
    + destruct Hto as (s & H1 & H2 & H3 & _ & H5).
      exists s. rewrite H1, H2. repeat split; auto; lia.
Qed.

(** X14. The four outcomes of a started recognizer (success, non-zero exit,
    output that does not parse, timeout) all remove the frame file. *)
Lemma frame_file_removed_after_recognizer sys rq ts c t0 fs cs :
  passes_validation rq -> throws sys rq = false -> spawn_fails_late sys rq = false ->
  existsSync (tempImagePath rq t0)
             (files (fst (process_frame sys rq ts c t0 (initial fs cs)))) = false.
Proof.
  intros Hv Hth Hlate.
  destruct (handler_start_cases sys rq t0 fs cs Hv) as (st1 & p & Hs & H).
  rewrite Hth, Hlate in H. destruct H as (Hr & Hc & ->).
  unfold Frames.process_frame. rewrite Hs. simpl.
  destruct (run_one_response rq ts c t0 st1 Hr Hc) as (s & _ & _ & _ & Hf). exact Hf.
Qed.

(** A recognizer that cannot be started and says so by an event takes the
    server down: the request gets no response. *)
Lemma late_spawn_failure_ends_server sys rq ts c t0 fs cs :
  passes_validation rq -> spawn_fails_late sys rq = true ->
  exists st, process_frame sys rq ts c t0 (initial fs cs) = (st, false) /\ responses st = [].
Proof.
  intros Hv Hlate.
  destruct (handler_start_cases sys rq t0 fs cs Hv) as (st1 & p & Hs & H).
  assert (Hth : throws sys rq = false).
  { unfold throws, spawn_fails_late in *. destruct (image rq); try discriminate.
    destruct (write_throws sys); [discriminate|]. now destruct (spawn_result sys). }
  rewrite Hth, Hlate in H. destruct H as (Hr & _ & ->).
  unfold Frames.process_frame. rewrite Hs. eauto.
Qed.

(** C2, as the handler has it: a request that passes the parameter check,
    and whose recognizer does not fail to start by an ['error'] event, gets
    exactly one response, no later than 10 seconds after its arrival, and
    the server keeps running. When the synchronous part of the handler
    throws (the image is not text, or writing the file or starting the
    recognizer throws), the response is that of the [catch] block, sent at
    once; otherwise it is sent by exactly one of the [close] listener and
    the timer callback. *)
Theorem exactly_one_response :
  forall sys rq ts c t0 fs cs,
    passes_validation rq ->
    spawn_fails_late sys rq = false ->
    exists s,
      snd (process_frame sys rq ts c t0 (initial fs cs)) = true /\
      responses (fst (process_frame sys rq ts c t0 (initial fs cs))) = [s] /\
      t0 <= sent_at s <= t0 + timeout_ms /\
      (throws sys rq = true -> sent_by s = ByCatch /\ sent_at s = t0) /\
      (throws sys rq = false -> sent_by s = ByClose \/ sent_by s = ByTimeout).
Proof.
  intros sys rq ts c t0 fs cs Hv Hlate.
  destruct (handler_start_cases sys rq t0 fs cs Hv) as (st1 & p & Hs & H).
  unfold Frames.process_frame. rewrite Hs. destruct (throws sys rq).
  - destruct H as (-> & Hr). eexists. split; [reflexivity|]. split; [exact Hr|]. simpl.
    unfold timeout_ms. repeat split; auto; try lia; discriminate.
  - rewrite Hlate in H. destruct H as (Hr & Hc & ->).
    destruct (run_one_response rq ts c t0 st1 Hr Hc) as (s & H1 & H2 & H3 & _).
    exists s. simpl. repeat split; auto; try lia; discriminate.
Qed.

End WithParser.

Lemma exactly_one_response_witness :
  passes_validation terminal_frame /\
  spawn_fails_late (mkSys false SpawnStarts) terminal_frame = false /\
  exists s,
    responses (fst (process_frame sample_parse (fun _ => false) (mkSys false SpawnStarts)
                                  terminal_frame "2024-03-01T09:15:00.000Z"
                                  (mkChild (Exits 1200 (Some 0) "{}") None) 1000
                                  (initial [] [])))
    = [s] /\
    1000 <= sent_at s <= 1000 + timeout_ms /\
    (sent_by s = ByClose \/ sent_by s = ByTimeout).
Proof.
  assert (Hv : passes_validation terminal_frame) by (repeat split; reflexivity).
  assert (Hl : spawn_fails_late (mkSys false SpawnStarts) terminal_frame = false)
    by reflexivity.
  split; [exact Hv | split; [exact Hl|]].
  destruct (exactly_one_response sample_parse (fun _ => false) (mkSys false SpawnStarts)
              terminal_frame "2024-03-01T09:15:00.000Z"
              (mkChild (Exits 1200 (Some 0) "{}") None) 1000 [] [] Hv Hl)
    as (s & _ & Hr & Ht & _ & Hby).
  exists s. split; [exact Hr | split; [exact Ht | apply Hby; reflexivity]].
Defined.

(** C2 as stated fails: the request [numeric_image] passes the parameter
    check, and its only response comes from the [catch] block, from neither
    the timer nor the [close] listener. *)
Lemma non_text_image_answered_by_catch :
  passes_validation numeric_image /\
  map sent_by (responses (fst (process_frame sample_parse (fun _ => false)
                                             (mkSys false SpawnStarts)
                                             numeric_image "2024-03-01T09:15:00.000Z"
                                             (mkChild (Exits 1200 (Some 0) "{}") None) 1000
                                             (initial [] []))))
  = [ByCatch] /\
  ~ (exists s,
        In s (responses (fst (process_frame sample_parse (fun _ => false)
                                            (mkSys false SpawnStarts)
                                            numeric_image "2024-03-01T09:15:00.000Z"
                                            (mkChild (Exits 1200 (Some 0) "{}") None) 1000
                                            (initial [] [])))) /\
        (sent_by s = ByClose \/ sent_by s = ByTimeout)).
Proof.
  split; [repeat split; reflexivity | split; [reflexivity|]].
  intros (s & [<-|[]] & [H|H]); discriminate H.
Qed.

(** C3, at the failing input: the frame of [terminal_frame] is written and
    the start of the recognizer then throws. The handler answers 500 from
    its [catch] block and the request is over, with no timer and no listener
    left; the frame file is still on disk. *)
Theorem frame_file_left_when_spawn_throws :
  let st := fst (process_frame sample_parse (fun _ => false) (mkSys false SpawnThrows)
                               terminal_frame "2024-03-01T09:15:00.000Z"
                               (mkChild Hangs None) 1000 (initial [] [])) in
  responses st = [mkSent 1000 ByCatch (res_error 500 "Failed to process frame")] /\
  timer st = None /\
  tempImagePath terminal_frame 1000 = "temp/frame_T1_1000.jpg"%string /\
  existsSync "temp/frame_T1_1000.jpg" (files st) = true.
Proof. cbv zeta. repeat split; reflexivity. Qed.

End FramesFacts.

(** ** Attendance rates *)

Module NumberFacts.
Import Number.

Local Open Scope Q_scope.

Lemma round_half_even_error q : Qabs (inject_Z (round_half_even q) - q) <= 1 # 2.
Proof.
  unfold round_half_even.
  pose proof (Qfloor_le q) as Hlo. pose proof (Qlt_floor q) as Hhi.
  rewrite inject_Z_plus in Hhi.
  apply Qabs_Qle_condition.
  destruct (Qcompare (q - inject_Z (Qfloor q)) (1 # 2)) eqn:E.
  - apply Qeq_alt in E.
    destruct (Z.even (Qfloor q)); rewrite ?inject_Z_plus; change (inject_Z 1) with 1 in *; lra.
  - apply Qlt_alt in E. change (inject_Z 1) with 1 in *. lra.
  - apply Qgt_alt in E. rewrite inject_Z_plus. change (inject_Z 1) with 1 in *. lra.
Qed.

Lemma pow2_pos e : 0 < 2 ^ e.
Proof. apply Qpower_0_lt. reflexivity. Qed.

Lemma pow2_succ e : 2 ^ (e + 1) == 2 * 2 ^ e.
Proof. rewrite Qpower_plus by discriminate. simpl (2 ^ 1). ring. Qed.

Lemma pow2_pred e : 2 ^ (e - 1) == 2 ^ e / 2.
Proof.
  unfold Z.sub. rewrite Qpower_plus by discriminate. change (2 ^ (-1)) with (/ 2). reflexivity.
Qed.

Lemma pow2_mono a b : (a <= b)%Z -> 2 ^ a <= 2 ^ b.
Proof. intros H. apply Qpower_le_compat_l; [exact H | discriminate]. Qed.

Lemma pow2_log2 a : (0 < a)%Z -> 2 ^ Z.log2 a <= inject_Z a < 2 ^ (Z.log2 a + 1).
Proof.
  intros Ha. destruct (Z.log2_spec a Ha) as [Hlo Hhi].
  assert (H0 := Z.log2_nonneg a).
  change 2 with (inject_Z 2).
  rewrite <- !Zpower_Qpower by lia.
  split; [rewrite <- Zle_Qle | rewrite <- Zlt_Qlt]; [exact Hlo|].
  now rewrite <- Z.add_1_r in Hhi.
Qed.

Lemma Qdiv_bounds A B P R :
  0 < P -> 0 < R -> P <= A -> A < 2 * P -> R <= B -> B < 2 * R ->
  (P / R) / 2 < A / B /\ A / B < 2 * (P / R).
Proof.
  intros HP HR H1 H2 H3 H4.
  assert (HB : 0 < B) by lra. assert (HA : 0 < A) by lra.
  assert (HRB : 0 < / (2 * R * B)).
  { apply Qinv_lt_0_compat. nra. }
  assert (E1 : A / B - P / R / 2 == (2 * A * R - P * B) * / (2 * R * B)).
  { field. split; lra. }
  assert (E2 : 2 * (P / R) - A / B == (4 * P * B - 2 * A * R) * / (2 * R * B)).
  { field. split; lra. }
  assert (N1 : 0 < 2 * A * R - P * B) by nra.
  assert (N2 : 0 < 4 * P * B - 2 * A * R) by nra.
  pose proof (Qmult_lt_0_compat _ _ N1 HRB) as G1.
  pose proof (Qmult_lt_0_compat _ _ N2 HRB) as G2.
  rewrite <- E1 in G1. rewrite <- E2 in G2. split; lra.
Qed.

Lemma ilog2_spec q : 0 < q -> 2 ^ ilog2 q <= q /\ q < 2 ^ (ilog2 q + 1).
Proof.
  intros Hq. unfold ilog2.
  assert (Ha : (0 < Qnum q)%Z).
  { destruct q as [a b]. unfold Qlt in Hq. simpl in *. lia. }
  destruct (pow2_log2 (Qnum q) Ha) as [Ha1 Ha2].
  destruct (pow2_log2 (Zpos (Qden q)) eq_refl) as [Hb1 Hb2].
  rewrite pow2_succ in Ha2, Hb2.
  set (la := Z.log2 (Qnum q)) in *. set (lb := Z.log2 (Zpos (Qden q))) in *.
  assert (Hk : 2 ^ (la - lb) == 2 ^ la / 2 ^ lb) by (apply Qpower_minus; discriminate).
  assert (Hqd : q == inject_Z (Qnum q) / inject_Z (Zpos (Qden q))).
  { destruct q as [a b]. simpl. apply Qmake_Qdiv. }
  destruct (Qdiv_bounds _ _ _ _ (pow2_pos la) (pow2_pos lb) Ha1 Ha2 Hb1 Hb2) as [Hlo Hhi].
  rewrite <- Hqd, <- Hk in Hlo, Hhi.
  destruct (Qle_bool (2 ^ (la - lb)) q) eqn:E.
  - apply Qle_bool_iff in E. split; [exact E|]. now rewrite pow2_succ.
  - replace (la - lb - 1 + 1)%Z with (la - lb)%Z by lia.
    rewrite pow2_pred. split; [apply Qlt_le_weak; exact Hlo|].
    apply Qnot_le_lt. intros H. apply Qle_bool_iff in H. congruence.
Qed.

(** Rounding a rational of the normal range: the result is finite and
    within half a unit in the last place, a relative error of [2 ^ -53]. *)
Lemma round_pos_error q :
  2 ^ (-1022) <= q -> q <= 2 ^ 1023 ->
  exists r, round_pos q = Fin r /\ Qabs (r - q) <= q * 2 ^ (-53).
Proof.
  intros Hlo Hhi.
  assert (Hq : 0 < q) by (pose proof (pow2_pos (-1022)); lra).
  destruct (ilog2_spec q Hq) as [He1 He2].
  unfold round_pos, ulp.
  destruct (Qle_bool q 0) eqn:E0; [apply Qle_bool_iff in E0; lra|]. clear E0.
  set (e := ilog2 q) in *.
  assert (Hemin : (-1022 <= e)%Z).
  { destruct (Z_le_gt_dec (-1022) e) as [H|H]; [exact H|].
    pose proof (pow2_mono (e + 1) (-1022) ltac:(lia)). lra. }
  rewrite Z.max_l by lia.
  set (u := 2 ^ (e - 52)).
  assert (Hu : 0 < u) by apply pow2_pos.
  pose proof (round_half_even_error (q / u)) as Hr.
  set (n := inject_Z (round_half_even (q / u))) in *.
  assert (Herr : Qabs (n * u - q) <= u / 2).
  { assert (E : n * u - q == (n - q / u) * u) by (field; lra).
    rewrite E, Qabs_Qmult, (Qabs_pos u) by lra.
    assert (H0 := Qabs_nonneg (n - q / u)).
    set (a := Qabs (n - q / u)) in *. clearbody a u. clear - Hr H0 Hu.
    assert (G : 0 <= ((1 # 2) - a) * u) by (apply Qmult_le_0_compat; lra).
    unfold Qdiv. change (/ 2) with (1 # 2). lra. }
  assert (Hu2 : u / 2 <= q * 2 ^ (-53)).
  { assert (E1 : u == 2 ^ e * 2 ^ (-52)).
    { subst u. unfold Z.sub. apply Qpower_plus. discriminate. }
    assert (E2 : 2 ^ (-53) == 2 ^ (-52) / 2).
    { change (-53)%Z with (-52 - 1)%Z. apply pow2_pred. }
    rewrite E1, E2. pose proof (pow2_pos (-52)) as Hp.
    set (c := 2 ^ (-52)) in *. set (p := 2 ^ e) in *. clearbody c p. clear - Hp He1.
    assert (G : 0 <= (q - p) * c) by (apply Qmult_le_0_compat; lra).
    unfold Qdiv. change (/ 2) with (1 # 2). lra. }
  assert (Hc : 2 ^ (-53) < 1).
  { apply Qlt_alt. reflexivity. }
  assert (Hmax : max_value_bound == 2 * 2 ^ 1023).
  { unfold max_value_bound. change 1024%Z with (1023 + 1)%Z. apply pow2_succ. }
  apply Qabs_Qle_condition in Herr.
  pose proof (pow2_pos (-53)) as Hc0.
  set (c := 2 ^ (-53)) in *. set (M := 2 ^ 1023) in *. clearbody c M.
  destruct (Qle_bool max_value_bound (n * u)) eqn:Eo.
  - apply Qle_bool_iff in Eo. rewrite Hmax in Eo. nra.
  - eexists. split; [reflexivity|]. rewrite Qred_correct.
    apply Qabs_Qle_condition. lra.
Qed.

Lemma round_nonneg q : 0 <= q -> round q = round_pos q.
Proof. intros H. unfold round. apply Qle_bool_iff in H. now rewrite H. Qed.

End NumberFacts.

Module RatesFacts.
Import Schema Number NumberFacts Rates Samples.

Local Open Scope Q_scope.

Lemma of_Z_exact z : (Z.abs z <= 2 ^ 53)%Z -> of_Z z = Fin (inject_Z z).
Proof. intros H. unfold of_Z. apply Z.leb_le in H. now rewrite H. Qed.

(** The rate of a student without records, and the overall rate of an
    empty table: the number 0. *)
Lemma rate_of_no_records present : rate_expression present (of_Z 0) = JNum 0.
Proof. reflexivity. Qed.

(** The guarded expression on counts [0 <= present <= total], with a
    positive total below [2 ^ 53]: the text of a count [n] of hundredths
    that is within a half (and a rounding error far below a hundredth) of
    the exact percentage times 100. *)
Lemma rate_of_counts (p t : Z) :
  (0 <= p <= t)%Z -> (0 < t < 2 ^ 53)%Z ->
  exists n : Z,
    rate_expression (of_Z p) (of_Z t) = JStr (fixed2_digits n) /\
    rate_hundredths p t = Some n /\
    (0 <= n <= 10000)%Z /\
    Qabs (inject_Z n - 10000 * inject_Z p / inject_Z t) <= (1 # 2) + (1 # 100000000000).
Proof.
  intros Hp Ht.
  unfold rate_expression, rate_hundredths.
  rewrite (of_Z_exact p), (of_Z_exact t) by lia.
  assert (HT : 0 < inject_Z t) by (change 0 with (inject_Z 0); rewrite <- Zlt_Qlt; lia).
  assert (HTK : inject_Z t < inject_Z (2 ^ 53)) by (rewrite <- Zlt_Qlt; lia).
  assert (HPT : inject_Z p <= inject_Z t) by (rewrite <- Zle_Qle; lia).
  assert (Hgt : gt_zero (Fin (inject_Z t)) = true).
  { simpl. apply negb_true_iff. destruct (Qle_bool (inject_Z t) 0) eqn:E; [|reflexivity].
    apply Qle_bool_iff in E. lra. }
  rewrite Hgt. assert (H0t : (0 <? t)%Z = true) by (apply Z.ltb_lt; lia). rewrite H0t.
  assert (Hz : is_zero (inject_Z t) = false).
  { unfold is_zero. destruct (Qeq_bool (inject_Z t) 0) eqn:E; [|reflexivity].
    apply Qeq_bool_iff in E. lra. }
  change (of_Z 100) with (Fin 100).
  unfold div. rewrite Hz.
  destruct (Z.eq_dec p 0) as [->|Hp0].
  - (* no class attended: 0 / total * 100 *)
    assert (E : round (inject_Z 0 / inject_Z t) = Fin 0).
    { unfold round, round_pos.
      assert (E0 : inject_Z 0 / inject_Z t == 0) by (field; lra).
      assert (E1 : Qle_bool 0 (inject_Z 0 / inject_Z t) = true) by (apply Qle_bool_iff; lra).
      assert (E2 : Qle_bool (inject_Z 0 / inject_Z t) 0 = true) by (apply Qle_bool_iff; lra).
      now rewrite E1, E2. }
    rewrite E. exists 0%Z. repeat split; try reflexivity; try lia.
    assert (E0 : inject_Z 0 - 10000 * inject_Z 0 / inject_Z t == 0) by (field; lra).
    rewrite E0. discriminate.
  - assert (HP : 1 <= inject_Z p) by (change 1 with (inject_Z 1); rewrite <- Zle_Qle; lia).
    set (P := inject_Z p) in *. set (T := inject_Z t) in *.
    change (inject_Z (2 ^ 53)) with (9007199254740992 # 1) in HTK.
    assert (Hc : 2 ^ (-53) == 1 # 9007199254740992) by reflexivity.
    assert (HL : 2 ^ (-1022) <= 1 # 1152921504606846976).
    { assert (E : 2 ^ (-60) == 1 # 1152921504606846976) by reflexivity.
      rewrite <- E. apply pow2_mono. lia. }
    assert (HM : 1024 <= 2 ^ 1023).
    { assert (E : 2 ^ 10 == 1024) by reflexivity. rewrite <- E. apply pow2_mono. lia. }
    set (L := 2 ^ (-1022)) in *. set (M := 2 ^ 1023) in *.
    (* the quotient *)
    assert (Hq1 : P / T <= 1) by (apply Qle_shift_div_r; lra).
    assert (Hq2 : (1 # 9007199254740992) <= P / T) by (apply Qle_shift_div_l; lra).
    assert (Hq0 : 0 <= P / T) by lra.
    rewrite (round_nonneg _ Hq0).
    destruct (round_pos_error (P / T)) as (r1 & -> & Hr1); [fold L; lra | fold M; lra |].
    rewrite Hc in Hr1. apply Qabs_Qle_condition in Hr1.
    (* the product *)
    unfold mul.
    assert (Hm0 : 0 <= r1 * 100) by lra.
    rewrite (round_nonneg _ Hm0).
    destruct (round_pos_error (r1 * 100)) as (r2 & -> & Hr2); [fold L; lra | fold M; lra |].
    rewrite Hc in Hr2. apply Qabs_Qle_condition in Hr2.
    assert (Hneg : is_neg r2 = false).
    { unfold is_neg. apply negb_false_iff, Qle_bool_iff. lra. }
    unfold toFixed2. rewrite Hneg.
    pose proof (Qfloor_le (r2 * 100 + (1 # 2))) as Hf1.
    pose proof (Qlt_floor (r2 * 100 + (1 # 2))) as Hf2.
    rewrite inject_Z_plus in Hf2. change (inject_Z 1) with 1 in Hf2.
    fold (hundredths r2) in Hf1, Hf2.
    exists (hundredths r2). split; [reflexivity | split; [reflexivity|]].
    set (n := hundredths r2) in *.
    assert (E : 10000 * P / T == 10000 * (P / T)) by (field; lra).
    clearbody L M n. split.
    + split.
      * assert (H : -1 < inject_Z n) by lra.
        change (-1) with (inject_Z (-1)) in H. rewrite <- Zlt_Qlt in H. lia.
      * assert (H : inject_Z n < 10001) by lra.
        change 10001 with (inject_Z 10001) in H. rewrite <- Zlt_Qlt in H. lia.
    + rewrite E. apply Qabs_Qle_condition. lra.
Qed.

Lemma filter_and_length {A : Type} (f g : A -> bool) l :
  (List.length (filter (fun a => f a && g a) l) <= List.length (filter f l))%nat.
Proof.
  induction l as [|a l IH]; simpl; [lia|].
  destruct (f a), (g a); simpl; lia.
Qed.

Lemma present_le_total sid d : (0 <= present_classes sid d <= total_classes sid d)%Z.
Proof.
  unfold present_classes, total_classes.
  pose proof (filter_and_length (fun a => (a_student_id a =? sid)%string)
                (fun a => status_eqb (a_status a) present) (attendance d)) as H.
  cbv beta in H. lia.
Qed.

Lemma total_le_rows sid d :
  (total_classes sid d <= Z.of_nat (List.length (attendance d)))%Z.
Proof.
  unfold total_classes.
  pose proof (filter_length_le (fun a => (a_student_id a =? sid)%string) (attendance d)). lia.
Qed.

(** C6 as stated fails: with one class attended out of two, the rate is the
    text "50.00" (5000 hundredths), the percentage, while present/total
    rounded to two decimals is 0.50 (50 hundredths). *)
Lemma rate_is_a_percentage_not_a_ratio :
  rate_expression (of_Z 1) (of_Z 2) = JStr "50.00" /\
  rate_hundredths 1 2 = Some 5000%Z /\
  ratio_rounded_2 1 2 = 50%Z /\
  rate_hundredths 1 2 <> Some (ratio_rounded_2 1 2).
Proof. vm_compute. repeat split; try reflexivity. discriminate. Qed.

(** C6, as the handlers have it: for a student (and for the whole table),
    when the total count is positive the rate is the text, with two
    decimals, of the percentage [100 * present / total]: a count [n] of
    hundredths between 0 and 10000, within a half (plus a rounding error
    below [10 ^ -11]) of [10000 * present / total]. When the total is 0, in
    particular for a student with no attendance records, the rate is the
    number 0. The table has fewer than [2 ^ 53] rows. *)
Theorem attendance_rate_is_percentage :
  forall d sid,
    (Z.of_nat (List.length (attendance d)) < 2 ^ 53)%Z ->
    (total_classes sid d = 0%Z -> attendanceRate sid d = JNum 0) /\
    ((0 < total_classes sid d)%Z ->
     exists n : Z,
       attendanceRate sid d = JStr (fixed2_digits n) /\ (0 <= n <= 10000)%Z /\
       Qabs (inject_Z n - 10000 * inject_Z (present_classes sid d)
                          / inject_Z (total_classes sid d))
       <= (1 # 2) + (1 # 100000000000)) /\
    (attendance d = [] -> overallAttendanceRate d = JNum 0) /\
    (attendance d <> [] ->
     exists n : Z,
       overallAttendanceRate d = JStr (fixed2_digits n) /\ (0 <= n <= 10000)%Z /\
       Qabs (inject_Z n
             - 10000 * inject_Z (Z.of_nat (List.length
                                   (filter (fun a => status_eqb (a_status a) present)
                                           (attendance d))))
               / inject_Z (Z.of_nat (List.length (attendance d))))
       <= (1 # 2) + (1 # 100000000000)).
Proof.
  intros d sid Hrows.
  pose proof (present_le_total sid d) as Hpt. pose proof (total_le_rows sid d) as Htr.
  split; [|split; [|split]].
  - intros H0. unfold attendanceRate. rewrite H0. apply rate_of_no_records.
  - intros Hpos. unfold attendanceRate.
    destruct (rate_of_counts (present_classes sid d) (total_classes sid d))
      as (n & H1 & _ & H2 & H3); [lia | lia |]. eauto.
  - intros H0. unfold overallAttendanceRate. rewrite H0. reflexivity.
  - intros Hne. unfold overallAttendanceRate.
    pose proof (filter_length_le (fun a => status_eqb (a_status a) present) (attendance d)).
    assert (Hlen : (0 < List.length (attendance d))%nat).
    { destruct (attendance d); [congruence | simpl; lia]. }
    destruct (rate_of_counts
                (Z.of_nat (List.length (filter (fun a => status_eqb (a_status a) present)
                                          (attendance d))))
                (Z.of_nat (List.length (attendance d))))
      as (n & H1 & _ & H2 & H3); [lia | lia |]. eauto.
Qed.

Lemma attendance_rate_is_percentage_witness :
  (Z.of_nat (List.length (attendance two_students_db)) < 2 ^ 53)%Z /\
  attendanceRate "S2" two_students_db = JNum 0 /\
  exists n : Z, attendanceRate "S1" two_students_db = JStr (fixed2_digits n) /\
                (0 <= n <= 10000)%Z.
Proof.
  assert (H : (Z.of_nat (List.length (attendance two_students_db)) < 2 ^ 53)%Z) by reflexivity.
  split; [exact H|].
  destruct (attendance_rate_is_percentage two_students_db "S2" H) as (H1 & _).
  destruct (attendance_rate_is_percentage two_students_db "S1" H) as (_ & H2 & _).
  split; [apply H1; reflexivity|].
  destruct (H2 eq_refl) as (n & Hn & Hr & _). exists n. split; assumption.
Defined.

End RatesFacts.

(** * Further properties of the code *)

(** ** [MarkAttendance]: what a call leaves alone, and what it logs *)

Module MarkFacts.
Import Schema Samples.

Lemma key_differs sid cid sid' cid' r :
  (sid', cid') <> (sid, cid) -> same_key sid cid r = true -> same_key sid' cid' r = false.
Proof.
  intros Hne H. apply SchemaFacts.same_key_iff in H.
  destruct (same_key sid' cid' r) eqn:E; [|reflexivity].
  apply SchemaFacts.same_key_iff in E. congruence.
Qed.

Lemma update_duplicate_other sid cid st now sid' cid' rows :
  (sid', cid') <> (sid, cid) ->
  filter (same_key sid' cid') (update_duplicate sid cid st now rows)
  = filter (same_key sid' cid') rows.
Proof.
  intros Hne. induction rows as [|r rows IH]; simpl; [reflexivity|].
  destruct (same_key sid cid r) eqn:E; simpl.
  - rewrite (key_differs _ _ _ _ r Hne E).
    assert (E' : same_key sid cid (mkAttendance (a_id r) (a_student_id r) (a_class_id r) st now)
                 = true) by exact E.
    now rewrite (key_differs _ _ _ _ _ Hne E').
  - now rewrite IH.
Qed.

Lemma update_duplicate_length sid cid st now rows :
  List.length (update_duplicate sid cid st now rows) = List.length rows.
Proof.
  induction rows as [|r rows IH]; simpl; [reflexivity|].
  destruct (same_key sid cid r); simpl; congruence.
Qed.

(** What a committed call changes, table by table. *)
Lemma MarkAttendance_effect sid cid st now d d' :
  MarkAttendance sid cid st now d = SqlOk d' ->
  students d' = students d /\ classes d' = classes d /\
  next_student_id d' = next_student_id d /\ next_class_id d' = next_class_id d /\
  match find (same_key sid cid) (attendance d) with
  | Some old =>
      attendance d' = update_duplicate sid cid st now (attendance d) /\
      next_attendance_id d' = next_attendance_id d /\
      activity_logs d'
      = (activity_logs d
         ++ (if status_eqb (a_status old) st then []
             else [mkLog ("Attendance updated: Student " ++ a_student_id old
                          ++ " changed from " ++ status_text (a_status old) ++ " to "
                          ++ status_text st ++ " for class ID "
                          ++ string_of_Z (a_class_id old)) now])
         ++ [mkLog ("Student " ++ sid ++ " marked " ++ status_text st
                    ++ " for class ID " ++ string_of_Z cid) now])%list
  | None =>
      class_exists cid d = true /\
      attendance d'
      = (attendance d ++ [mkAttendance (next_attendance_id d) sid cid st now])%list /\
      next_attendance_id d' = next_attendance_id d + 1 /\
      activity_logs d'
      = (activity_logs d
         ++ [mkLog ("New attendance record created: Student " ++ sid ++ " - "
                    ++ status_text st ++ " for class ID " ++ string_of_Z cid) now]
         ++ [mkLog ("Student " ++ sid ++ " marked " ++ status_text st
                    ++ " for class ID " ++ string_of_Z cid) now])%list
  end.
Proof.
  unfold MarkAttendance, insert_attendance_on_duplicate_update.
  destruct (find (same_key sid cid) (attendance d)) as [old|] eqn:Hf.
  - intros [= <-]. unfold attendance_update_log. simpl.
    destruct (status_eqb (a_status old) st); simpl;
      repeat split; try reflexivity; now rewrite <- ?app_assoc.
  - destruct (class_exists cid d) eqn:Hc; [|discriminate]. intros [= <-].
    unfold attendance_insert_log. simpl. repeat split; try reflexivity.
    now rewrite <- app_assoc.
Qed.

(** X1: a committed call changes nothing but the marked pair: the students
    and classes tables are as before, the rows of every other (student,
    class) pair are as before, and the table grows by one row when the pair
    is new and by none when it is marked again. *)
Theorem mark_leaves_other_pairs :
  forall sid cid st now d d',
    MarkAttendance sid cid st now d = SqlOk d' ->
    students d' = students d /\ classes d' = classes d /\
    (forall sid' cid', (sid', cid') <> (sid, cid) ->
                       rows_of_pair sid' cid' d' = rows_of_pair sid' cid' d) /\
    List.length (attendance d')
    = (List.length (attendance d)
       + match rows_of_pair sid cid d with [] => 1 | _ => 0 end)%nat.
Proof.
  intros sid cid st now d d' H.
  destruct (MarkAttendance_effect _ _ _ _ _ _ H) as (Hs & Hc & _ & _ & Ha).
  split; [exact Hs | split; [exact Hc|]].
  unfold rows_of_pair.
  destruct (find (same_key sid cid) (attendance d)) as [old|] eqn:Hf.
  - destruct Ha as (Ha & _). rewrite Ha. split.
    + intros sid' cid' Hne. now apply update_duplicate_other.
    + rewrite update_duplicate_length.
      apply find_some in Hf as [Hin Hk].
      destruct (filter (same_key sid cid) (attendance d)) eqn:Ef; [|lia].
      assert (Hin' : In old (filter (same_key sid cid) (attendance d)))
        by (apply filter_In; auto).
      rewrite Ef in Hin'. destruct Hin'.
  - destruct Ha as (_ & Ha & _). rewrite Ha. split.
    + intros sid' cid' Hne. rewrite filter_app. simpl.
      assert (E : same_key sid' cid' (mkAttendance (next_attendance_id d) sid cid st now)
                  = false).
      { apply (key_differs sid cid); [exact Hne|].
        unfold same_key. simpl. now rewrite String.eqb_refl, Z.eqb_refl. }
      rewrite E. apply app_nil_r.
    + rewrite length_app.
      rewrite (SchemaFacts.no_key_filter_nil _ _ _ (SchemaFacts.find_none_no_key _ _ _ Hf)).
      reflexivity.
Qed.

Lemma mark_leaves_other_pairs_witness :
  exists d',
    MarkAttendance "S1" 2 present 300 two_students_db = SqlOk d' /\
    rows_of_pair "S1" 1 d' = rows_of_pair "S1" 1 two_students_db /\
    List.length (attendance d') = 2%nat.
Proof.
  destruct (SchemaFacts.MarkAttendance_commits "S1" 2 present 300 two_students_db eq_refl)
    as [d' H].
  exists d'. split; [exact H|].
  destruct (mark_leaves_other_pairs _ _ _ _ _ _ H) as (_ & _ & Hother & Hlen).
  split; [apply Hother; discriminate | exact Hlen].
Defined.

(** X2: the activity a committed call logs. Its last entry is the
    procedure's own line, stamped with the time of the call; before it comes
    one line of a trigger, unless the pair is marked again with the status
    it already has, in which case the call logs the one line only. *)
Theorem mark_logs_the_transition :
  forall sid cid st now d d',
    MarkAttendance sid cid st now d = SqlOk d' ->
    let own := mkLog ("Student " ++ sid ++ " marked " ++ status_text st
                      ++ " for class ID " ++ string_of_Z cid) now in
    exists by_trigger,
      activity_logs d' = (activity_logs d ++ by_trigger ++ [own])%list /\
      (forall l, In l by_trigger -> l_timestamp l = now) /\
      List.length by_trigger
      = match find (same_key sid cid) (attendance d) with
        | Some old => if status_eqb (a_status old) st then 0%nat else 1%nat
        | None => 1%nat
        end.
Proof.
  intros sid cid st now d d' H own.
  destruct (MarkAttendance_effect _ _ _ _ _ _ H) as (_ & _ & _ & _ & Ha).
  destruct (find (same_key sid cid) (attendance d)) as [old|].
  - destruct Ha as (_ & _ & Hl). rewrite Hl.
    destruct (status_eqb (a_status old) st); eexists; (split; [reflexivity|]); split;
      try reflexivity; simpl; intros l Hin; intuition (subst; reflexivity).
  - destruct Ha as (_ & _ & _ & Hl). rewrite Hl.
    eexists; (split; [reflexivity|]); split; try reflexivity.
    simpl; intros l Hin; intuition (subst; reflexivity).
Qed.

Lemma mark_logs_the_transition_witness :
  exists d' by_trigger,
    MarkAttendance "S1" 1 present 300 two_students_db = SqlOk d' /\
    activity_logs d'
    = (activity_logs two_students_db ++ by_trigger
       ++ [mkLog "Student S1 marked present for class ID 1" 300])%list /\
    List.length by_trigger = 0%nat.
Proof.
  destruct (SchemaFacts.MarkAttendance_commits "S1" 1 present 300 two_students_db eq_refl)
    as [d' H].
  destruct (mark_logs_the_transition _ _ _ _ _ _ H) as (by_trigger & Hl & _ & Hn).
  exists d', by_trigger. split; [exact H | split; [exact Hl | exact Hn]].
Defined.

End MarkFacts.

(** ** The constraints of the schema hold after every request *)

Module BackendFacts.
Import Schema Backend Samples.

Lemma consistent_empty_db : consistent empty_db.
Proof.
  constructor; simpl; try apply NoDup_nil; try (intros ? []).
Qed.

Lemma consistent_same_tables d d' :
  students d' = students d -> classes d' = classes d -> attendance d' = attendance d ->
  next_student_id d' = next_student_id d -> next_class_id d' = next_class_id d ->
  next_attendance_id d' = next_attendance_id d ->
  consistent d -> consistent d'.
Proof.
  intros Hs Hc Ha H1 H2 H3 [].
  constructor; unfold class_exists; rewrite ?Hs, ?Hc, ?Ha, ?H1, ?H2, ?H3; assumption.
Qed.

Lemma consistent_log msg now d : consistent d -> consistent (log msg now d).
Proof. apply consistent_same_tables; reflexivity. Qed.

Lemma keys_below_fresh {A : Type} (f : A -> Z) (l : list A) (n : Z) :
  (forall x, In x l -> f x < n) -> ~ In n (map f l).
Proof.
  intros H Hin. apply in_map_iff in Hin as (x & Hx & Hin). specialize (H x Hin). lia.
Qed.

Lemma NoDup_snoc {A : Type} (l : list A) (x : A) : NoDup l -> ~ In x l -> NoDup (l ++ [x]).
Proof.
  intros Hl Hx. apply NoDup_app; [exact Hl | repeat constructor; intros [] |].
  intros y Hy [<-|[]]. contradiction.
Qed.

Lemma filter_keeps_keys_distinct {Row Key : Type} (key : Row -> Key) (keep : Row -> bool)
    (rows : list Row) (Hkeys : NoDup (map key rows)) :
  NoDup (map key (filter keep rows)).
Proof.
  revert Hkeys. induction rows as [|x rows IH]; simpl; intros H; [constructor|].
  inversion H as [|? ? Hx Hrows]; subst.
  destruct (keep x); simpl; [|auto].
  constructor; [|auto].
  intros Hin. apply Hx. apply in_map_iff in Hin as (y & Hy & Hin).
  apply filter_In in Hin as [Hin _]. apply in_map_iff. eauto.
Qed.

Lemma update_duplicate_ids sid cid st now rows :
  map a_id (update_duplicate sid cid st now rows) = map a_id rows.
Proof.
  induction rows as [|r rows IH]; simpl; [reflexivity|].
  destruct (same_key sid cid r); simpl; [reflexivity | now rewrite IH].
Qed.

Lemma update_duplicate_in sid cid st now rows a :
  In a (update_duplicate sid cid st now rows) ->
  exists a0, In a0 rows /\ a_id a = a_id a0 /\ a_class_id a = a_class_id a0.
Proof.
  induction rows as [|r rows IH]; simpl; [intros []|].
  destruct (same_key sid cid r); simpl.
  - intros [E|Hin]; [subst a; exists r; simpl; auto | exists a; auto].
  - intros [E|Hin]; [subst a; exists r; auto|].
    destruct (IH Hin) as (a0 & H0 & Hid). exists a0. auto.
Qed.

Lemma student_exists_false sid d :
  student_exists sid d = false -> ~ In sid (map s_student_id (students d)).
Proof.
  unfold student_exists. intros H Hin. apply in_map_iff in Hin as (s & Hs & Hin).
  assert (E : existsb (fun s => (s_student_id s =? sid)%string) (students d) = true).
  { apply existsb_exists. exists s. split; [exact Hin | now apply String.eqb_eq]. }
  congruence.
Qed.

Lemma class_exists_iff cid d :
  class_exists cid d = true <-> exists c, In c (classes d) /\ c_id c = cid.
Proof.
  unfold class_exists. rewrite existsb_exists.
  split; intros (c & Hin & Hc); exists c; (split; [exact Hin|]); now apply Z.eqb_eq.
Qed.

Lemma MarkAttendance_consistent sid cid st now d d' :
  consistent d -> MarkAttendance sid cid st now d = SqlOk d' -> consistent d'.
Proof.
  intros Hd Hm.
  pose proof (SchemaFacts.MarkAttendance_unique _ _ _ _ _ _ (attendance_pairs _ Hd) Hm) as Hu.
  destruct (MarkFacts.MarkAttendance_effect _ _ _ _ _ _ Hm) as (Hs & Hc & Hns & Hnc & Ha).
  destruct Hd as [K1 K2 K3 K4 K5 K6 K7 K8 K9].
  destruct (find (same_key sid cid) (attendance d)) as [old|].
  - destruct Ha as (Ha & Hna & _).
    constructor; unfold class_exists; rewrite ?Hs, ?Hc, ?Hns, ?Hnc, ?Hna; try assumption.
    + rewrite Ha, update_duplicate_ids. exact K6.
    + rewrite Ha. intros a Hin.
      apply update_duplicate_in in Hin as (a0 & H0 & -> & _). auto.
    + rewrite Ha. intros a Hin.
      apply update_duplicate_in in Hin as (a0 & H0 & _ & ->). apply K9. exact H0.
  - destruct Ha as (Hce & Ha & Hna & _).
    constructor; unfold class_exists; rewrite ?Hs, ?Hc, ?Hns, ?Hnc, ?Hna; try assumption.
    + rewrite Ha, map_app. simpl. apply NoDup_snoc; [exact K6|].
      now apply keys_below_fresh.
    + rewrite Ha. intros a Hin. apply in_app_iff in Hin as [Hin|[<-|[]]].
      * specialize (K7 a Hin). lia.
      * simpl. lia.
    + rewrite Ha. intros a Hin. apply in_app_iff in Hin as [Hin|[<-|[]]].
      * apply K9. exact Hin.
      * exact Hce.
Qed.

Lemma after_call_consistent d c : consistent d -> consistent (after_call d c).
Proof.
  intros Hd. unfold after_call.
  destruct (MarkAttendance _ _ _ _ d) eqn:Hm; [|exact Hd].
  eapply MarkAttendance_consistent; eauto.
Qed.

Lemma insert_student_consistent sid name email enc photo now d id d' :
  consistent d ->
  Students.insert_student sid name email enc photo now d = SqlOk (id, d') -> consistent d'.
Proof.
  intros Hd. unfold Students.insert_student.
  destruct (negb _); [discriminate|].
  destruct (student_exists sid d) eqn:He; [discriminate|].
  intros [= <- <-]. apply consistent_log.
  destruct Hd as [K1 K2 K3 K4 K5 K6 K7 K8 K9].
  constructor; simpl; try assumption.
  - rewrite map_app. simpl. apply NoDup_snoc; [exact K1|]. now apply keys_below_fresh.
  - intros s Hin. apply in_app_iff in Hin as [Hin|[<-|[]]].
    + specialize (K2 s Hin). lia.
    + simpl. lia.
  - rewrite map_app. simpl. apply NoDup_snoc; [exact K3|]. now apply student_exists_false.
Qed.

Lemma insert_class_consistent name st en dt now d id d' :
  consistent d ->
  Classes.insert_class name st en dt now d = SqlOk (id, d') -> consistent d'.
Proof.
  intros Hd. unfold Classes.insert_class.
  destruct (negb _); [discriminate|].
  intros [= <- <-]. apply consistent_log.
  destruct Hd as [K1 K2 K3 K4 K5 K6 K7 K8 K9].
  constructor; simpl; try assumption.
  - rewrite map_app. simpl. apply NoDup_snoc; [exact K4|]. now apply keys_below_fresh.
  - intros c Hin. apply in_app_iff in Hin as [Hin|[<-|[]]].
    + specialize (K5 c Hin). lia.
    + simpl. lia.
  - intros a Hin. specialize (K9 a Hin). unfold class_exists in *. simpl.
    rewrite existsb_app, K9. reflexivity.
Qed.

Lemma delete_student_consistent sid d fs :
  consistent d -> consistent (snd (fst (Students.delete_student sid d fs))).
Proof.
  intros Hd. unfold Students.delete_student.
  destruct (find _ (students d)) as [info|]; simpl; [|exact Hd].
  destruct Hd as [K1 K2 K3 K4 K5 K6 K7 K8 K9].
  constructor; simpl; try assumption.
  - now apply filter_keeps_keys_distinct.
  - intros s Hin. apply filter_In in Hin as [Hin _]. auto.
  - now apply filter_keeps_keys_distinct.
  - now apply filter_keeps_keys_distinct.
  - intros a Hin. apply filter_In in Hin as [Hin _]. auto.
  - unfold unique_student_class. now apply filter_keeps_keys_distinct.
  - intros a Hin. apply filter_In in Hin as [Hin _]. exact (K9 a Hin).
Qed.

Lemma delete_class_consistent stringify read_int id deletedBy now d :
  consistent d ->
  consistent (snd (Classes.delete_class stringify read_int id deletedBy now d)).
Proof.
  intros Hd. unfold Classes.delete_class.
  destruct (find _ (classes d)) as [found|]; simpl; [|exact Hd].
  unfold Classes.logActivity. apply consistent_log.
  destruct Hd as [K1 K2 K3 K4 K5 K6 K7 K8 K9].
  constructor; simpl; try assumption.
  - now apply filter_keeps_keys_distinct.
  - intros c Hin. apply filter_In in Hin as [Hin _]. auto.
  - now apply filter_keeps_keys_distinct.
  - intros a Hin. apply filter_In in Hin as [Hin _]. auto.
  - unfold unique_student_class. now apply filter_keeps_keys_distinct.
  - intros a Hin. apply filter_In in Hin as [Hin Hkeep].
    specialize (K9 a Hin). apply class_exists_iff in K9 as (c & Hc & Hid).
    apply class_exists_iff. exists c. split; [|exact Hid].
    apply filter_In. split; [exact Hc|]. now rewrite Hid.
Qed.

Lemma post_classes_consistent isISO8601 read_time read_date form now d :
  consistent d ->
  consistent (snd (Classes.post_classes isISO8601 read_time read_date form now d)).
Proof.
  intros Hd. unfold Classes.post_classes.
  destruct (negb _); [exact Hd|].
  destruct (read_time _) as [st|]; [|exact Hd].
  destruct (read_time _) as [en|]; [|exact Hd].
  destruct (read_date _) as [dt|]; [|exact Hd].
  destruct (Classes.insert_class _ _ _ _ _ _) as [[id d']|e] eqn:Hi; [|exact Hd].
  simpl. eapply insert_class_consistent; eauto.
Qed.

Lemma insert_rows_consistent read_row data now : forall d n,
  consistent d -> consistent (fst (Timetable.insert_rows read_row data now d n)).
Proof.
  induction data as [|row data IH]; intros d n Hd; simpl; [exact Hd|].
  destruct (_ && _); [|now apply IH].
  destruct (read_row row) as [[[[name st] en] dt]|]; [|now apply IH].
  destruct (Classes.insert_class _ _ _ _ _ _) as [[id d']|e] eqn:Hi; [|now apply IH].
  apply IH. eapply insert_class_consistent; eauto.
Qed.

Lemma serve_consistent isEmail now d fs rq :
  consistent d -> consistent (fst (Students.serve isEmail now (d, fs) rq)).
Proof.
  intros Hd. destruct rq as [form|form file|sid]; simpl.
  - unfold Students.post_students. destruct (negb _); [exact Hd|].
    destruct (Students.insert_student _ _ _ _ _ _ _) as [[id d']|e] eqn:Hi.
    + simpl. eapply insert_student_consistent; eauto.
    + destruct e; exact Hd.
  - unfold Students.post_students_with_photo. destruct (negb _); [exact Hd|].
    destruct file as [photo|]; [|exact Hd].
    destruct (Students.insert_student _ _ _ _ _ _ _) as [[id d']|e] eqn:Hi.
    + simpl. eapply insert_student_consistent; eauto.
    + destruct e; exact Hd.
  - pose proof (delete_student_consistent sid d fs Hd) as H.
    destruct (Students.delete_student sid d fs) as [[r d'] fs']. exact H.
Qed.

Section WithLibraries.

Variable isEmail : string -> bool.
Variable isISO8601 : string -> bool.
Variable read_time : string -> option time.
Variable read_date : string -> option date.
Variable stringify : json -> string.
Variable read_int : string -> option Z.
Variable read_row : Timetable.sheet_row -> option (string * time * time * date).

Abbreviation step := (Backend.step isEmail isISO8601 read_time read_date stringify read_int read_row).
Abbreviation run := (Backend.run isEmail isISO8601 read_time read_date stringify read_int read_row).

Lemma step_consistent st op : consistent (fst st) -> consistent (fst (step st op)).
Proof.
  destruct st as [d fs]. intros Hd. destruct op; simpl in *.
  - now apply after_call_consistent.
  - now apply serve_consistent.
  - now apply post_classes_consistent.
  - now apply delete_class_consistent.
  - unfold Timetable.upload_timetable.
    destruct file as [path|]; [|exact Hd]. destruct sheet as [data|]; [|exact Hd].
    pose proof (insert_rows_consistent read_row data now d 0 Hd) as H.
    destruct (Timetable.insert_rows read_row data now d 0) as [d' n].
    destruct (existsSync path fs); exact H.
Qed.

(** X4: the constraints of the schema survive every request. From a
    database in which the primary keys are unique and below the counters,
    student identifiers are unique, no (student, class) pair has two
    attendance rows and every attendance row belongs to a class that
    exists, any series of attendance calls, student requests, class
    creations and deletions and timetable uploads leads to a database with
    the same properties. *)
Theorem requests_keep_the_database_consistent :
  forall ops d fs, consistent d -> consistent (fst (run ops (d, fs))).
Proof.
  intros ops d fs. change d with (fst (d, fs)) at 1. generalize (d, fs). clear d fs.
  induction ops as [|op ops IH]; intros st Hst; simpl; [exact Hst|].
  apply IH. now apply step_consistent.
Qed.

End WithLibraries.

End BackendFacts.

Module BackendWitness.
Import Schema Backend Samples MoreSamples.

Lemma requests_keep_the_database_consistent_witness :
  consistent empty_db /\
  consistent (fst (Backend.run accept_all accept_all nine_o_clock first_of_march no_details
                               read_one reject_rows sample_requests (empty_db, []))).
Proof.
  split; [exact BackendFacts.consistent_empty_db|].
  apply BackendFacts.requests_keep_the_database_consistent.
  exact BackendFacts.consistent_empty_db.
Defined.

End BackendWitness.

(** ** Rosters *)

Module RosterFacts.
Import Schema Backend Roster Samples MoreSamples.

Lemma consistent_two_students_db : consistent two_students_db.
Proof.
  constructor; simpl;
    try (repeat (constructor; [simpl; intuition (discriminate || congruence)|]);
         apply NoDup_nil);
    try (intros x Hin; repeat (destruct Hin as [<-|Hin]; [simpl; try reflexivity; lia|]);
         destruct Hin).
Qed.

(** The rows of the handler's join, before they are put in order. *)
Lemma class_attendance_rows read_int classId d r :
  In r (class_attendance read_int classId d) <->
  exists a s,
    In a (attendance d) /\ In s (students d) /\
    a_student_id a = s_student_id s /\
    Classes.id_is read_int classId (a_class_id a) = true /\
    r = mkRoster (a_id a) (a_status a) (a_marked_at a)
                 (s_student_id s) (s_name s) (s_email s).
Proof.
  unfold class_attendance. split.
  - intros Hin. apply (Permutation_in _ (order_by_perm _ _)) in Hin.
    apply in_flat_map in Hin as (a & Ha & Hin).
    apply in_flat_map in Hin as (s & Hs & Hin).
    destruct (_ && _) eqn:E; [|destruct Hin].
    destruct Hin as [<-|[]]. apply andb_true_iff in E as [E1 E2].
    apply String.eqb_eq in E1. exists a, s. auto.
  - intros (a & s & Ha & Hs & E1 & E2 & ->).
    apply (Permutation_in _ (Permutation_sym (order_by_perm _ _))).
    apply in_flat_map. exists a. split; [exact Ha|].
    apply in_flat_map. exists s. split; [exact Hs|].
    apply String.eqb_eq in E1. rewrite E1, E2. left. reflexivity.
Qed.

Lemma string_leb_total a b : String.leb a b = true \/ String.leb b a = true.
Proof.
  unfold String.leb. rewrite (String.compare_antisym a b).
  destruct (String.compare b a); simpl; auto.
Qed.

(** The students joined with one attendance row: the student of the row, if
    registered. *)
Lemma join_one_student (a : attendance_row) (b : bool) (ss : list student) :
  NoDup (map s_student_id ss) ->
  map ro_id
    (flat_map (fun s => if (a_student_id a =? s_student_id s)%string && b
                        then [mkRoster (a_id a) (a_status a) (a_marked_at a)
                                       (s_student_id s) (s_name s) (s_email s)]
                        else []) ss)
  = if b && existsb (fun s => (s_student_id s =? a_student_id a)%string) ss
    then [a_id a] else [].
Proof.
  induction ss as [|s ss IH]; simpl; intros Hnd; [now rewrite andb_false_r|].
  inversion Hnd as [|? ? Hs Hss]; subst. specialize (IH Hss).
  rewrite (String.eqb_sym (s_student_id s)).
  destruct (a_student_id a =? s_student_id s)%string eqn:E; simpl.
  - apply String.eqb_eq in E.
    assert (Hno : existsb (fun s0 => (s_student_id s0 =? a_student_id a)%string) ss = false).
    { destruct (existsb _ ss) eqn:Ex; [|reflexivity].
      apply existsb_exists in Ex as (s' & Hin & He). apply String.eqb_eq in He.
      exfalso. apply Hs. rewrite <- E, <- He. now apply in_map. }
    rewrite Hno, andb_false_r in IH.
    destruct b; simpl; rewrite IH; reflexivity.
  - exact IH.
Qed.

(** X9: the roster of a class. The rows come in the order of the names;
    each row joins an attendance record of the class with the student of
    that identifier; and with unique student identifiers the records listed
    are those of the class whose student is registered, each once: a record
    of an unregistered identifier is left out. *)
Theorem class_roster_lists_registered_students :
  forall read_int classId d,
    NoDup (map s_student_id (students d)) ->
    let roster := class_attendance read_int classId d in
    StronglySorted (fun r1 r2 => String.leb (ro_name r1) (ro_name r2) = true) roster /\
    (forall r, In r roster ->
       exists a s, In a (attendance d) /\ In s (students d) /\
                   ro_id r = a_id a /\ ro_status r = a_status a /\
                   ro_marked_at r = a_marked_at a /\
                   ro_student_id r = a_student_id a /\ ro_student_id r = s_student_id s /\
                   ro_name r = s_name s /\ ro_email r = s_email s) /\
    Permutation (map ro_id roster)
      (map a_id (filter (fun a => Classes.id_is read_int classId (a_class_id a)
                                  && student_exists (a_student_id a) d) (attendance d))).
Proof.
  intros read_int classId d Hnd roster. split; [|split].
  - apply (order_by_sorted by_name).
    + intros x y. apply string_leb_total.
    + intros x y z. apply ReportsFacts.string_leb_trans.
  - intros r Hin. apply class_attendance_rows in Hin as (a & s & Ha & Hs & E & _ & ->).
    exists a, s. simpl. repeat split; auto.
  - subst roster. unfold class_attendance.
    rewrite (Permutation_map ro_id (order_by_perm by_name _)).
    unfold student_exists.
    induction (attendance d) as [|a rows IH]; simpl; [constructor|].
    rewrite map_app, (join_one_student a _ _ Hnd).
    destruct (_ && _); simpl; [constructor|]; exact IH.
Qed.

Lemma class_roster_lists_registered_students_witness :
  Permutation
    (map ro_id (class_attendance read_one "1" two_students_db))
    [1].
Proof.
  assert (Hnd : NoDup (map s_student_id (students two_students_db)))
    by exact (student_ids _ consistent_two_students_db).
  exact (proj2 (proj2 (class_roster_lists_registered_students read_one "1" two_students_db Hnd))).
Defined.

End RosterFacts.

(** ** The class report of the schema *)

Module ClassReportFacts.
Import Schema Backend Roster Samples.

Lemma pair_has_at_most_one_row rows sid cid :
  unique_student_class rows ->
  filter (same_key sid cid) rows = [] \/ exists a, filter (same_key sid cid) rows = [a].
Proof.
  unfold unique_student_class.
  induction rows as [|r rows IH]; simpl; intros Hnd; [now left|].
  inversion Hnd as [|? ? Hr Hrows]; subst.
  destruct (same_key sid cid r) eqn:E; [|auto].
  right. exists r. f_equal. apply SchemaFacts.no_key_filter_nil.
  apply SchemaFacts.same_key_iff in E. now rewrite <- E.
Qed.

Lemma left_join_is_rows_of_pair c s d :
  filter (fun a => (a_class_id a =? c_id c) && (a_student_id a =? s_student_id s)%string)
         (attendance d)
  = rows_of_pair (s_student_id s) (c_id c) d.
Proof.
  unfold rows_of_pair. apply filter_ext. intros a. unfold same_key. apply andb_comm.
Qed.

(** A student gives one row of the report when no pair has two records. *)
Lemma left_join_one_row c s d :
  unique_student_class (attendance d) ->
  exists r,
    left_join_attendance c s d = [r] /\ cr_student_id r = s_student_id s /\
    match rows_of_pair (s_student_id s) (c_id c) d with
    | [] => cr_status r = absent /\ cr_marked_at r = None
    | a :: _ => cr_status r = a_status a /\ cr_marked_at r = Some (a_marked_at a)
    end.
Proof.
  intros Hu. unfold left_join_attendance. rewrite left_join_is_rows_of_pair.
  unfold rows_of_pair.
  destruct (pair_has_at_most_one_row (attendance d) (s_student_id s) (c_id c) Hu)
    as [->|[a ->]]; eexists; simpl; repeat split.
Qed.

Lemma rows_of_one_class c d ss :
  unique_student_class (attendance d) ->
  map cr_student_id (flat_map (fun s => left_join_attendance c s d) ss)
  = map s_student_id ss.
Proof.
  intros Hu. induction ss as [|s ss IH]; simpl; [reflexivity|].
  destruct (left_join_one_row c s d Hu) as (r & -> & Hr & _). simpl.
  now rewrite Hr, IH.
Qed.

Lemma rows_of_the_class {B : Type} (f : class_report_row -> B) (v : list B)
    (F : class -> list class_report_row) cid cs :
  NoDup (map c_id cs) ->
  (forall c, map f (F c) = v) ->
  map f (flat_map (fun c => if c_id c =? cid then F c else []) cs)
  = if existsb (fun c => c_id c =? cid) cs then v else [].
Proof.
  intros Hnd HF. induction cs as [|c cs IH]; simpl; [reflexivity|].
  inversion Hnd as [|? ? Hc Hcs]; subst. specialize (IH Hcs).
  destruct (c_id c =? cid) eqn:E; simpl; [|exact IH].
  rewrite map_app, HF, IH.
  destruct (existsb _ cs) eqn:Ex; [|apply app_nil_r].
  apply existsb_exists in Ex as (c' & Hin & E'). apply Z.eqb_eq in E, E'.
  exfalso. apply Hc. rewrite E, <- E'. now apply in_map.
Qed.

(** X10: the class report of the schema. For a class that exists, in a
    database that satisfies the constraints of the schema, the procedure
    returns one row for every registered student, in the order of the names;
    the row carries the status and the time of the student's record for the
    class, and is absent with no time when the student has no record. *)
Theorem class_report_has_one_row_per_student :
  forall cid d,
    consistent d -> class_exists cid d = true ->
    let rows := GetClassAttendanceReport cid d in
    StronglySorted (fun r1 r2 => String.leb (cr_name r1) (cr_name r2) = true) rows /\
    Permutation (map cr_student_id rows) (map s_student_id (students d)) /\
    (forall r, In r rows ->
       match rows_of_pair (cr_student_id r) cid d with
       | [] => cr_status r = absent /\ cr_marked_at r = None
       | a :: _ => cr_status r = a_status a /\ cr_marked_at r = Some (a_marked_at a)
       end).
Proof.
  intros cid d Hd Hc rows. subst rows. unfold GetClassAttendanceReport.
  pose proof (attendance_pairs _ Hd) as Hu.
  split; [|split].
  - apply (order_by_sorted report_by_name).
    + intros x y. apply RosterFacts.string_leb_total.
    + intros x y z. apply ReportsFacts.string_leb_trans.
  - rewrite (Permutation_map cr_student_id (order_by_perm report_by_name _)).
    rewrite (rows_of_the_class cr_student_id (map s_student_id (students d))
               (fun c => flat_map (fun s => left_join_attendance c s d) (students d))
               cid (classes d) (class_keys _ Hd)).
    + unfold class_exists in Hc. rewrite Hc. reflexivity.
    + intros c. now apply rows_of_one_class.
  - intros r Hin. apply (Permutation_in _ (order_by_perm _ _)) in Hin.
    apply in_flat_map in Hin as (c & _ & Hin).
    destruct (c_id c =? cid) eqn:E; [|destruct Hin]. apply Z.eqb_eq in E.
    apply in_flat_map in Hin as (s & _ & Hin).
    destruct (left_join_one_row c s d Hu) as (r' & Hl & Hr & Hm).
    rewrite Hl in Hin. destruct Hin as [<-|[]].
    rewrite Hr, <- E. exact Hm.
Qed.

Lemma class_report_has_one_row_per_student_witness :
  Permutation (map cr_student_id (GetClassAttendanceReport 1 two_students_db))
              (map s_student_id (students two_students_db)).
Proof.
  assert (Hc : class_exists 1 two_students_db = true) by reflexivity.
  exact (proj1 (proj2 (class_report_has_one_row_per_student 1 two_students_db
                         RosterFacts.consistent_two_students_db Hc))).
Defined.

End ClassReportFacts.

(** ** Requests that delete and create *)

Module RequestFacts.
Import Schema Backend Samples MoreSamples.

Lemma existsSync_unlinkSync_other p q fs :
  q <> p -> existsSync q (unlinkSync p fs) = existsSync q fs.
Proof.
  intros Hne. unfold existsSync, unlinkSync.
  induction fs as [|f fs IH]; simpl; [reflexivity|].
  destruct (f =? p)%string eqn:E; simpl; [|now rewrite IH].
  apply String.eqb_eq in E. subst f.
  assert (E' : (p =? q)%string = false) by (apply String.eqb_neq; congruence).
  now rewrite E', IH.
Qed.

Lemma find_student_exists sid d :
  student_exists sid d = true <->
  exists info, find (fun s => (s_student_id s =? sid)%string) (students d) = Some info.
Proof.
  unfold student_exists. split.
  - intros H. apply existsb_exists in H as (s & Hin & Hs).
    destruct (find _ (students d)) as [info|] eqn:Hf; [eauto|].
    apply (find_none _ _ Hf) in Hin. congruence.
  - intros (info & Hf). apply find_some in Hf as [Hin Hs].
    apply existsb_exists. eauto.
Qed.

(** X5: deleting a student. For a registered identifier the handler
    answers 200; afterwards no student has the identifier, the attendance
    table holds the records of the other identifiers and no other, classes
    and the activity log are as before, no roster lists the identifier, and
    the photo of the student is not on disk while every other file is
    where it was. For an identifier that is not registered it answers 404
    and changes nothing. *)
Theorem delete_student_removes_student_records_and_photo :
  forall studentId d fs,
    let '(r, d', fs') := Students.delete_student studentId d fs in
    if student_exists studentId d
    then res_status r = 200 /\
         student_exists studentId d' = false /\
         (forall s, In s (students d') <-> In s (students d) /\ s_student_id s <> studentId) /\
         (forall a, In a (attendance d') <->
                    In a (attendance d) /\ a_student_id a <> studentId) /\
         classes d' = classes d /\ activity_logs d' = activity_logs d /\
         (forall read_int classId r,
             In r (Roster.class_attendance read_int classId d') ->
             Roster.ro_student_id r <> studentId) /\
         (forall info,
             find (fun s => (s_student_id s =? studentId)%string) (students d) = Some info ->
             (forall p, s_photo_path info = Some p -> existsSync p fs' = false) /\
             (forall q, s_photo_path info <> Some q -> existsSync q fs' = existsSync q fs))
    else res_status r = 404 /\ d' = d /\ fs' = fs.
Proof.
  intros studentId d fs. unfold Students.delete_student.
  destruct (student_exists studentId d) eqn:Hex.
  - destruct (proj1 (find_student_exists studentId d) Hex) as (info & Hf). rewrite Hf.
    assert (Hs : forall s,
               In s (filter (fun s => negb (s_student_id s =? studentId)%string) (students d))
               <-> In s (students d) /\ s_student_id s <> studentId).
    { intros s. rewrite filter_In, negb_true_iff, String.eqb_neq. reflexivity. }
    split; [reflexivity|]. split; [|split; [exact Hs|split; [|split; [|split; [|split]]]]];
      simpl; try reflexivity.
    + unfold student_exists. simpl.
      destruct (existsb _ _) eqn:Ex; [|reflexivity].
      apply existsb_exists in Ex as (s & Hin & E). apply Hs in Hin as [_ Hne].
      apply String.eqb_eq in E. contradiction.
    + intros a. rewrite filter_In, negb_true_iff, String.eqb_neq. reflexivity.
    + intros read_int classId r Hin.
      apply RosterFacts.class_attendance_rows in Hin as (a & s & _ & Hin & _ & _ & ->).
      simpl in *. apply Hs in Hin as [_ Hne]. exact Hne.
    + intros info' [= <-]. split.
      * intros p ->. destruct (existsSync p fs) eqn:E; [|exact E].
        apply FramesFacts.existsSync_unlinkSync.
      * intros q Hq. destruct (s_photo_path info) as [p|]; [|reflexivity].
        destruct (existsSync p fs); [|reflexivity].
        apply existsSync_unlinkSync_other. congruence.
  - destruct (find _ (students d)) as [info|] eqn:Hf; [|auto].
    assert (H : student_exists studentId d = true) by (apply find_student_exists; eauto).
    congruence.
Qed.

Section ClassRequests.

Variable isISO8601 : string -> bool.
Variable read_time : string -> option time.
Variable read_date : string -> option date.
Variable stringify : json -> string.
Variable read_int : string -> option Z.



End ClassRequests.





End RequestFacts.

(** ** The activity log listing *)

Module LogsFacts.
Import Schema Logs.

Lemma newest_first_total l1 l2 : newest_first l1 l2 = true \/ newest_first l2 l1 = true.
Proof. unfold newest_first. rewrite !Z.leb_le. lia. Qed.

Lemma newest_first_trans l1 l2 l3 :
  newest_first l1 l2 = true -> newest_first l2 l3 = true -> newest_first l1 l3 = true.
Proof. unfold newest_first. rewrite !Z.leb_le. lia. Qed.

Lemma sorted_firstn {A : Type} (R : A -> A -> Prop) (l : list A) : forall n,
  StronglySorted R l -> StronglySorted R (firstn n l).
Proof.
  induction l as [|x l IH]; intros [|n] Hs; simpl; try constructor.
  - apply IH. now inversion Hs.
  - inversion Hs as [|? ? _ Hx]; subst. rewrite Forall_forall in *.
    intros y Hy. apply Hx. rewrite <- (firstn_skipn n l). apply in_or_app. now left.
Qed.

Lemma sorted_firstn_before_skipn {A : Type} (R : A -> A -> Prop) (l : list A) : forall n x y,
  StronglySorted R l -> In x (firstn n l) -> In y (skipn n l) -> R x y.
Proof.
  induction l as [|a l IH]; intros [|n] x y Hs Hx Hy; simpl in *; try contradiction.
  inversion Hs as [|? ? Hl Ha]; subst. destruct Hx as [<-|Hx].
  - rewrite Forall_forall in Ha. apply Ha.
    rewrite <- (firstn_skipn n l). apply in_or_app. now right.
  - eapply IH; eauto.
Qed.

(** X11: the log listing. The handler answers 200 exactly when the
    password of the request is not empty and equals the configured log
    password; with an empty or missing password it answers 400. A listing
    holds the newest entries of the log, at most 1000 of them, the newest
    first: every entry that is left out is at most as new as every entry
    listed. Without the password no entry is returned. *)
Theorem log_listing_needs_password_and_is_newest_first :
  forall LOG_PASSWORD password d,
    let (status, rows) := post_logs LOG_PASSWORD password d in
    (status = 200 <->
     exists p, password = Some p /\ p <> ""%string /\ LOG_PASSWORD = Some p) /\
    (status = 400 <-> Students.notEmpty password = false) /\
    if status =? 200
    then List.length rows = Nat.min 1000 (List.length (activity_logs d)) /\
         StronglySorted (fun l1 l2 => l_timestamp l2 <= l_timestamp l1) rows /\
         (forall l, In l rows -> In l (activity_logs d)) /\
         (forall l l', In l rows -> In l' (activity_logs d) -> ~ In l' rows ->
                       l_timestamp l' <= l_timestamp l)
    else rows = [].
Proof.
  intros LOG_PASSWORD password d. unfold post_logs.
  set (listing := limit 1000 (order_by newest_first (activity_logs d))).
  destruct password as [p|]; simpl.
  2:{ split; [|split; [|reflexivity]]; split; try discriminate; auto.
      intros (p & Hp & _). discriminate. }
  destruct (p =? "")%string eqn:Ep; simpl.
  { apply String.eqb_eq in Ep. subst p.
    split; [|split; [|reflexivity]]; split; try discriminate; auto.
    intros (p & [= <-] & Hne & _). congruence. }
  apply String.eqb_neq in Ep.
  destruct LOG_PASSWORD as [q|].
  2:{ split; [|split; [|reflexivity]]; split; try discriminate.
      intros (p' & _ & _ & Hq). discriminate. }
  destruct (p =? q)%string eqn:Epq.
  - apply String.eqb_eq in Epq. subst q.
    split; [|split]; [split; eauto | split; discriminate |].
    rewrite Z.eqb_refl. subst listing. unfold limit.
    pose proof (order_by_perm newest_first (activity_logs d)) as Hperm.
    pose proof (order_by_sorted newest_first newest_first_total newest_first_trans
                  (activity_logs d)) as Hsorted.
    apply (ReportsFacts.StronglySorted_weaken _
             (fun l1 l2 => l_timestamp l2 <= l_timestamp l1)) in Hsorted.
    2:{ intros a b. unfold newest_first. now rewrite Z.leb_le. }
    set (sorted := order_by newest_first (activity_logs d)) in *.
    split; [|split; [|split]].
    + rewrite length_firstn, (Permutation_length Hperm). reflexivity.
    + now apply sorted_firstn.
    + intros l Hin. apply (Permutation_in _ Hperm).
      rewrite <- (firstn_skipn 1000 sorted). apply in_or_app. now left.
    + intros l l' Hin Hin' Hout.
      apply (Permutation_in _ (Permutation_sym Hperm)) in Hin'.
      rewrite <- (firstn_skipn 1000 sorted) in Hin'.
      apply in_app_or in Hin' as [Hin'|Hin']; [contradiction|].
      exact (sorted_firstn_before_skipn _ sorted 1000 l l' Hsorted Hin Hin').
  - apply String.eqb_neq in Epq.
    split; [|split; [|reflexivity]]; split; try discriminate.
    intros (p' & [= <-] & _ & [= <-]). congruence.
Qed.

End LogsFacts.

(** ** The timetable upload *)

Module TimetableFacts.
Import Schema Timetable MoreSamples.

Lemma insert_class_adds_one name st en dt now d id d' :
  Classes.insert_class name st en dt now d = SqlOk (id, d') ->
  classes d' = (classes d ++ [mkClass (next_class_id d) name st en dt])%list /\
  students d' = students d /\ attendance d' = attendance d /\
  next_class_id d' = next_class_id d + 1.
Proof.
  unfold Classes.insert_class. destruct (negb _); [discriminate|].
  intros [= <- <-]. simpl. auto.
Qed.

Lemma insert_rows_adds read_row data now : forall d n,
  exists added,
    classes (fst (insert_rows read_row data now d n)) = (classes d ++ added)%list /\
    snd (insert_rows read_row data now d n) = n + Z.of_nat (List.length added) /\
    (List.length added <= List.length data)%nat /\
    students (fst (insert_rows read_row data now d n)) = students d /\
    attendance (fst (insert_rows read_row data now d n)) = attendance d /\
    (forall c, In c added -> exists row,
        In row data /\
        truthy (row_class_name row) = true /\ truthy (row_start_time row) = true /\
        truthy (row_end_time row) = true /\ truthy (row_date row) = true /\
        read_row row = Some (c_class_name c, c_start_time c, c_end_time c, c_date c)).
Proof.
  induction data as [|row data IH]; intros d n; simpl.
  - exists []. rewrite app_nil_r. simpl. repeat split; auto; try lia; intros c [].
  - assert (Hskip : exists added,
      classes (fst (insert_rows read_row data now d n)) = (classes d ++ added)%list /\
      snd (insert_rows read_row data now d n) = n + Z.of_nat (List.length added) /\
      (List.length added <= S (List.length data))%nat /\
      students (fst (insert_rows read_row data now d n)) = students d /\
      attendance (fst (insert_rows read_row data now d n)) = attendance d /\
      (forall c, In c added -> exists row0,
        (row = row0 \/ In row0 data) /\
        truthy (row_class_name row0) = true /\ truthy (row_start_time row0) = true /\
        truthy (row_end_time row0) = true /\ truthy (row_date row0) = true /\
        read_row row0 = Some (c_class_name c, c_start_time c, c_end_time c, c_date c))).
    { destruct (IH d n) as (added & H1 & H2 & H3 & H4 & H5 & H6).
      exists added. repeat split; auto.
      intros c Hc. destruct (H6 c Hc) as (row0 & Hin & H). exists row0. tauto. }
    destruct (truthy (row_class_name row) && truthy (row_start_time row)
              && truthy (row_end_time row) && truthy (row_date row)) eqn:Ht;
      [|exact Hskip].
    destruct (read_row row) as [[[[name st] en] dt]|] eqn:Hr; [|exact Hskip].
    destruct (Classes.insert_class name st en dt now d) as [[id d']|e] eqn:Hi; [|exact Hskip].
    apply insert_class_adds_one in Hi as (Hc & Hs & Ha & _).
    destruct (IH d' (n + 1)) as (added & H1 & H2 & H3 & H4 & H5 & H6).
    exists (mkClass (next_class_id d) name st en dt :: added).
    rewrite H1, H2, H4, H5, Hc, Hs, Ha, <- app_assoc. simpl List.length.
    repeat split; auto; try lia.
    intros c [<-|Hc']; simpl.
    + exists row. rewrite !andb_true_iff in Ht. tauto.
    + destruct (H6 c Hc') as (row0 & Hin & H). exists row0. tauto.
Qed.

(** X12: the timetable upload. The classes that existed stay as they
    were, students and attendance are not touched, and every class that is
    added comes from a row of the sheet with all four columns filled. When
    the uploaded file is on disk, the handler answers 200, the number in its
    message is the number of classes it added, and the file is removed. *)
Theorem timetable_upload_reports_the_classes_it_added :
  forall read_row path data now d fs,
    let '(r, d', fs') := upload_timetable read_row (Some path) (Some data) now d fs in
    exists added,
      classes d' = (classes d ++ added)%list /\
      (List.length added <= List.length data)%nat /\
      students d' = students d /\ attendance d' = attendance d /\
      (forall c, In c added -> exists row,
          In row data /\
          truthy (row_class_name row) = true /\ truthy (row_start_time row) = true /\
          truthy (row_end_time row) = true /\ truthy (row_date row) = true /\
          read_row row = Some (c_class_name c, c_start_time c, c_end_time c, c_date c)) /\
      if existsSync path fs
      then r = res_json (JObj [("success", JBool true);
                               ("message",
                                JStr (string_of_Z (Z.of_nat (List.length added))
                                      ++ " classes uploaded successfully"))]) /\
           existsSync path fs' = false
      else res_status r = 500 /\ fs' = fs.
Proof.
  intros read_row path data now d fs. unfold upload_timetable.
  destruct (insert_rows_adds read_row data now d 0) as (added & H1 & H2 & H3 & H4 & H5 & H6).
  destruct (insert_rows read_row data now d 0) as [d' n]. simpl in *. subst n.
  destruct (existsSync path fs) eqn:E; exists added; rewrite ?E; repeat split; auto.
  apply FramesFacts.existsSync_unlinkSync.
Qed.

End TimetableFacts.

(** ** From the login to the middleware *)

Module SessionFacts.
Import Auth Samples.

Lemma bearer_of_header token :
  split_space token = [token] ->
  bearer_token (Some ("Bearer " ++ token)%string) = Some token.
Proof. intros H. unfold bearer_token. simpl. now rewrite H. Qed.

Section WithLibrary.

Variable hmac : string -> claims -> string.
Variable encode : jwt -> string.
Variable decode : string -> option jwt.

(** X13: the token of a login opens the API for 24 hours. When the login
    handler issues a token at time [t0], the token has no space in it and
    the library reads it back as it was written, a request that carries it
    as [Bearer <token>] is handed on by the middleware, with the user and
    the role admin, at every moment before [t0] plus 24 hours, and is
    answered 403 from that moment on. *)
Theorem issued_token_is_accepted_until_it_expires :
  forall env user pass t0 token,
    login_token (login hmac encode env user pass t0) = Some token ->
    token <> ""%string ->
    split_space token = [token] ->
    (let c := mkClaims (Students.field_text user) "admin" t0 (Some (t0 + 24 * 60 * 60)) in
     decode token = Some (mkJwt c (hmac (Students.field_text (JWT_SECRET env)) c))) ->
    forall now,
      authenticateToken hmac decode env (Some ("Bearer " ++ token)%string) now
      = if now <? t0 + 24 * 60 * 60
        then Next (mkClaims (Students.field_text user) "admin" t0 (Some (t0 + 24 * 60 * 60)))
        else Respond (res_error 403 "Invalid token").
Proof.
  intros env user pass t0 token Hlogin Hne Hsp Hdec now.
  unfold login in Hlogin.
  destruct (negb _); [discriminate|].
  destruct (_ && _); [|discriminate].
  unfold jwt_sign in Hlogin.
  destruct (JWT_SECRET env) as [key|] eqn:Hkey; [|discriminate].
  destruct (key =? "")%string eqn:Ek; [discriminate|].
  clear Hlogin. cbv zeta in Hdec. simpl Students.field_text in Hdec.
  unfold authenticateToken. rewrite (bearer_of_header token Hsp).
  apply String.eqb_neq in Hne. rewrite Hne.
  unfold jwt_verify. rewrite Hkey, Ek, Hdec.
  cbn [jwt_signature jwt_claims exp]. rewrite String.eqb_refl. cbn [negb].
  destruct (t0 + 24 * 60 * 60 <=? now) eqn:E1; destruct (now <? t0 + 24 * 60 * 60) eqn:E2;
    try reflexivity.
  - apply Z.leb_le in E1. apply Z.ltb_lt in E2. lia.
  - apply Z.leb_gt in E1. apply Z.ltb_ge in E2. lia.
Qed.

End WithLibrary.

Lemma issued_token_is_accepted_until_it_expires_witness :
  authenticateToken sample_hmac sample_decode sample_env
                    (Some "Bearer admin.signing-key/admin") 87399
  = Next (mkClaims "admin" "admin" 1000 (Some 87400)) /\
  authenticateToken sample_hmac sample_decode sample_env
                    (Some "Bearer admin.signing-key/admin") 87400
  = Respond (res_error 403 "Invalid token").
Proof.
  assert (Hl : login_token (login sample_hmac sample_encode sample_env
                                  (Some "admin") (Some "s3cret") 1000)
               = Some "admin.signing-key/admin"%string) by reflexivity.
  assert (Hne : "admin.signing-key/admin"%string <> ""%string) by discriminate.
  assert (Hsp : split_space "admin.signing-key/admin" = ["admin.signing-key/admin"%string])
    by reflexivity.
  pose proof (issued_token_is_accepted_until_it_expires sample_hmac sample_encode
                sample_decode sample_env (Some "admin") (Some "s3cret") 1000
                "admin.signing-key/admin" Hl Hne Hsp eq_refl) as H.
  split; [exact (H 87399) | exact (H 87400)].
Defined.

End SessionFacts.

(** ** Frame intake: files, sockets and the events of a request *)

Module FrameIntakeFacts.
Import Hub Frames Samples MoreSamples.



(** What [broadcast] does to a socket, for a series of messages. *)
Lemma receive_nothing ws :
  (if is_open (readyState ws)
   then mkSocket (socket_id ws) (readyState ws) (terminalId ws) (sent ws ++ [])
   else ws) = ws.
Proof. destruct ws as [i r t s]. simpl. rewrite app_nil_r. now destruct (is_open r). Qed.

Lemma broadcast_delivers message cs :
  broadcast message cs
  = (map (fun ws => if is_open (readyState ws)
                    then mkSocket (socket_id ws) (readyState ws) (terminalId ws)
                                  (sent ws ++ [message])
                    else ws) cs, true).
Proof.
  unfold broadcast. induction cs as [|ws cs IH]; simpl; [reflexivity|].
  unfold ws_send at 1. destruct (is_open (readyState ws)); rewrite IH; reflexivity.
Qed.

Lemma broadcast_each_delivers rq ts entries : forall messages cs,
  map (attendance_message rq ts) entries = map Some messages ->
  broadcast_each rq ts entries cs
  = (map (fun ws => if is_open (readyState ws)
                    then mkSocket (socket_id ws) (readyState ws) (terminalId ws)
                                  (sent ws ++ messages)
                    else ws) cs, true).
Proof.
  induction entries as [|entry entries IH]; intros [|m ms] cs H; simpl in H;
    try discriminate.
  - simpl. f_equal. rewrite <- (map_id cs) at 1. apply map_ext. intros ws.
    symmetry. apply receive_nothing.
  - injection H as Hm Hrest. simpl. rewrite Hm, broadcast_delivers.
    rewrite (IH ms _ Hrest), map_map. f_equal. apply map_ext. intros ws.
    destruct (is_open (readyState ws)) eqn:E; simpl; rewrite E; [|reflexivity].
    now rewrite <- app_assoc.
Qed.

Section WithParser.

Variable JSON_parse : string -> option json.
Variable js_gt_zero : json -> bool.

Abbreviation on_close := (on_close JSON_parse js_gt_zero).
Abbreviation run := (run JSON_parse js_gt_zero).
Abbreviation process_frame := (process_frame JSON_parse js_gt_zero).





(** X17: recognized students are announced. When the image is text, the
    system calls succeed, and the recognizer exits with code 0 before the
    deadline with output that parses to an object whose [attendance_marked]
    is a list of entries, none of them [null]: the request is answered 200
    with the parsed output at the moment of the exit, every open socket of
    the hub has received one message for each entry, in the order of the
    entries, the other sockets have received nothing, and the frame file is
    gone. *)
Theorem recognized_students_are_announced :
  forall rq ts c t0 fs cs text at_ output fields entries messages,
    image rq = JStr text -> passes_validation rq ->
    behaviour c = Exits at_ (Some 0) output ->
    Z.max t0 at_ < t0 + timeout_ms ->
    JSON_parse output = Some (JObj fields) ->
    get_field "attendance_marked" fields = JArr entries ->
    map (attendance_message rq ts) entries = map Some messages ->
    let st := fst (process_frame (mkSys false SpawnStarts) rq ts c t0 (initial fs cs)) in
    responses st = [mkSent (Z.max t0 at_) ByClose (res_json (JObj fields))] /\
    clients st
    = map (fun ws => if is_open (readyState ws)
                     then mkSocket (socket_id ws) (readyState ws) (terminalId ws)
                                   (sent ws ++ messages)
                     else ws) cs /\
    existsSync (tempImagePath rq t0) (files st) = false.
Proof.
  intros rq ts c t0 fs cs text at_ output fields entries messages
         Hi (Hvi & Hvc & Hvt) Hb Hlt Hp Hf Hm st.
  subst st. unfold Frames.process_frame, handler_start.
  rewrite Hvi, Hvc, Hvt, Hi. simpl.
  unfold Frames.run. rewrite Hb.
  apply Z.ltb_lt in Hlt. rewrite Hlt.
  set (path := tempImagePath rq t0).
  split; [|split; [|apply FramesFacts.on_close_files]].
  - unfold Frames.on_close.
    destruct (FramesFacts.cleanup_other path
                (mkState (writeFileSync path fs) cs [] false (Some (t0 + timeout_ms))
                         false false)) as (Hc & Hr & Hrc & _).
    unfold headersSent. simpl in *.
    destruct (cleanup path _) as [fs1 cs1 rs1 rc1 tm1 k1 cl1]. simpl in *. subst cs1 rs1 rc1.
    simpl. rewrite Hp. simpl. rewrite Hf, (broadcast_each_delivers rq ts entries messages cs Hm).
    reflexivity.
  - unfold Frames.on_close.
    destruct (FramesFacts.cleanup_other path
                (mkState (writeFileSync path fs) cs [] false (Some (t0 + timeout_ms))
                         false false)) as (Hc & Hr & Hrc & _).
    unfold headersSent. simpl in *.
    destruct (cleanup path _) as [fs1 cs1 rs1 rc1 tm1 k1 cl1]. simpl in *. subst cs1 rs1 rc1.
    simpl. rewrite Hp. simpl. rewrite Hf, (broadcast_each_delivers rq ts entries messages cs Hm).
    reflexivity.
Qed.

End WithParser.

End FrameIntakeFacts.

Module FrameIntakeWitness.
Import Hub Frames Samples MoreSamples.

Lemma recognized_students_are_announced_witness :
  let st := fst (process_frame marked_parse (fun _ => false) (mkSys false SpawnStarts)
                               terminal_frame "2024-03-01T09:15:00.000Z"
                               (mkChild (Exits 1200 (Some 0) "marked") None) 1000
                               (initial [] sample_sockets)) in
  map (fun ws => List.length (sent ws)) (clients st) = [1%nat; 0%nat] /\
  map (fun s => res_status (sent_response_ s)) (responses st) = [200].
Proof.
  assert (Hv : passes_validation terminal_frame) by (repeat split; reflexivity).
  assert (Hlt : Z.max 1000 1200 < 1000 + timeout_ms) by (vm_compute; reflexivity).
  destruct (FrameIntakeFacts.recognized_students_are_announced
              marked_parse (fun _ => false) terminal_frame "2024-03-01T09:15:00.000Z"
              (mkChild (Exits 1200 (Some 0) "marked") None) 1000 [] sample_sockets
              "data:image/jpeg;base64,/9j/4AAQ" 1200 "marked" marked_result
              [JObj [("student_name", JStr "Ada"); ("student_id", JStr "S1")]]
              [JObj [("type", JStr "attendance_marked"); ("student_name", JStr "Ada");
                     ("student_id", JStr "S1"); ("class_id", JNum 1);
                     ("terminal_id", JStr "T1");
                     ("timestamp", JStr "2024-03-01T09:15:00.000Z")]]
              eq_refl Hv eq_refl Hlt eq_refl eq_refl eq_refl) as (Hr & Hc & _).
  cbv zeta. rewrite Hr, Hc. split; reflexivity.
Defined.


Lemma deliver_at_most_one_witness :
  (List.length
     (responses (fold_left (deliver sample_parse (fun _ => false) terminal_frame
                                    "temp/frame_T1_1000.jpg" "2024-03-01T09:15:00.000Z")
                           late_events (initial ["temp/frame_T1_1000.jpg"%string] [])))
   <= 1)%nat.
Proof.
  assert (Hinv : headersSent (initial ["temp/frame_T1_1000.jpg"%string] []) = true ->
                 responseCompleted (initial ["temp/frame_T1_1000.jpg"%string] []) = true)
    by (intros H; discriminate H).
  destruct (FramesFacts.deliver_at_most_one sample_parse (fun _ => false) terminal_frame
              "temp/frame_T1_1000.jpg" "2024-03-01T09:15:00.000Z" late_events
              (initial ["temp/frame_T1_1000.jpg"%string] []) Hinv) as [_ H].
  change (responseCompleted (initial ["temp/frame_T1_1000.jpg"%string] [])) with false in H.
  cbv iota in H. destruct H as [H | [s H]]; rewrite H; simpl; lia.
Defined.

Lemma frame_file_removed_after_recognizer_witness :
  existsSync "temp/frame_T1_1000.jpg"
             (files (fst (process_frame sample_parse (fun _ => false)
                                        (mkSys false SpawnStarts) terminal_frame
                                        "2024-03-01T09:15:00.000Z" (mkChild Hangs None) 1000
                                        (initial [] []))))
  = false.
Proof.
  assert (Hv : passes_validation terminal_frame) by (repeat split; reflexivity).
  exact (FramesFacts.frame_file_removed_after_recognizer sample_parse (fun _ => false)
           (mkSys false SpawnStarts) terminal_frame "2024-03-01T09:15:00.000Z"
           (mkChild Hangs None) 1000 [] [] Hv eq_refl eq_refl).
Defined.

End FrameIntakeWitness.

(** ** The terminal's view of the schedule *)

Module ScheduleFacts.
Import Schema Terminal TerminalClient Samples MoreSamples.


(** X19: the terminal and the server agree on the class in session. With
    the same clock reading, the class that [GET /api/terminal/current-class]
    reports as current is one the terminal page marks as active; and when
    the page marks any class of the schedule as active, the server reports
    a current class. *)
Theorem terminal_marks_the_class_the_server_reports :
  forall now d,
    let r := current_class now d in
    (forall v, class_ r = Some v -> isClassCurrentlyActive now v = true) /\
    (forall c, In c (classes d) -> isClassCurrentlyActive now (view c) = true ->
               hasCurrentClass r = true /\ exists v, class_ r = Some v)
    /\ (hasCurrentClass r = true <-> exists v, class_ r = Some v).
Proof.
  intros now d r. subst r. unfold current_class.
  pose proof (TerminalFacts.current_query_earliest (currentDate now) (currentTime now)
                (classes d)) as H.
  cbv zeta in H.
  destruct (current_query (currentDate now) (currentTime now) (classes d)) as [c|]; simpl.
  - destruct H as (_ & Hs & _). split; [|split].
    + intros v [= <-]. exact Hs.
    + intros c' _ _. eauto.
    + split; eauto.
  - split; [discriminate | split].
    + intros c Hin Ha. pose proof (H c Hin) as E.
      unfold isClassCurrentlyActive, view in Ha.
      cbn [v_date v_start_time v_end_time] in Ha. congruence.
    + split; [discriminate | intros [v Hv]; discriminate].
Qed.

End ScheduleFacts.

(** ** The registry of the terminal server *)

Module TerminalServerFacts.
Import Hub TerminalServer MoreSamples.

Lemma get_set_same terminalId ws terminals : get terminalId (set terminalId ws terminals) = Some ws.
Proof.
  induction terminals as [|[k v] rest IH]; simpl; [now rewrite String.eqb_refl|].
  destruct (k =? terminalId)%string eqn:E; simpl; now rewrite E.
Qed.

Lemma get_set_other terminalId other ws terminals :
  other <> terminalId -> get other (set terminalId ws terminals) = get other terminals.
Proof.
  intros Hne. induction terminals as [|[k v] rest IH]; simpl.
  - assert (E : (terminalId =? other)%string = false) by (apply String.eqb_neq; congruence).
    now rewrite E.
  - destruct (k =? terminalId)%string eqn:E; simpl.
    + apply String.eqb_eq in E. subst k.
      assert (E' : (terminalId =? other)%string = false) by (apply String.eqb_neq; congruence).
      now rewrite E'.
    + destruct (k =? other)%string; [reflexivity | exact IH].
Qed.

Lemma get_delete_same terminalId terminals : get terminalId (delete terminalId terminals) = None.
Proof.
  unfold delete. induction terminals as [|[k v] rest IH]; simpl; [reflexivity|].
  destruct (k =? terminalId)%string eqn:E; simpl; [exact IH | now rewrite E].
Qed.

Lemma keys_of_delete terminalId terminals :
  ~ In terminalId (getConnectedTerminals (delete terminalId terminals)).
Proof.
  unfold getConnectedTerminals, delete. intros Hin.
  apply in_map_iff in Hin as ([k v] & Hk & Hin). simpl in Hk. subst k.
  apply filter_In in Hin as [_ H]. simpl in H. now rewrite String.eqb_refl in H.
Qed.

Lemma is_open_OPEN ws : is_open (readyState ws) = true <-> readyState ws = OPEN.
Proof. destruct (readyState ws); simpl; split; congruence. Qed.

(** X20: a broadcast of the terminal server. The loop runs to its end;
    the registry keeps its terminals in their order; a terminal receives the
    message, once and after what it had received, exactly when its socket
    is open and it is not the excluded terminal; with no terminal excluded
    every open socket receives it. *)
Theorem terminal_broadcast_reaches_open_terminals_but_the_excluded :
  forall message excludeTerminal terminals,
    snd (broadcast message excludeTerminal terminals) = true /\
    getConnectedTerminals (fst (broadcast message excludeTerminal terminals))
    = getConnectedTerminals terminals /\
    forall terminalId,
      get terminalId (fst (broadcast message excludeTerminal terminals))
      = match get terminalId terminals with
        | Some ws =>
            if is_open (readyState ws)
               && negb (match excludeTerminal with
                        | Some x => (x =? terminalId)%string
                        | None => false
                        end)
            then Some (mkSocket (socket_id ws) (readyState ws) (Hub.terminalId ws)
                                (sent ws ++ [message]))
            else Some ws
        | None => None
        end.
Proof.
  intros message ex terminals. unfold broadcast, getConnectedTerminals.
  induction terminals as [|[k ws] rest (IHok & IHkeys & IHget)]; simpl; [auto|].
  assert (Hcb : exists ws',
             (if not_excluded k ex && is_open (readyState ws)
              then ws_send message ws else Some ws) = Some ws' /\
             ws' = if is_open (readyState ws)
                      && negb (match ex with Some x => (x =? k)%string | None => false end)
                   then mkSocket (socket_id ws) (readyState ws) (Hub.terminalId ws)
                                 (sent ws ++ [message])
                   else ws).
  { unfold not_excluded, ws_send.
    destruct ex as [x|]; [rewrite (String.eqb_sym k x)|];
      destruct (is_open (readyState ws)); try destruct (x =? k)%string; simpl; eauto. }
  destruct Hcb as (ws' & -> & Hws').
  destruct (forEach _ rest) as [rest' ok]. simpl in *.
  split; [exact IHok | split; [now rewrite IHkeys|]].
  intros terminalId. destruct (k =? terminalId)%string eqn:E.
  - apply String.eqb_eq in E. subst k. rewrite Hws'.
    destruct (_ && _); reflexivity.
  - apply IHget.
Qed.

(** X21: a message for one terminal. [sendToTerminal] returns true
    exactly when the terminal is registered with an open socket; it then
    adds the message to that socket, and in every case the sockets of the
    other terminals are untouched; when it returns false nothing
    changes. *)
Theorem sendToTerminal_reaches_a_registered_open_terminal :
  forall terminalId message terminals,
    let (terminals', sent_) := sendToTerminal terminalId message terminals in
    (sent_ = true <-> exists ws, get terminalId terminals = Some ws /\ readyState ws = OPEN) /\
    (forall ws, sent_ = true -> get terminalId terminals = Some ws ->
                get terminalId terminals'
                = Some (mkSocket (socket_id ws) (readyState ws) (Hub.terminalId ws)
                                 (sent ws ++ [message]))) /\
    (forall other, other <> terminalId -> get other terminals' = get other terminals) /\
    (sent_ = false -> terminals' = terminals).
Proof.
  intros terminalId message terminals. unfold sendToTerminal.
  destruct (get terminalId terminals) as [ws|] eqn:Hg.
  - unfold ws_send. destruct (is_open (readyState ws)) eqn:Ho.
    + split; [|split; [|split]].
      * split; [|reflexivity]. intros _. exists ws. split; [reflexivity|].
        now apply is_open_OPEN.
      * intros ws0 _ [= <-]. apply get_set_same.
      * intros other Hne. now apply get_set_other.
      * discriminate.
    + split; [|split; [|split]]; try discriminate; auto.
      split; [discriminate|]. intros (ws0 & [= <-] & Hopen).
      apply is_open_OPEN in Hopen. congruence.
  - split; [|split; [|split]]; try discriminate; auto.
    split; [discriminate|]. intros (ws0 & H & _). discriminate.
Qed.

(** X22: registration is by identifier, not by socket. When a terminal
    connects a second time under the same URL and the socket of its first
    connection closes afterwards, the close handler of the first connection
    removes the identifier: the terminal is no longer listed and cannot be
    reached, whatever the state of its second socket. *)
Theorem closing_the_old_socket_unregisters_the_new_one :
  forall url ws1 ws2 t1 t2 terminals message,
    let terminalId := terminal_of_url url in
    let terminals' :=
      on_close terminalId (on_connection url ws2 t2 (on_connection url ws1 t1 terminals)) in
    get terminalId (on_connection url ws2 t2 (on_connection url ws1 t1 terminals))
    = Some (match ws_send (JObj [("type", JStr "connection_established");
                                 ("terminal_id", JStr terminalId);
                                 ("timestamp", JStr t2)]) ws2 with
            | Some w => w
            | None => ws2
            end) /\
    get terminalId terminals' = None /\
    ~ In terminalId (getConnectedTerminals terminals') /\
    sendToTerminal terminalId message terminals' = (terminals', false).
Proof.
  intros url ws1 ws2 t1 t2 terminals message terminalId terminals'.
  subst terminals'. unfold on_close, on_connection. fold terminalId.
  split; [apply get_set_same|].
  split; [apply get_delete_same|].
  split; [apply keys_of_delete|].
  unfold sendToTerminal. now rewrite get_delete_same.
Qed.

Lemma split_equals_without_equals url :
  ~ In "="%char (list_ascii_of_string url) -> split_equals url = [url].
Proof.
  induction url as [|c url IH]; simpl; intros Hno; [reflexivity|].
  destruct (Ascii.eqb c "=") eqn:E.
  - apply Ascii.eqb_eq in E. subst c. tauto.
  - rewrite IH by tauto. reflexivity.
Qed.

(** X23: connections without an identifier share one entry. A URL without
    an equals sign gives the identifier 'unknown'; of two connections
    with such URLs the registry keeps the socket of the second under that
    identifier, and the first is no longer reached by it. *)
Theorem connections_without_identifier_share_one_entry :
  forall url1 url2 ws1 ws2 t1 t2 terminals,
    ~ In "="%char (list_ascii_of_string url1) ->
    ~ In "="%char (list_ascii_of_string url2) ->
    let terminals' := on_connection url2 ws2 t2 (on_connection url1 ws1 t1 terminals) in
    terminal_of_url url1 = "unknown"%string /\ terminal_of_url url2 = "unknown"%string /\
    (exists ws, get "unknown" terminals' = Some ws /\ socket_id ws = socket_id ws2) /\
    List.length (getConnectedTerminals terminals')
    = List.length (getConnectedTerminals (on_connection url1 ws1 t1 terminals)).
Proof.
  intros url1 url2 ws1 ws2 t1 t2 terminals H1 H2 terminals'.
  assert (E1 : terminal_of_url url1 = "unknown"%string)
    by (unfold terminal_of_url; now rewrite split_equals_without_equals).
  assert (E2 : terminal_of_url url2 = "unknown"%string)
    by (unfold terminal_of_url; now rewrite split_equals_without_equals).
  split; [exact E1 | split; [exact E2|]].
  subst terminals'. unfold on_connection. rewrite E1, E2. split.
  - eexists. split; [apply get_set_same|].
    unfold ws_send. destruct (is_open (readyState ws2)); reflexivity.
  - unfold getConnectedTerminals. rewrite !length_map.
    set (m := set "unknown" _ terminals).
    assert (Hin : get "unknown" m <> None) by (subst m; rewrite get_set_same; discriminate).
    clearbody m. induction m as [|[k v] rest IH]; simpl in *; [congruence|].
    destruct (k =? "unknown")%string; simpl; [reflexivity|].
    f_equal. apply IH. exact Hin.
Qed.

Lemma connections_without_identifier_share_one_entry_witness :
  getConnectedTerminals
    (on_connection "/ws" (mkSocket 2 OPEN JUndefined []) "t2"
       (on_connection "/ws" (mkSocket 1 OPEN JUndefined []) "t1" []))
  = ["unknown"%string].
Proof.
  assert (H : ~ In "="%char (list_ascii_of_string "/ws"))
    by (simpl; intuition discriminate).
  destruct (connections_without_identifier_share_one_entry
              "/ws" "/ws" (mkSocket 1 OPEN JUndefined []) (mkSocket 2 OPEN JUndefined [])
              "t1" "t2" [] H H) as (E1 & _ & _ & _).
  unfold on_connection. rewrite E1. reflexivity.
Defined.

End TerminalServerFacts.

(** ** The log of the terminal page *)

Module TerminalClientFacts.
Import TerminalClient.

Lemma firstn_removelast {A : Type} (n : nat) (l : list A) :
  (n < List.length l)%nat -> firstn n (removelast l) = firstn n l.
Proof.
  intros H. rewrite removelast_firstn_len, firstn_firstn.
  f_equal. lia.
Qed.

Lemma keep_last_20_is_firstn : forall rounds children,
  (List.length children <= rounds + 20)%nat ->
  keep_last_20 rounds children = firstn 20 children.
Proof.
  induction rounds as [|rounds IH]; intros children H; unfold keep_last_20; fold keep_last_20.
  - symmetry. apply firstn_all2. lia.
  - destruct (Nat.ltb 20 (List.length children)) eqn:E.
    + apply Nat.ltb_lt in E. rewrite IH.
      * apply firstn_removelast. exact E.
      * rewrite removelast_firstn_len, length_firstn. lia.
    + apply Nat.ltb_ge in E. symmetry. now apply firstn_all2.
Qed.

Lemma firstn_app_firstn {A : Type} (n : nat) (l1 l2 : list A) :
  firstn n (l1 ++ firstn n l2) = firstn n (l1 ++ l2).
Proof.
  rewrite !firstn_app, firstn_firstn. do 2 f_equal. lia.
Qed.

(** X24: the log of the page shows the 20 newest entries. Starting from
    a container of at most 20 entries, after any series of calls of [log]
    the container holds the entries of the calls, the newest first,
    followed by what it held before, cut after 20 entries: the loop that
    trims the container ends with at most 20 children, and an older entry
    is never shown in place of a newer one. *)
Theorem log_shows_the_newest_20_entries :
  forall calls logContainer,
    (List.length logContainer <= 20)%nat ->
    log_all calls logContainer
    = firstn 20 (rev (map (fun '(time, message, type) =>
                             mkEntry ("log-entry " ++ type) (time ++ ": " ++ message))
                          calls)
                 ++ logContainer)%list /\
    (List.length (log_all calls logContainer) <= 20)%nat.
Proof.
  assert (Hlog : forall time message type c,
             log time message type c
             = firstn 20 (mkEntry ("log-entry " ++ type) (time ++ ": " ++ message) :: c)).
  { intros time message type c. unfold log. apply keep_last_20_is_firstn. lia. }
  assert (Hall : forall calls logContainer,
             (List.length logContainer <= 20)%nat ->
             log_all calls logContainer
             = firstn 20 (rev (map (fun '(time, message, type) =>
                                      mkEntry ("log-entry " ++ type) (time ++ ": " ++ message))
                                   calls)
                          ++ logContainer)%list).
  { unfold log_all.
    induction calls as [|[[time message] type] calls IH]; intros logContainer Hlen.
    - cbn [map rev fold_left]. rewrite app_nil_l. symmetry. now apply firstn_all2.
    - cbn [map rev fold_left]. rewrite IH.
      + rewrite Hlog, firstn_app_firstn, <- app_assoc. reflexivity.
      + rewrite Hlog, length_firstn. lia. }
  intros calls logContainer Hlen. split; [now apply Hall|].
  rewrite Hall by exact Hlen. rewrite length_firstn. lia.
Qed.

Lemma log_shows_the_newest_20_entries_witness :
  log_all [("09:00:00", "Camera started successfully", "success");
           ("09:00:05", "Face recognition started", "success")]%string []
  = [mkEntry "log-entry success" "09:00:05: Face recognition started";
     mkEntry "log-entry success" "09:00:00: Camera started successfully"].
Proof.
  assert (Hlen : (List.length (@nil log_entry) <= 20)%nat) by (simpl; lia).
  rewrite (proj1 (log_shows_the_newest_20_entries
                    [("09:00:00", "Camera started successfully", "success");
                     ("09:00:05", "Face recognition started", "success")]%string [] Hlen)).
  reflexivity.
Defined.

End TerminalClientFacts.

(** ** The student report of the schema and the report of the backend *)

Module StudentReportFacts.
Import Schema StudentReport Samples.

Lemma flat_map_nothing {A B : Type} (l : list A) : flat_map (fun _ : A => @nil B) l = [].
Proof. induction l; simpl; auto. Qed.

Lemma flat_map_pointwise_app {A B : Type} (g h : A -> list B) (l : list A) :
  Permutation (flat_map (fun x => (g x ++ h x)%list) l) (flat_map g l ++ flat_map h l)%list.
Proof.
  induction l as [|x l IH]; simpl; [constructor|].
  rewrite IH, <- !app_assoc. apply Permutation_app_head.
  rewrite !app_assoc. apply Permutation_app_tail. apply Permutation_app_comm.
Qed.

(** The two loops of a join can be exchanged. *)
Lemma join_loops_commute {A B C : Type} (f : A -> B -> list C) (la : list A) (lb : list B) :
  Permutation (flat_map (fun a => flat_map (fun b => f a b) lb) la)
              (flat_map (fun b => flat_map (fun a => f a b) la) lb).
Proof.
  induction la as [|a la IH]; simpl.
  - now rewrite flat_map_nothing.
  - rewrite flat_map_pointwise_app. now apply Permutation_app_head.
Qed.

Lemma filter_of_flat_map {Row Out : Type} (keep : Out -> bool) (rows_of : Row -> list Out)
    (rows : list Row) :
  filter keep (flat_map rows_of rows) = flat_map (fun r => filter keep (rows_of r)) rows.
Proof.
  induction rows as [|r rows IH]; simpl; [reflexivity|]. now rewrite filter_app, IH.
Qed.

Lemma map_of_flat_map {Row Mid Out : Type} (col : Mid -> Out) (rows_of : Row -> list Mid)
    (rows : list Row) :
  map col (flat_map rows_of rows) = flat_map (fun r => map col (rows_of r)) rows.
Proof.
  induction rows as [|r rows IH]; simpl; [reflexivity|]. now rewrite map_app, IH.
Qed.

Lemma flat_map_of_filter {Row Out : Type} (on : Row -> bool) (rows_of : Row -> list Out)
    (rows : list Row) :
  flat_map rows_of (filter on rows) = flat_map (fun r => if on r then rows_of r else []) rows.
Proof.
  induction rows as [|r rows IH]; simpl; [reflexivity|].
  destruct (on r); simpl; now rewrite IH.
Qed.

Section OneQuery.

Variable p : string.
Variables sd ed : date.
Variable d : db.

(** The row of a student, a record and a class that belong together and
    pass the [WHERE] clause. *)
Abbreviation kernel := (fun (s : student) (a : attendance_row) (c : class) =>
  if (s_student_id s =? a_student_id a)%string && (a_class_id a =? c_id c)
     && ((s_student_id s =? p)%string && (date_leb sd (c_date c) && date_leb (c_date c) ed))
  then [select (mkLeft s (Some a) (Some c))] else []).

Lemma classes_of_a_record s a :
  map select
    (filter (where_clause p sd ed)
       match filter (fun c => a_class_id a =? c_id c) (classes d) with
       | [] => [mkLeft s (Some a) None]
       | found => map (fun c => mkLeft s (Some a) (Some c)) found
       end)
  = flat_map (fun c =>
      if (a_class_id a =? c_id c)
         && ((s_student_id s =? p)%string && (date_leb sd (c_date c) && date_leb (c_date c) ed))
      then [select (mkLeft s (Some a) (Some c))] else []) (classes d).
Proof.
  assert (H : map select
                (filter (where_clause p sd ed)
                   (map (fun c => mkLeft s (Some a) (Some c))
                        (filter (fun c => a_class_id a =? c_id c) (classes d))))
              = flat_map (fun c =>
                  if (a_class_id a =? c_id c)
                     && ((s_student_id s =? p)%string
                         && (date_leb sd (c_date c) && date_leb (c_date c) ed))
                  then [select (mkLeft s (Some a) (Some c))] else []) (classes d)).
  { induction (classes d) as [|c cs IH]; simpl; [reflexivity|].
    destruct (a_class_id a =? c_id c); simpl; [|exact IH].
    unfold where_clause at 1. simpl.
    destruct ((s_student_id s =? p)%string && (date_leb sd (c_date c) && date_leb (c_date c) ed));
      simpl; now rewrite IH. }
  destruct (filter (fun c => a_class_id a =? c_id c) (classes d)) as [|c found] eqn:E.
  - simpl in H. rewrite <- H. unfold where_clause. simpl. now rewrite andb_false_r.
  - exact H.
Qed.

Lemma records_of_a_student s :
  map select
    (filter (where_clause p sd ed)
       match filter (fun a => (s_student_id s =? a_student_id a)%string) (attendance d) with
       | [] => [mkLeft s None None]
       | records =>
           flat_map (fun a =>
             match filter (fun c => a_class_id a =? c_id c) (classes d) with
             | [] => [mkLeft s (Some a) None]
             | found => map (fun c => mkLeft s (Some a) (Some c)) found
             end) records
       end)
  = flat_map (fun a => flat_map (fun c => kernel s a c) (classes d)) (attendance d).
Proof.
  assert (H : map select
                (filter (where_clause p sd ed)
                   (flat_map (fun a =>
                      match filter (fun c => a_class_id a =? c_id c) (classes d) with
                      | [] => [mkLeft s (Some a) None]
                      | found => map (fun c => mkLeft s (Some a) (Some c)) found
                      end)
                      (filter (fun a => (s_student_id s =? a_student_id a)%string)
                              (attendance d))))
              = flat_map (fun a => flat_map (fun c => kernel s a c) (classes d))
                         (attendance d)).
  { rewrite filter_of_flat_map, map_of_flat_map, flat_map_of_filter.
    apply flat_map_ext. intros a.
    destruct (s_student_id s =? a_student_id a)%string; simpl.
    - apply classes_of_a_record.
    - now rewrite flat_map_nothing. }
  destruct (filter (fun a => (s_student_id s =? a_student_id a)%string) (attendance d))
    as [|a records] eqn:E.
  - simpl in H. rewrite <- H. unfold where_clause. simpl. now rewrite andb_false_r.
  - exact H.
Qed.

Lemma rows_of_the_procedure :
  map select (filter (where_clause p sd ed) (left_joined d))
  = flat_map (fun s =>
      flat_map (fun a => flat_map (fun c => kernel s a c) (classes d)) (attendance d))
      (students d).
Proof.
  unfold left_joined. rewrite filter_of_flat_map, map_of_flat_map.
  apply flat_map_ext. intros s. apply records_of_a_student.
Qed.

Lemma rows_of_the_handler :
  p <> ""%string ->
  map of_report_row
      (filter (Reports.where_clause (Some sd) (Some ed) (Some p)) (Reports.joined d))
  = flat_map (fun a =>
      flat_map (fun s => flat_map (fun c => kernel s a c) (classes d)) (students d))
      (attendance d).
Proof.
  intros Hp. unfold Reports.joined.
  rewrite filter_of_flat_map, map_of_flat_map. apply flat_map_ext. intros a.
  rewrite filter_of_flat_map, map_of_flat_map. apply flat_map_ext. intros s.
  rewrite (String.eqb_sym (s_student_id s) (a_student_id a)).
  destruct (a_student_id a =? s_student_id s)%string; simpl;
    [|now rewrite flat_map_nothing].
  rewrite filter_of_flat_map, map_of_flat_map. apply flat_map_ext. intros c.
  destruct (a_class_id a =? c_id c); simpl; [|reflexivity].
  unfold Reports.where_clause, Reports.given. simpl.
  apply String.eqb_neq in Hp. rewrite Hp. simpl.
  rewrite (andb_comm (s_student_id s =? p)%string).
  destruct (date_leb sd (c_date c) && date_leb (c_date c) ed && (s_student_id s =? p)%string);
    reflexivity.
Qed.

End OneQuery.

Lemma sr_order_total r1 r2 : report_order r1 r2 = true \/ report_order r2 r1 = true.
Proof.
  unfold report_order.
  destruct r1 as [s1 a1 [c1|]], r2 as [s2 a2 [c2|]]; simpl; auto.
  pose proof (ReportsFacts.date_compare_spec (c_date c2) (c_date c1)) as H21.
  pose proof (ReportsFacts.date_compare_spec (c_date c1) (c_date c2)) as H12.
  destruct (date_compare (c_date c2) (c_date c1)), (date_compare (c_date c1) (c_date c2));
    auto; try lia;
    destruct (Z.compare_spec (c_start_time c1) (c_start_time c2));
    destruct (Z.compare_spec (c_start_time c2) (c_start_time c1)); auto; lia.
Qed.

Lemma sr_order_trans r1 r2 r3 :
  report_order r1 r2 = true -> report_order r2 r3 = true -> report_order r1 r3 = true.
Proof.
  unfold report_order.
  destruct r1 as [s1 a1 [c1|]], r2 as [s2 a2 [c2|]], r3 as [s3 a3 [c3|]]; simpl;
    try reflexivity; try discriminate.
  pose proof (ReportsFacts.date_compare_spec (c_date c2) (c_date c1)) as H21.
  pose proof (ReportsFacts.date_compare_spec (c_date c3) (c_date c2)) as H32.
  pose proof (ReportsFacts.date_compare_spec (c_date c3) (c_date c1)) as H31.
  destruct (date_compare (c_date c2) (c_date c1)); try discriminate;
    destruct (date_compare (c_date c3) (c_date c2)); try discriminate;
    destruct (date_compare (c_date c3) (c_date c1)); try reflexivity; try lia;
    destruct (Z.compare_spec (c_start_time c1) (c_start_time c2)); try discriminate;
    destruct (Z.compare_spec (c_start_time c2) (c_start_time c3)); try discriminate;
    destruct (Z.compare_spec (c_start_time c1) (c_start_time c3));
    try reflexivity; try lia.
Qed.

(** Rows that passed the [WHERE] clause have a class; in the order of the
    procedure their dates descend and, on one date, their starts ascend. *)
Lemma sorted_rows_with_classes p sd ed (l : list left_row) :
  StronglySorted (fun r1 r2 => report_order r1 r2 = true) l ->
  Forall (fun r => where_clause p sd ed r = true) l ->
  StronglySorted (fun r1 r2 =>
                    match sr_date r1, sr_date r2 with
                    | Some d1, Some d2 =>
                        date_compare d1 d2 = Gt \/
                        (date_compare d1 d2 = Eq /\
                         match sr_start_time r1, sr_start_time r2 with
                         | Some t1, Some t2 => t1 <= t2
                         | _, _ => False
                         end)
                    | _, _ => False
                    end) (map select l).
Proof.
  induction 1 as [|x l Hs IH Hx]; intros Hall; simpl; [constructor|].
  inversion Hall as [|? ? Hwx Hwl]; subst.
  constructor; [now apply IH|].
  apply Forall_forall. intros r Hin. apply in_map_iff in Hin as (y & <- & Hin).
  rewrite Forall_forall in Hx, Hwl. specialize (Hx y Hin). specialize (Hwl y Hin).
  unfold where_clause in Hwx, Hwl. unfold report_order in Hx.
  destruct x as [s1 a1 [c1|]]; simpl in *; [|now rewrite andb_false_r in Hwx].
  destruct y as [s2 a2 [c2|]]; simpl in *; [|now rewrite andb_false_r in Hwl].
  pose proof (ReportsFacts.date_compare_spec (c_date c2) (c_date c1)) as H21.
  pose proof (ReportsFacts.date_compare_spec (c_date c1) (c_date c2)) as H12.
  destruct (date_compare (c_date c2) (c_date c1)); try discriminate;
    destruct (date_compare (c_date c1) (c_date c2)); try lia; auto.
  right. split; [reflexivity|].
  destruct (Z.compare_spec (c_start_time c1) (c_start_time c2)); try discriminate; lia.
Qed.

(** X25: the stored procedure and the report of the backend agree. For
    a student identifier that is not empty and a range of dates,
    [GetStudentAttendanceReport] returns the rows that
    [GET /api/reports/attendance] returns for that student and range, each
    as often: its outer joins add no row, no column of a row is [NULL], a
    student without a record in the range has no row, and the rows come
    with the later date first and, on one date, the earlier start first. *)
Theorem student_report_agrees_with_the_backend_report :
  forall p sd ed d,
    p <> ""%string ->
    let rows := GetStudentAttendanceReport p sd ed d in
    Permutation rows (map of_report_row (Reports.report (Some sd) (Some ed) (Some p) d)) /\
    (forall r, In r rows ->
       exists r', r = of_report_row r' /\ In r' (Reports.joined d) /\
                  Reports.r_student_id r' = p /\
                  date_compare sd (Reports.r_date r') <> Gt /\
                  date_compare (Reports.r_date r') ed <> Gt) /\
    StronglySorted (fun r1 r2 =>
                      match sr_date r1, sr_date r2 with
                      | Some d1, Some d2 =>
                          date_compare d1 d2 = Gt \/
                          (date_compare d1 d2 = Eq /\
                           match sr_start_time r1, sr_start_time r2 with
                           | Some t1, Some t2 => t1 <= t2
                           | _, _ => False
                           end)
                      | _, _ => False
                      end) rows.
Proof.
  intros p sd ed d Hp rows.
  assert (Hperm : Permutation rows
                    (map of_report_row (Reports.report (Some sd) (Some ed) (Some p) d))).
  { subst rows. unfold GetStudentAttendanceReport, Reports.report.
    rewrite (Permutation_map select (order_by_perm report_order _)).
    rewrite (Permutation_map of_report_row (order_by_perm Reports.report_order _)).
    rewrite rows_of_the_procedure, (rows_of_the_handler p sd ed d Hp).
    apply (join_loops_commute
             (fun s a => flat_map (fun c =>
                if (s_student_id s =? a_student_id a)%string && (a_class_id a =? c_id c)
                   && ((s_student_id s =? p)%string
                       && (date_leb sd (c_date c) && date_leb (c_date c) ed))
                then [select (mkLeft s (Some a) (Some c))] else []) (classes d))). }
  split; [exact Hperm | split].
  - intros r Hin. apply (Permutation_in _ Hperm) in Hin.
    apply in_map_iff in Hin as (r' & <- & Hin). exists r'. split; [reflexivity|].
    unfold Reports.report in Hin.
    apply (Permutation_in _ (order_by_perm Reports.report_order _)) in Hin.
    apply filter_In in Hin as [Hj Hw]. split; [exact Hj|].
    unfold Reports.where_clause, Reports.given in Hw. simpl in Hw.
    apply String.eqb_neq in Hp. rewrite Hp in Hw. simpl in Hw.
    rewrite !andb_true_iff, !ReportsFacts.date_leb_le, String.eqb_eq in Hw. tauto.
  - subst rows. unfold GetStudentAttendanceReport.
    pose proof (order_by_sorted report_order sr_order_total sr_order_trans
                  (filter (where_clause p sd ed) (left_joined d))) as Hs.
    assert (Hall : Forall (fun r => where_clause p sd ed r = true)
                          (order_by report_order
                             (filter (where_clause p sd ed) (left_joined d)))).
    { apply Forall_forall. intros r Hin.
      apply (Permutation_in _ (order_by_perm report_order _)) in Hin.
      now apply filter_In in Hin. }
    eapply sorted_rows_with_classes; eauto.
Qed.

Lemma student_report_agrees_with_the_backend_report_witness :
  Permutation (GetStudentAttendanceReport "S1" (mkDate 2024 1 1) (mkDate 2024 12 31)
                                          two_students_db)
              (map of_report_row
                   (Reports.report (Some (mkDate 2024 1 1)) (Some (mkDate 2024 12 31))
                                   (Some "S1"%string) two_students_db)).
Proof.
  assert (Hp : "S1"%string <> ""%string) by discriminate.
  exact (proj1 (student_report_agrees_with_the_backend_report
                  "S1" (mkDate 2024 1 1) (mkDate 2024 12 31) two_students_db Hp)).
Defined.


End StudentReportFacts.

(** ** Registering a student twice *)

Module RegistrationFacts.
Import Schema Students.

Lemma insert_student_taken sid name email enc photo now d :
  student_exists sid d = true ->
  insert_student sid name email enc photo now d = SqlError ER_DATA_TOO_LONG \/
  insert_student sid name email enc photo now d = SqlError ER_DUP_ENTRY.
Proof.
  intros He. unfold insert_student. destruct (negb _); [now left|]. rewrite He. now right.
Qed.

Lemma insert_student_registers sid name email enc photo now d id d' :
  insert_student sid name email enc photo now d = SqlOk (id, d') ->
  student_exists sid d' = true.
Proof.
  intros Hi. apply StudentsFacts.insert_student_ok in Hi.
  unfold student_exists. rewrite Hi, existsb_app. simpl.
  now rewrite String.eqb_refl, orb_true_r.
Qed.

(** X26: a student identifier is registered once. A registration that
    is answered 200 leaves the identifier registered; and a registration,
    with or without photo, for an identifier that is registered is never
    answered 200 (it is answered 400, or 500 when a value is too long) and
    leaves the database as it was. *)
Theorem registered_identifier_is_refused :
  forall isEmail form file now d fs,
    let sid := field_text (f_student_id form) in
    (res_status (fst (post_students isEmail form now d)) = 200 ->
     student_exists sid (snd (post_students isEmail form now d)) = true) /\
    (res_status (fst (fst (post_students_with_photo form file now d fs))) = 200 ->
     student_exists sid (snd (fst (post_students_with_photo form file now d fs))) = true) /\
    (student_exists sid d = true ->
     snd (post_students isEmail form now d) = d /\
     (res_status (fst (post_students isEmail form now d)) = 400 \/
      res_status (fst (post_students isEmail form now d)) = 500) /\
     snd (fst (post_students_with_photo form file now d fs)) = d /\
     (res_status (fst (fst (post_students_with_photo form file now d fs))) = 400 \/
      res_status (fst (fst (post_students_with_photo form file now d fs))) = 500)).
Proof.
  intros isEmail form file now d fs sid. subst sid.
  unfold post_students, post_students_with_photo. split; [|split].
  - destruct (negb _); [discriminate|].
    destruct (insert_student _ _ _ _ _ _ _) as [[id d']|e] eqn:Hi.
    + intros _. simpl. eapply insert_student_registers; eauto.
    + destruct e; discriminate.
  - destruct (negb _); [discriminate|]. destruct file as [photo|]; [|discriminate].
    destruct (insert_student _ _ _ _ _ _ _) as [[id d']|e] eqn:Hi.
    + intros _. simpl. eapply insert_student_registers; eauto.
    + destruct e; discriminate.
  - intros He. split; [|split; [|split]].
    + destruct (negb _); [reflexivity|].
      destruct (insert_student_taken _ (field_text (f_name form)) (field_text (f_email form))
                  "" None now d He) as [-> | ->]; reflexivity.
    + destruct (negb _); [now left|].
      destruct (insert_student_taken _ (field_text (f_name form)) (field_text (f_email form))
                  "" None now d He) as [-> | ->]; simpl; auto.
    + destruct (negb _); [reflexivity|]. destruct file as [photo|]; [|reflexivity].
      destruct (insert_student_taken _ (field_text (f_name form)) (field_text (f_email form))
                  "" (Some photo) now d He) as [-> | ->]; reflexivity.
    + destruct (negb _); [now left|]. destruct file as [photo|]; [|now left].
      destruct (insert_student_taken _ (field_text (f_name form)) (field_text (f_email form))
                  "" (Some photo) now d He) as [-> | ->]; simpl; auto.
Qed.

End RegistrationFacts.
